(** * Storage drivers of media-sync ([drivers.py]): a shallow embedding

  The four storage drivers ([LocalDriver], [MinioDriver],
  [GoogleDriveDriver], [AzureDriver]), the [DriverType] enumeration and the
  [create_driver] factory are embedded as functions in a state-and-exception
  monad.  The client libraries the drivers talk to (the operating system,
  the MinIO client, the Google Drive service, the Azure blob SDK) are
  records of operations over an abstract backend state; every call a driver
  makes through such a record is appended to a call log, the way a mock
  records calls. *)

From Stdlib Require Import String Ascii List Bool Arith ZArith Lia.
From stdpp Require Import base option gmap strings list.
Import ListNotations.
Local Open Scope list_scope.
Local Open Scope string_scope.

(** ** Python strings *)

Module PyStr.

(** [s.startswith(p)] *)
Fixpoint startswith (s p : string) : bool :=
  match p, s with
  | EmptyString, _ => true
  | String _ _, EmptyString => false
  | String a p', String b s' => Ascii.eqb a b && startswith s' p'
  end.

(** [s[n:]] *)
Fixpoint drop (n : nat) (s : string) : string :=
  match n, s with
  | O, _ => s
  | S _, EmptyString => EmptyString
  | S n', String _ s' => drop n' s'
  end.

(** [s.endswith(p)]: some suffix of [s] is [p] *)
Fixpoint endswith (s p : string) : bool :=
  String.eqb s p ||
  match s with
  | EmptyString => false
  | String _ s' => endswith s' p
  end.

(** [s.lstrip(c)] for a one-character set *)
Fixpoint lstrip (c : ascii) (s : string) : string :=
  match s with
  | EmptyString => EmptyString
  | String a s' => if Ascii.eqb a c then lstrip c s' else s
  end.

(** [s.rstrip(c)] *)
Fixpoint rstrip (c : ascii) (s : string) : string :=
  match s with
  | EmptyString => EmptyString
  | String a s' =>
      match rstrip c s' with
      | EmptyString => if Ascii.eqb a c then EmptyString else String a EmptyString
      | r => String a r
      end
  end.

(** [s.strip(c)] *)
Definition strip (c : ascii) (s : string) : string :=
  rstrip c (lstrip c s).

(** [sub in s] *)
Fixpoint contains (sub s : string) : bool :=
  startswith s sub ||
  match s with
  | EmptyString => false
  | String _ s' => contains sub s'
  end.

Definition lower_ascii (a : ascii) : ascii :=
  let n := nat_of_ascii a in
  if ((65 <=? n) && (n <=? 90))%nat then ascii_of_nat (n + 32) else a.

(** [s.lower()], on the ASCII range *)
Fixpoint lower (s : string) : string :=
  match s with
  | EmptyString => EmptyString
  | String a s' => String (lower_ascii a) (lower s')
  end.

(** [s.replace(c, r)] for a one-character pattern *)
Fixpoint replace (c : ascii) (r : string) (s : string) : string :=
  match s with
  | EmptyString => EmptyString
  | String a s' =>
      (if Ascii.eqb a c then r else String a EmptyString) ++ replace c r s'
  end.

(** An optional string, [None] read as the empty string *)
Definition or_empty (o : option string) : string :=
  match o with Some s => s | None => EmptyString end.

(** Truth value of a string: [bool(s)] *)
Definition truthy (s : string) : bool :=
  match s with EmptyString => false | _ => true end.

(** Truth value of an optional string ([None] is falsy) *)
Definition otruthy (o : option string) : bool :=
  match o with Some s => truthy s | None => false end.

End PyStr.

(** ** Exceptions and the driver monad *)

(** The exception classes that occur in [drivers.py] or are raised by the
  calls it makes. *)
Inductive exn_class :=
| OSError | SameFileError | FileNotFoundError
| S3Error | AzureError | HttpError
| AttributeError | KeyError | TypeError | ValueError
| DriverError
| KeyboardInterrupt.

(** An exception object: its class, [str(e)], and, for [S3Error], [e.code]. *)
Record exn := Exn { exn_cls : exn_class; exn_str : string; exn_code : string }.

(** [isinstance(e, OSError)]: [shutil.SameFileError] and [FileNotFoundError]
  are subclasses of [OSError]. *)
Definition is_OSError (e : exn) : bool :=
  match exn_cls e with
  | OSError | SameFileError | FileNotFoundError => true
  | _ => false
  end.

Definition is_SameFileError (e : exn) : bool :=
  match exn_cls e with SameFileError => true | _ => false end.

Definition is_S3Error (e : exn) : bool :=
  match exn_cls e with S3Error => true | _ => false end.

Definition is_AzureError (e : exn) : bool :=
  match exn_cls e with AzureError => true | _ => false end.

Definition is_DriverError (e : exn) : bool :=
  match exn_cls e with DriverError => true | _ => false end.

(** [isinstance(e, Exception)]: everything but [KeyboardInterrupt], which
  derives from [BaseException] only. *)
Definition is_Exception (e : exn) : bool :=
  match exn_cls e with KeyboardInterrupt => false | _ => true end.

(** [DriverError(msg)] *)
Definition mkDriverError (msg : string) : exn :=
  {| exn_cls := DriverError; exn_str := msg; exn_code := "" |}.

Inductive result (A : Type) :=
| Ok (a : A)
| Raise (e : exn).
Arguments Ok {A} a.
Arguments Raise {A} e.

(** A computation over a state [Σ] that returns or raises. *)
Definition M (Σ A : Type) : Type := Σ -> result A * Σ.

Definition ret {Σ A} (a : A) : M Σ A := fun σ => (Ok a, σ).

Definition raise {Σ A} (e : exn) : M Σ A := fun σ => (Raise e, σ).

Definition bind {Σ A B} (m : M Σ A) (k : A -> M Σ B) : M Σ B :=
  fun σ =>
  match m σ with
  | (Ok a, σ') => k a σ'
  | (Raise e, σ') => (Raise e, σ')
  end.

(** [try: m  except <classes accepted by sel> as e: h e] *)
Definition try_except {Σ A} (m : M Σ A) (sel : exn -> bool) (h : exn -> M Σ A)
  : M Σ A :=
  fun σ =>
  match m σ with
  | (Ok a, σ') => (Ok a, σ')
  | (Raise e, σ') => if sel e then h e σ' else (Raise e, σ')
  end.

(** What [except <sel> as e: raise DriverError(prefix + str(e))] makes of an
    exception [e]: the [DriverError] when [sel] accepts it, [e] itself when
    not. *)
Definition reraised (sel : exn -> bool) (prefix : string) (e : exn) : exn :=
  if sel e then mkDriverError (prefix ++ exn_str e) else e.

Declare Scope py_scope.
Delimit Scope py_scope with py.
Notation "x <- c ;; k" := (bind c (fun x => k))
  (at level 100, c at next level, right associativity) : py_scope.
Notation "c ;;; k" := (bind c (fun _ => k))
  (at level 100, right associativity) : py_scope.
Local Open Scope py_scope.

(** A backend state together with the log of client calls made so far. *)
Record World (S C : Type) := mkWorld { backend : S; calls : list C }.
Arguments mkWorld {S C} _ _.
Arguments backend {S C} _.
Arguments calls {S C} _.

(** One client call: log it, then let the backend answer. *)
Definition invoke {S C A} (c : C) (op : S -> result A * S) : M (World S C) A :=
  fun w =>
  let '(r, s') := op (backend w) in
  (r, mkWorld s' (calls w ++ [c])%list).

(** ** [DriverType] *)

Inductive DriverType := LOCAL | MINIO | GOOGLE_DRIVE | AZURE.

Module DriverType.

(** [self.value] *)
Definition value (d : DriverType) : string :=
  match d with
  | LOCAL => "local"
  | MINIO => "minio"
  | GOOGLE_DRIVE => "google_drive"
  | AZURE => "azure"
  end.

(** [__str__] and [__repr__] *)
Definition __str__ (d : DriverType) : string := value d.
Definition __repr__ (d : DriverType) : string := value d.

End DriverType.

(** The Python values a comparison with a [DriverType] is made on: a
  configuration value is a string, an enumeration member, an integer or
  [None]. *)
Inductive pyval :=
| VStr (s : string)
| VEnum (d : DriverType)
| VInt (z : Z)
| VNone.

(** What a [__eq__] method hands back. *)
Inductive eq_result :=
| EqBool (b : bool)
| EqNone
| EqNotImplemented.

(** [DriverType.__eq__(self, value)]: the method has no [else] branch and no
  final [return], so it returns [None] for a comparand that is not a [str]. *)
Definition DriverType__eq__ (self : DriverType) (value : pyval) : eq_result :=
  match value with
  | VStr s => EqBool (String.eqb (DriverType.value self) s)
  | _ => EqNone
  end.

(** [str.__eq__], [int.__eq__] and [NoneType.__eq__]: [NotImplemented] on a
  foreign type. *)
Definition str__eq__ (self : string) (value : pyval) : eq_result :=
  match value with
  | VStr s => EqBool (String.eqb self s)
  | _ => EqNotImplemented
  end.

Definition int__eq__ (self : Z) (value : pyval) : eq_result :=
  match value with
  | VInt z => EqBool (Z.eqb self z)
  | _ => EqNotImplemented
  end.

Definition None__eq__ (value : pyval) : eq_result :=
  match value with
  | VNone => EqBool true
  | _ => EqNotImplemented
  end.

Definition type__eq__ (a b : pyval) : eq_result :=
  match a with
  | VStr s => str__eq__ s b
  | VEnum d => DriverType__eq__ d b
  | VInt z => int__eq__ z b
  | VNone => None__eq__ b
  end.

(** Identity ([a is b]), which [==] falls back on when both [__eq__] calls
  return [NotImplemented]; that only happens between values of two
  different types above, which are never the same object.  Enumeration
  members and [None] are singletons. *)
Definition py_is (a b : pyval) : bool :=
  match a, b with
  | VEnum d, VEnum e => String.eqb (DriverType.value d) (DriverType.value e)
  | VNone, VNone => true
  | _, _ => false
  end.

(** The operator [a == b]: the left operand's [__eq__] first, the reflected
  call when that returns [NotImplemented], identity when both do. *)
Definition py_eq (a b : pyval) : eq_result :=
  match type__eq__ a b with
  | EqNotImplemented =>
    match type__eq__ b a with
    | EqNotImplemented => EqBool (py_is a b)
    | r => r
    end
  | r => r
  end.

(** Truth value of a comparison result, as tested by [if] / [elif]. *)
Definition eq_truthy (r : eq_result) : bool :=
  match r with
  | EqBool b => b
  | EqNone => false
  | EqNotImplemented => true
  end.


(** ** Configuration

    The part of the configuration object the drivers read. *)

Record LocalConfig := { local_dest : string }.

(** [region] and [bucket_subpath] may be unset ([None], or the attribute is
    missing); [minio_secure] is [config.as_bool("minio.secure")]. *)
Record MinioConfig := {
  minio_endpoint : string;
  minio_access_key : string;
  minio_secret_key : string;
  minio_secure : bool;
  minio_region : option string;
  minio_bucket : string;
  minio_bucket_subpath : option string }.

(** [config.google_drive.share_with]: a string, a list of strings, or a value
    of another type. *)
Inductive ShareWith :=
| SWStr (s : string)
| SWList (l : list string)
| SWOther.

Record GoogleDriveConfig := {
  gd_service_account_file : string;
  gd_folder : string;
  gd_share_with : ShareWith }.

Record AzureConfig := {
  azure_connection_string : string;
  azure_container : string }.

Record Config := {
  config_driver : pyval;
  config_local : LocalConfig;
  config_minio : MinioConfig;
  config_google_drive : GoogleDriveConfig;
  config_azure : AzureConfig }.

(** ** [os.path] (POSIX flavour) *)

Module OsPath.

(** [os.path.join(a, b)] *)
Definition join (a b : string) : string :=
  if PyStr.startswith b "/" then b
  else if negb (PyStr.truthy a) || PyStr.endswith a "/" then a ++ b
  else a ++ "/" ++ b.

(** [p[:p.rfind("/") + 1]]: the part of [p] up to its last separator *)
Fixpoint upto_last_sep (p : string) : string :=
  match p with
  | EmptyString => EmptyString
  | String a p' =>
      match upto_last_sep p' with
      | EmptyString => if Ascii.eqb a "/" then "/" else EmptyString
      | r => String a r
      end
  end.

(** [os.path.dirname(p)] *)
Definition dirname (p : string) : string :=
  let head := upto_last_sep p in
  if PyStr.truthy head && PyStr.truthy (PyStr.lstrip "/" head)
  then PyStr.rstrip "/" head
  else head.

End OsPath.

(** ** [LocalDriver] *)

Module Local.

(** The operating-system calls the driver makes. *)
Inductive Call :=
| CExists (path : string)
| CMakedirs (path : string)
| CCopyfile (src dst : string).

(** The file system: [os.path.exists] answers without raising, [os.makedirs]
    and [shutil.copyfile] return or raise. *)
Record Os (S : Type) := {
  os_path_exists : string -> S -> bool;
  os_makedirs : string -> S -> result unit * S;
  shutil_copyfile : string -> string -> S -> result unit * S }.
Arguments os_path_exists {S} _ _ _.
Arguments os_makedirs {S} _ _ _.
Arguments shutil_copyfile {S} _ _ _ _.

Record LocalDriver := { dest : string }.

Section Driver.
Context {S : Type} (os : Os S).

Definition path_exists (p : string) : M (World S Call) bool :=
  invoke (CExists p) (fun s => (Ok (os_path_exists os p s), s)).

Definition makedirs (p : string) : M (World S Call) unit :=
  invoke (CMakedirs p) (os_makedirs os p).

Definition copyfile (src dst : string) : M (World S Call) unit :=
  invoke (CCopyfile src dst) (shutil_copyfile os src dst).

Definition __init__ (config : Config) : M (World S Call) LocalDriver :=
  let self_dest := local_dest (config_local config) in
  try_except
    (found <- path_exists self_dest ;;
     if negb found then makedirs self_dest else ret tt)
    is_OSError
    (fun e => raise (mkDriverError ("Local driver init error: " ++ exn_str e))) ;;;
  ret {| dest := self_dest |}.

Definition file_exists (self : LocalDriver) (obj_path : string)
  : M (World S Call) bool :=
  path_exists (OsPath.join (dest self) obj_path).

(** The statements under [try:] in [upload_file] *)
Definition upload_file_try (src dest dest_dir : string) : M (World S Call) unit :=
  found <- path_exists dest_dir ;;
  (if negb found then makedirs dest_dir else ret tt) ;;;
  copyfile src dest.

(** [except (shutil.SameFileError, OSError)] *)
Definition upload_file_except (e : exn) : bool :=
  is_SameFileError e || is_OSError e.

Definition upload_file (self : LocalDriver) (src obj_path : string)
  : M (World S Call) string :=
  let dest := OsPath.join (dest self) obj_path in
  let dest_dir := OsPath.dirname dest in
  try_except
    (upload_file_try src dest dest_dir)
    upload_file_except
    (fun e => raise (mkDriverError ("Local driver error: " ++ exn_str e))) ;;;
  ret dest.

Definition get_file_url (self : LocalDriver) (obj_path : string)
  : M (World S Call) string :=
  ret (OsPath.join (dest self) obj_path).

End Driver.
End Local.

(** ** Lazy sequences

    What a generator or a client iterator produces when it is consumed to its
    end: the items, then either exhaustion or the exception that interrupts
    the iteration. *)
Record Produced (A : Type) := mkProduced {
  items : list A;
  failure : option exn }.
Arguments mkProduced {A} _ _.
Arguments items {A} _.
Arguments failure {A} _.

(** ** [MinioDriver] *)

Module Minio.

(** An entry of [client.list_objects]. *)
Record Object := { object_name : string; is_dir : bool }.

(** What [client.fput_object] returns. *)
Record ObjectWriteResult := { res_object_name : string }.

(** The MinIO client calls the driver makes. *)
Inductive Call :=
| CMinio (endpoint access_key secret_key : string) (secure : bool)
    (region : option string)
| CBucketExists (bucket : string)
| CMakeBucket (bucket : string)
| CFPutObject (bucket object_name file_path : string)
| CListObjects (bucket : string) (prefix : option string) (recursive : bool)
| CStatObject (bucket object_name : string).

(** The MinIO client library over a server state [S]. *)
Record Client (S : Type) := {
  minio_new : string -> string -> string -> bool -> option string ->
              S -> result unit * S;
  bucket_exists : string -> S -> result bool * S;
  make_bucket : string -> S -> result unit * S;
  fput_object : string -> string -> string -> S -> result ObjectWriteResult * S;
  list_objects : string -> option string -> bool -> S -> Produced Object * S;
  stat_object : string -> string -> S -> result unit * S }.
Arguments minio_new {S} _ _ _ _ _ _ _.
Arguments bucket_exists {S} _ _ _.
Arguments make_bucket {S} _ _ _.
Arguments fput_object {S} _ _ _ _ _.
Arguments list_objects {S} _ _ _ _ _.
Arguments stat_object {S} _ _ _ _.

Record MinioDriver := {
  bucket : string;
  bucket_subpath : option string;
  base_url : string }.

Section Driver.
Context {S : Type} (client : Client S).

Definition __init__ (config : Config) : M (World S Call) MinioDriver :=
  let c := config_minio config in
  try_except
    (invoke (CMinio (minio_endpoint c) (minio_access_key c)
               (minio_secret_key c) (minio_secure c) (minio_region c))
       (minio_new client (minio_endpoint c) (minio_access_key c)
          (minio_secret_key c) (minio_secure c) (minio_region c)) ;;;
     let self_bucket := minio_bucket c in
     bucket_found <- invoke (CBucketExists self_bucket)
                       (bucket_exists client self_bucket) ;;
     (if negb bucket_found
      then invoke (CMakeBucket self_bucket) (make_bucket client self_bucket)
      else ret tt) ;;;
     let self_bucket_subpath :=
       match minio_bucket_subpath c with
       | Some sp => if PyStr.truthy sp then Some (PyStr.strip "/" sp) else None
       | None => None
       end in
     let scheme := if minio_secure c then "https://" else "http://" in
     let self_base_url :=
       match minio_region c with
       | Some region =>
           if PyStr.truthy region
              && PyStr.contains "amazonaws" (PyStr.lower (minio_endpoint c))
           then scheme ++ self_bucket ++ ".s3." ++ region ++ ".amazonaws.com"
           else scheme ++ minio_endpoint c ++ "/" ++ self_bucket
       | None => scheme ++ minio_endpoint c ++ "/" ++ self_bucket
       end in
     ret {| bucket := self_bucket;
            bucket_subpath := self_bucket_subpath;
            base_url := self_base_url |})
    is_S3Error
    (fun e => raise (mkDriverError ("MinIO driver init error: " ++ exn_str e))).

(** The object key of [obj_path]: [f"{self.bucket_subpath}/{obj_path}"] when
    a sub-path is set. *)
Definition scoped (self : MinioDriver) (obj_path : string) : string :=
  match bucket_subpath self with
  | Some sp => if PyStr.truthy sp then sp ++ "/" ++ obj_path else obj_path
  | None => obj_path
  end.

(** The statements under [try:] in [upload_file] *)
Definition upload_file_try (self : MinioDriver) (src obj_path : string)
  : M (World S Call) string :=
  res <- invoke (CFPutObject (bucket self) obj_path src)
           (fput_object client (bucket self) obj_path src) ;;
  ret (base_url self ++ "/" ++ res_object_name res).

Definition upload_file (self : MinioDriver) (src obj_path : string)
  : M (World S Call) string :=
  let obj_path := scoped self obj_path in
  try_except
    (upload_file_try self src obj_path)
    is_S3Error
    (fun e => raise (mkDriverError ("MinIO driver error: " ++ exn_str e))).

(** [effective_prefix] of [list_files] *)
Definition effective_prefix (self : MinioDriver) (prefix : option string)
  : option string :=
  match bucket_subpath self with
  | Some sp =>
      if PyStr.truthy sp then
        let subpath_dir := if PyStr.endswith sp "/" then sp else sp ++ "/" in
        match prefix with
        | Some p => if PyStr.truthy p then Some (subpath_dir ++ p)
                    else Some subpath_dir
        | None => Some subpath_dir
        end
      else prefix
  | None => prefix
  end.

(** [prefix_to_strip] of [list_files] *)
Definition prefix_to_strip (self : MinioDriver) : string :=
  match bucket_subpath self with
  | Some sp => if PyStr.truthy sp then sp ++ "/" else ""
  | None => ""
  end.

(** The body of [for obj in objects]: the names it yields. *)
Fixpoint for_objects (self : MinioDriver) (objects : list Object) : list string :=
  match objects with
  | [] => []
  | obj :: rest =>
      if is_dir obj then for_objects self rest
      else
        let name := object_name obj in
        let name :=
          if PyStr.truthy (prefix_to_strip self)
             && PyStr.startswith name (prefix_to_strip self)
          then PyStr.drop (String.length (prefix_to_strip self)) name
          else name in
        name :: for_objects self rest
  end.

(** [list_files], consumed to its end: the names yielded, then the
    [DriverError] that replaces an [S3Error] of the client iterator (any other
    exception of the iterator passes through). *)
Definition list_files (self : MinioDriver) (prefix : option string)
  : World S Call -> Produced string * World S Call :=
  fun w =>
    let ep := effective_prefix self prefix in
    let '(objects, s') := list_objects client (bucket self) ep true (backend w) in
    (mkProduced
       (for_objects self (items objects))
       (match failure objects with
        | Some e =>
            if is_S3Error e
            then Some (mkDriverError ("MinIO driver list error: " ++ exn_str e))
            else Some e
        | None => None
        end),
     mkWorld s' (calls w ++ [CListObjects (bucket self) ep true])%list).

Definition get_file_url (self : MinioDriver) (obj_path : string)
  : M (World S Call) string :=
  ret (base_url self ++ "/" ++ scoped self obj_path).

Definition file_exists (self : MinioDriver) (obj_path : string)
  : M (World S Call) bool :=
  let obj_path := scoped self obj_path in
  try_except
    (invoke (CStatObject (bucket self) obj_path)
       (stat_object client (bucket self) obj_path) ;;;
     ret true)
    is_S3Error
    (fun e =>
       if String.eqb (exn_code e) "NoSuchKey" then ret false
       else raise (mkDriverError ("MinIO driver exists error: " ++ exn_str e))).

End Driver.
End Minio.

(** ** [AzureDriver] *)

Module Azure.

(** A blob handle: the blob's name and its [url] attribute. *)
Record BlobClient := { blob_name : string; url : string }.

(** An entry of [list_blobs]. *)
Record BlobProperties := { name : string }.

(** The calls the driver makes: the blob SDK, and the builtin [open]. *)
Inductive Call :=
| CFromConnectionString (conn_str : string)
| CGetContainerClient (container : string)
| CContainerExists
| CCreateContainer
| CGetBlobClient (blob : string)
| COpen (file mode : string)
| CUploadBlob (blob : string) (overwrite : bool)
| CBlobExists (blob : string)
| CListBlobs (name_starts_with : option string).

(** The blob SDK (and [open]) over a state [S]; [open_file] returns the
    content of the file it opens. *)
Record Sdk (S : Type) := {
  from_connection_string : string -> S -> result unit * S;
  get_container_client : string -> S -> result unit * S;
  container_exists : S -> result bool * S;
  create_container : S -> result unit * S;
  get_blob_client : string -> S -> result BlobClient * S;
  open_file : string -> string -> S -> result string * S;
  upload_blob : BlobClient -> string -> bool -> S -> result unit * S;
  blob_exists : BlobClient -> S -> result bool * S;
  list_blobs : option string -> S -> Produced BlobProperties * S }.
Arguments from_connection_string {S} _ _ _.
Arguments get_container_client {S} _ _ _.
Arguments container_exists {S} _ _.
Arguments create_container {S} _ _.
Arguments get_blob_client {S} _ _ _.
Arguments open_file {S} _ _ _ _.
Arguments upload_blob {S} _ _ _ _ _.
Arguments blob_exists {S} _ _ _.
Arguments list_blobs {S} _ _ _.

Record AzureDriver := {
  _connection_string : string;
  _container_name : string }.

Section Driver.
Context {S : Type} (sdk : Sdk S).

Definition wrap (prefix : string) (e : exn) {A} : M (World S Call) A :=
  raise (mkDriverError (prefix ++ exn_str e)).

Definition __init__ (config : Config) : M (World S Call) AzureDriver :=
  let conn := azure_connection_string (config_azure config) in
  let cont := azure_container (config_azure config) in
  try_except
    (invoke (CFromConnectionString conn) (from_connection_string sdk conn) ;;;
     invoke (CGetContainerClient cont) (get_container_client sdk cont) ;;;
     found <- invoke CContainerExists (container_exists sdk) ;;
     (if negb found then invoke CCreateContainer (create_container sdk)
      else ret tt) ;;;
     ret {| _connection_string := conn; _container_name := cont |})
    is_AzureError
    (fun e => wrap "Azure driver init error: " e).

(** The statements under [try:] in [upload_file] *)
Definition upload_file_try (src obj_path : string) : M (World S Call) string :=
  blob_client <- invoke (CGetBlobClient obj_path)
                   (get_blob_client sdk obj_path) ;;
  data <- invoke (COpen src "rb") (open_file sdk src "rb") ;;
  invoke (CUploadBlob (blob_name blob_client) true)
    (upload_blob sdk blob_client data true) ;;;
  ret (url blob_client).

Definition upload_file (self : AzureDriver) (src obj_path : string)
  : M (World S Call) string :=
  try_except
    (upload_file_try src obj_path)
    is_AzureError
    (fun e => wrap "Azure driver error: " e).

(** [list_files], consumed to its end. *)
Definition list_files (self : AzureDriver) (prefix : option string)
  : World S Call -> Produced string * World S Call :=
  fun w =>
    let '(blobs, s') := list_blobs sdk prefix (backend w) in
    (mkProduced
       (map name (items blobs))
       (match failure blobs with
        | Some e =>
            if is_AzureError e
            then Some (mkDriverError ("Azure driver list error: " ++ exn_str e))
            else Some e
        | None => None
        end),
     mkWorld s' (calls w ++ [CListBlobs prefix])%list).

Definition get_file_url (self : AzureDriver) (obj_path : string)
  : M (World S Call) string :=
  blob_client <- invoke (CGetBlobClient obj_path)
                   (get_blob_client sdk obj_path) ;;
  ret (url blob_client).

Definition file_exists (self : AzureDriver) (obj_path : string)
  : M (World S Call) bool :=
  try_except
    (blob_client <- invoke (CGetBlobClient obj_path)
                      (get_blob_client sdk obj_path) ;;
     invoke (CBlobExists (blob_name blob_client)) (blob_exists sdk blob_client))
    is_AzureError
    (fun e => wrap "Azure driver exists error: " e).

End Driver.
End Azure.

(** ** [GoogleDriveDriver] *)

Module GoogleDrive.

(** *** The address syntax check

    [re.compile(r"(^[a-zA-Z0-9_.+-]+@[a-zA-Z0-9-]+\.[a-zA-Z0-9-.]+$)")]:
    no class of the pattern contains ["@"], and the second class does not
    contain ["."], so a match splits the string at its first ["@"] and the
    rest at its first ["."]; the final [$] also matches just before a
    newline that ends the string. *)

Definition is_alnum (a : ascii) : bool :=
  let n := nat_of_ascii a in
  ((48 <=? n) && (n <=? 57) || (65 <=? n) && (n <=? 90)
   || (97 <=? n) && (n <=? 122))%nat.

Definition local_char (a : ascii) : bool :=
  is_alnum a || Ascii.eqb a "_" || Ascii.eqb a "." || Ascii.eqb a "+"
  || Ascii.eqb a "-".

Definition domain_char (a : ascii) : bool :=
  is_alnum a || Ascii.eqb a "-".

Definition tail_char (a : ascii) : bool :=
  is_alnum a || Ascii.eqb a "-" || Ascii.eqb a ".".

(** [[cls]+] against a whole string *)
Fixpoint plus_of (cls : ascii -> bool) (s : string) : bool :=
  match s with
  | EmptyString => false
  | String a EmptyString => cls a
  | String a s' => cls a && plus_of cls s'
  end.

(** [[cls]+$] against a whole string *)
Fixpoint plus_of_eol (cls : ascii -> bool) (s : string) : bool :=
  match s with
  | EmptyString => false
  | String a s' =>
      cls a &&
      match s' with
      | EmptyString => true
      | String b EmptyString => Ascii.eqb b "010" || cls b
      | _ => plus_of_eol cls s'
      end
  end.

(** The parts of [s] before and after its first [c]. *)
Fixpoint split_first (c : ascii) (s : string) : option (string * string) :=
  match s with
  | EmptyString => None
  | String a s' =>
      if Ascii.eqb a c then Some (EmptyString, s')
      else match split_first c s' with
           | Some (l, r) => Some (String a l, r)
           | None => None
           end
  end.

(** [email_regex.match(s)] as a truth value *)
Definition email_regex_match (s : string) : bool :=
  match split_first "@" s with
  | Some (loc, rest) =>
      plus_of local_char loc &&
      match split_first "." rest with
      | Some (dom, tl) => plus_of domain_char dom && plus_of_eol tail_char tl
      | None => false
      end
  | None => false
  end.

(** *** The Drive service *)

(** A file resource as returned by the service; only the requested fields
    are present. *)
Record File := {
  id : option string;
  name : option string;
  webViewLink : option string }.

(** The answer of [files().list(...).execute()]. *)
Record FileList := {
  files : option (list File);
  nextPageToken : option string }.

(** The [body] of [files().create]. *)
Record FileMetadata := {
  md_name : string;
  md_mimeType : option string;
  md_parents : option (list (option string)) }.

(** A permission resource; the created ones carry type, role and address. *)
Record Permission := {
  perm_type : option string;
  perm_role : option string;
  emailAddress : option string }.

(** The answer of [permissions().list(...).execute()]. *)
Record PermissionList := { permissions : option (list Permission) }.

Inductive Call :=
| CFromServiceAccountFile (path : string)
| CBuild
| CMediaFileUpload (filename : string)
| CFilesList (q fields : string) (pageToken : option string)
    (pageSize : option nat)
| CFilesCreate (body : FileMetadata) (media_body : option string)
    (fields : string)
| CFilesGet (fileId : option string) (fields : string)
| CPermissionsList (fileId : option string) (fields : string)
| CPermissionsCreate (fileId : option string) (body : Permission).

Record Service (S : Type) := {
  from_service_account_file : string -> S -> result unit * S;
  build : S -> result unit * S;
  media_file_upload : string -> S -> result unit * S;
  files_list : string -> string -> option string -> option nat ->
               S -> result FileList * S;
  files_create : FileMetadata -> option string -> string ->
                 S -> result File * S;
  files_get : option string -> string -> S -> result File * S;
  permissions_list : option string -> string -> S -> result PermissionList * S;
  permissions_create : option string -> Permission -> S -> result unit * S }.
Arguments from_service_account_file {S} _ _ _.
Arguments build {S} _ _.
Arguments media_file_upload {S} _ _ _.
Arguments files_list {S} _ _ _ _ _ _.
Arguments files_create {S} _ _ _ _ _.
Arguments files_get {S} _ _ _ _.
Arguments permissions_list {S} _ _ _ _.
Arguments permissions_create {S} _ _ _ _.

(** The driver object; [_url_cache] is [None] until [list_files] creates the
    attribute.  A listed file without a ["name"] is cached under the key
    [None]. *)
Record GoogleDriveDriver := {
  _folder : string;
  _folder_id : option string;
  _url_cache : option (gmap (option string) string) }.

(** [file.get("webViewLink", "")] *)
Definition link_or_empty (file : File) : string :=
  match webViewLink file with Some l => l | None => "" end.

(** The cache of a driver object, empty while the attribute is missing. *)
Definition cache_of (self : GoogleDriveDriver) : gmap (option string) string :=
  match _url_cache self with Some c => c | None => ∅ end.

(** Is the call a grant, [permissions().create]? *)
Definition is_grant (c : Call) : bool :=
  match c with CPermissionsCreate _ _ => true | _ => false end.


(** An optional string inside an f-string *)
Definition fmt (o : option string) : string :=
  match o with Some s => s | None => "None" end.

Definition folder_mime : string := "application/vnd.google-apps.folder".

(** The query of [_folder_exists] *)
Definition folder_query (folder_name : string) : string :=
  "name = '" ++ folder_name ++ "' and mimeType = '" ++ folder_mime ++ "'".

(** [obj_path.replace("\\", "\\\\").replace("'", "\\'")] *)
Definition escape (obj_path : string) : string :=
  PyStr.replace "'" "\'" (PyStr.replace "\" "\\" obj_path).

(** The exact-name query of [get_file_url] and [file_exists] *)
Definition name_query (self : GoogleDriveDriver) (obj_path : string) : string :=
  "'" ++ fmt (_folder_id self) ++ "' in parents and name = '"
  ++ escape obj_path ++ "' and trashed = false".

(** The query of [list_files] *)
Definition list_query (self : GoogleDriveDriver) : string :=
  "'" ++ fmt (_folder_id self) ++ "' in parents and trashed = false "
  ++ "and mimeType != '" ++ folder_mime ++ "'".

Section Driver.
Context {S : Type} (service : Service S).

Definition wrap (prefix : string) (e : exn) {A} : M (World S Call) A :=
  raise (mkDriverError (prefix ++ exn_str e)).

Definition _folder_exists (folder_name : string)
  : M (World S Call) (option string) :=
  items <-
    try_except
      (let query := folder_query folder_name in
       results <- invoke (CFilesList query "files(id, name)" None None)
                    (files_list service query "files(id, name)" None None) ;;
       ret (match files results with Some l => l | None => [] end))
      is_Exception
      (fun e => wrap "Google Drive folder exists error: " e) ;;
  match items with
  | item :: _ =>
      match id item with
      | Some i => ret (Some i)
      | None => raise {| exn_cls := KeyError; exn_str := "'id'"; exn_code := "" |}
      end
  | [] => ret None
  end.

Definition _create_folder (folder_name : string)
  : M (World S Call) (option string) :=
  let file_metadata :=
    {| md_name := folder_name; md_mimeType := Some folder_mime;
       md_parents := None |} in
  try_except
    (folder <- invoke (CFilesCreate file_metadata None "id")
                 (files_create service file_metadata None "id") ;;
     ret (id folder))
    is_Exception
    (fun e => wrap "Google Drive create folder error: " e).

Definition _file_link (file_id : option string)
  : M (World S Call) (option string) :=
  try_except
    (file <- invoke (CFilesGet file_id "webViewLink")
               (files_get service file_id "webViewLink") ;;
     ret (webViewLink file))
    is_Exception
    (fun e => wrap "Google Drive file link error: " e).

Definition perm_fields : string := "permissions(id, emailAddress, role, type)".

(** [permission.get("emailAddress", "").lower() == email.lower()] *)
Definition same_address (email : string) (permission : Permission) : bool :=
  String.eqb
    (PyStr.lower (match emailAddress permission with Some a => a | None => "" end))
    (PyStr.lower email).

Definition _has_already_permission (self : GoogleDriveDriver) (email : string)
  : M (World S Call) bool :=
  try_except
    (perms <- invoke (CPermissionsList (_folder_id self) perm_fields)
                (permissions_list service (_folder_id self) perm_fields) ;;
     ret (existsb (same_address email)
            (match permissions perms with Some l => l | None => [] end)))
    is_Exception
    (fun e => wrap "Google Drive has permission error: " e).

(** The [permission] body of a grant *)
Definition grant_body (email : string) : Permission :=
  {| perm_type := Some "user"; perm_role := Some "writer";
     emailAddress := Some email |}.

Definition _share_with (self : GoogleDriveDriver) (email : string)
  : M (World S Call) unit :=
  has <- _has_already_permission self email ;;
  if negb has then
    let permission := grant_body email in
    try_except
      (invoke (CPermissionsCreate (_folder_id self) permission)
         (permissions_create service (_folder_id self) permission))
      is_Exception
      (fun e => wrap "Google Drive sharing folder error: " e)
  else ret tt.

Definition _get_share_with (config_google_drive : GoogleDriveConfig)
  : M (World S Call) (list string) :=
  match gd_share_with config_google_drive with
  | SWStr s => ret (if email_regex_match s then [s] else [])
  | SWList l => ret (List.filter email_regex_match l)
  | SWOther =>
      raise (mkDriverError
               "Google Drive sharing: Incorrect GoogleDrive shared_with settings")
  end.

(** [for email in ...: if email: self._share_with(email)] *)
Fixpoint for_emails (self : GoogleDriveDriver) (emails : list string)
  : M (World S Call) unit :=
  match emails with
  | [] => ret tt
  | email :: rest =>
      (if PyStr.truthy email then _share_with self email else ret tt) ;;;
      for_emails self rest
  end.

(** The first part of [__init__]: credentials, service, and the folder,
    found by name or created. *)
Definition resolve_folder (c : GoogleDriveConfig)
  : M (World S Call) GoogleDriveDriver :=
  invoke (CFromServiceAccountFile (gd_service_account_file c))
    (from_service_account_file service (gd_service_account_file c)) ;;;
  invoke CBuild (build service) ;;;
  found <- _folder_exists (gd_folder c) ;;
  folder_id <- (if negb (PyStr.otruthy found) then _create_folder (gd_folder c)
                else ret found) ;;
  ret {| _folder := gd_folder c; _folder_id := folder_id; _url_cache := None |}.

(** The second part of [__init__]: the loop over the collaborators. *)
Definition share_configured (self : GoogleDriveDriver) (c : GoogleDriveConfig)
  : M (World S Call) unit :=
  emails <- _get_share_with c ;;
  for_emails self emails.

Definition __init__ (config : Config) : M (World S Call) GoogleDriveDriver :=
  let c := config_google_drive config in
  try_except
    (self <- resolve_folder c ;;
     share_configured self c ;;;
     ret self)
    is_Exception
    (fun e => wrap "GoogleDrive driver init error: " e).

(** Does the service report a permission of [email] on the folder?  The value
    [_has_already_permission] computes from the answer. *)
Definition holds (self : GoogleDriveDriver) (email : string) (s : S) : bool :=
  match fst (permissions_list service (_folder_id self) perm_fields s) with
  | Ok perms =>
      existsb (same_address email)
        (match permissions perms with Some l => l | None => [] end)
  | Raise _ => false
  end.

(** The [body] of the upload request *)
Definition upload_metadata (self : GoogleDriveDriver) (obj_path : string)
  : FileMetadata :=
  {| md_name := obj_path; md_mimeType := None;
     md_parents := Some [_folder_id self] |}.

(** The statements under [try:] in [upload_file] *)
Definition upload_file_try (self : GoogleDriveDriver) (src obj_path : string)
  : M (World S Call) (option string) :=
  let file_metadata := upload_metadata self obj_path in
  invoke (CMediaFileUpload src) (media_file_upload service src) ;;;
  file <- invoke (CFilesCreate file_metadata (Some src) "id")
            (files_create service file_metadata (Some src) "id") ;;
  ret (id file).

(** [upload_file] returns [file.get("webViewLink")], which is [None] when the
    answer carries no link. *)
Definition upload_file (self : GoogleDriveDriver) (src obj_path : string)
  : M (World S Call) (option string) :=
  file_id <-
    try_except
      (upload_file_try self src obj_path)
      is_Exception
      (fun e => wrap "GoogleDrive driver error: " e) ;;
  _file_link file_id.

(** [hasattr(self, "_url_cache") and obj_path in self._url_cache], with the
    cached value when it holds *)
Definition cached (self : GoogleDriveDriver) (obj_path : string)
  : option string :=
  match _url_cache self with
  | Some cache => cache !! Some obj_path
  | None => None
  end.

Definition get_file_url (self : GoogleDriveDriver) (obj_path : string)
  : M (World S Call) string :=
  match cached self obj_path with
  | Some link => ret link
  | None =>
      try_except
        (let query := name_query self obj_path in
         results <- invoke (CFilesList query "files(id, webViewLink)" None (Some 1))
                      (files_list service query "files(id, webViewLink)" None
                         (Some 1)) ;;
         match files results with
         | Some (file :: _) => ret (link_or_empty file)
         | _ => ret ""
         end)
        is_Exception
        (fun e => wrap "Google Drive get file URL error: " e)
  end.

Definition file_exists (self : GoogleDriveDriver) (obj_path : string)
  : M (World S Call) bool :=
  match cached self obj_path with
  | Some _ => ret true
  | None =>
      try_except
        (let query := name_query self obj_path in
         results <- invoke (CFilesList query "files(id)" None (Some 1))
                      (files_list service query "files(id)" None (Some 1)) ;;
         ret (0 <? List.length
                     (match files results with Some l => l | None => [] end))%nat)
        is_Exception
        (fun e => wrap "Google Drive file exists error: " e)
  end.

(** *** [list_files], a generator

    The generator object is a state machine: created, suspended at the
    [yield] inside the [for] loop (with the rest of the current page and that
    page's [nextPageToken]), or finished.  [next] runs it to its following
    [yield], to its end, or to the exception it raises.  One [next] may fetch
    several pages; [fuel] bounds the number of fetches, and [None] means the
    bound was reached. *)

Inductive Gen :=
| GNew (prefix : option string)
| GSuspended (prefix : option string) (query : string) (rest : list File)
    (next_page_token : option string)
| GFinished.

Inductive Step :=
| Yield (name : option string)
| StopIteration.

(** The driver object and the world it acts on. *)
Definition GS : Type := GoogleDriveDriver * World S Call.

Definition set_cache (self : GoogleDriveDriver)
  (cache : gmap (option string) string) : GoogleDriveDriver :=
  {| _folder := _folder self; _folder_id := _folder_id self;
     _url_cache := Some cache |}.

(** Where the [for file in results.get("files", [])] loop stops. *)
Inductive ForOut :=
| FYield (name : option string) (rest : list File)
    (cache : gmap (option string) string)
| FExhausted
| FRaise (e : exn).

Definition attribute_error (msg : string) : exn :=
  {| exn_cls := AttributeError; exn_str := msg; exn_code := "" |}.

Fixpoint for_files (prefix : option string) (files : list File)
  (cache : option (gmap (option string) string)) : ForOut :=
  match files with
  | [] => FExhausted
  | file :: rest =>
      let name := name file in
      let store :=
        match cache with
        | Some c => FYield name rest (<[name := link_or_empty file]> c)
        | None =>
            FRaise (attribute_error
                      "'GoogleDriveDriver' object has no attribute '_url_cache'")
        end in
      match prefix, name with
      | None, _ => store
      | Some p, Some n =>
          if PyStr.startswith n p then store else for_files prefix rest cache
      | Some p, None =>
          FRaise (attribute_error
                    "'NoneType' object has no attribute 'startswith'")
      end
  end.

(** [except Exception as e: raise DriverError("Google Drive list error: ...")] *)
Definition list_error (e : exn) : exn :=
  if is_Exception e
  then mkDriverError ("Google Drive list error: " ++ exn_str e)
  else e.

(** The rest of a page, then what follows it: the next page when this one
    carried a token, the end of the generator otherwise. *)
Definition after_for
  (fetch : option string -> string -> option string -> GS ->
           option (result Step * Gen * GS))
  (prefix : option string) (query : string) (rest : list File)
  (page_token : option string) (σ : GS) : option (result Step * Gen * GS) :=
  match for_files prefix rest (_url_cache (fst σ)) with
  | FYield name rest' cache' =>
      Some (Ok (Yield name), GSuspended prefix query rest' page_token,
            (set_cache (fst σ) cache', snd σ))
  | FRaise e => Some (Raise (list_error e), GFinished, σ)
  | FExhausted =>
      if PyStr.otruthy page_token then fetch prefix query page_token σ
      else Some (Ok StopIteration, GFinished, σ)
  end.

Definition list_fields : string := "nextPageToken, files(name, webViewLink)".

(** One turn of [while True]: fetch the page at [page_token], run the [for]
    loop over it. *)
Fixpoint fetch_page (fuel : nat) (prefix : option string) (query : string)
  (page_token : option string) (σ : GS) : option (result Step * Gen * GS) :=
  match fuel with
  | O => None
  | Datatypes.S fuel' =>
      match invoke (CFilesList query list_fields page_token (Some 1000%nat))
              (files_list service query list_fields page_token (Some 1000%nat))
              (snd σ) with
      | (Raise e, w') => Some (Raise (list_error e), GFinished, (fst σ, w'))
      | (Ok results, w') =>
          after_for (fetch_page fuel') prefix query
            (match files results with Some l => l | None => [] end)
            (nextPageToken results) (fst σ, w')
      end
  end.


(** [driver.list_files(prefix)]: creating the generator runs none of its body. *)
Definition list_files (prefix : option string) : Gen := GNew prefix.

(** [next(gen)] *)
Definition next (fuel : nat) (gen : Gen) (σ : GS)
  : option (result Step * Gen * GS) :=
  match gen with
  | GNew prefix =>
      let self :=
        match _url_cache (fst σ) with
        | Some _ => fst σ
        | None => set_cache (fst σ) ∅
        end in
      fetch_page fuel prefix (list_query self) None (self, snd σ)
  | GSuspended prefix query rest page_token =>
      after_for (fetch_page fuel) prefix query rest page_token σ
  | GFinished => Some (Ok StopIteration, GFinished, σ)
  end.

(** A consumer that calls [next] at most [n] times, stopping at the end of
    the generator or at an exception: the names it received, the exception
    if any, and the generator and state it leaves behind. *)
Fixpoint consume (n fuel : nat) (gen : Gen) (σ : GS)
  : option (Produced (option string) * Gen * GS) :=
  match n with
  | O => Some (mkProduced [] None, gen, σ)
  | Datatypes.S n' =>
      match next fuel gen σ with
      | None => None
      | Some (Raise e, gen', σ') => Some (mkProduced [] (Some e), gen', σ')
      | Some (Ok StopIteration, gen', σ') => Some (mkProduced [] None, gen', σ')
      | Some (Ok (Yield name), gen', σ') =>
          match consume n' fuel gen' σ' with
          | Some (p, gen'', σ'') =>
              Some (mkProduced (name :: items p) (failure p), gen'', σ'')
          | None => None
          end
      end
  end.



End Driver.
End GoogleDrive.

(** ** [create_driver] *)

Module Factory.

(** The closed set of driver instances. *)
Inductive Driver :=
| DLocal (d : Local.LocalDriver)
| DMinio (d : Minio.MinioDriver)
| DGoogleDrive (d : GoogleDrive.GoogleDriveDriver)
| DAzure (d : Azure.AzureDriver).

(** The result of a constructor, carried to the result of the factory. *)
Definition made {D} (tag : D -> Driver) (r : result D) : result (option Driver) :=
  match r with
  | Ok d => Ok (Some (tag d))
  | Raise e => Raise e
  end.

(** The values of [config.driver] that name one of the four kinds. *)
Definition known_kind (v : pyval) : bool :=
  match v with
  | VStr s =>
      String.eqb "local" s || String.eqb "minio" s
      || String.eqb "google_drive" s || String.eqb "azure" s
  | _ => false
  end.

(** The four backends side by side, each with its own call log. *)
Record Worlds (So Sm Sg Sa : Type) := mkWorlds {
  w_os : World So Local.Call;
  w_minio : World Sm Minio.Call;
  w_drive : World Sg GoogleDrive.Call;
  w_azure : World Sa Azure.Call }.
Arguments mkWorlds {So Sm Sg Sa} _ _ _ _.
Arguments w_os {So Sm Sg Sa} _.
Arguments w_minio {So Sm Sg Sa} _.
Arguments w_drive {So Sm Sg Sa} _.
Arguments w_azure {So Sm Sg Sa} _.

Section Factory.
Context {So Sm Sg Sa : Type}.
Context (os : Local.Os So) (client : Minio.Client Sm)
  (service : GoogleDrive.Service Sg) (sdk : Azure.Sdk Sa).

Definition on_os {A} (m : M (World So Local.Call) A)
  : M (Worlds So Sm Sg Sa) A :=
  fun σ => let '(r, w) := m (w_os σ) in
           (r, mkWorlds w (w_minio σ) (w_drive σ) (w_azure σ)).

Definition on_minio {A} (m : M (World Sm Minio.Call) A)
  : M (Worlds So Sm Sg Sa) A :=
  fun σ => let '(r, w) := m (w_minio σ) in
           (r, mkWorlds (w_os σ) w (w_drive σ) (w_azure σ)).

Definition on_drive {A} (m : M (World Sg GoogleDrive.Call) A)
  : M (Worlds So Sm Sg Sa) A :=
  fun σ => let '(r, w) := m (w_drive σ) in
           (r, mkWorlds (w_os σ) (w_minio σ) w (w_azure σ)).

Definition on_azure {A} (m : M (World Sa Azure.Call) A)
  : M (Worlds So Sm Sg Sa) A :=
  fun σ => let '(r, w) := m (w_azure σ) in
           (r, mkWorlds (w_os σ) (w_minio σ) (w_drive σ) w).

Definition create_driver (config : Config)
  : M (Worlds So Sm Sg Sa) (option Driver) :=
  let driver := None in
  if eq_truthy (py_eq (config_driver config) (VEnum LOCAL)) then
    d <- on_os (Local.__init__ os config) ;; ret (Some (DLocal d))
  else if eq_truthy (py_eq (config_driver config) (VEnum MINIO)) then
    d <- on_minio (Minio.__init__ client config) ;; ret (Some (DMinio d))
  else if eq_truthy (py_eq (config_driver config) (VEnum GOOGLE_DRIVE)) then
    d <- on_drive (GoogleDrive.__init__ service config) ;;
    ret (Some (DGoogleDrive d))
  else if eq_truthy (py_eq (config_driver config) (VEnum AZURE)) then
    d <- on_azure (Azure.__init__ sdk config) ;; ret (Some (DAzure d))
  else
    ret driver.

End Factory.
End Factory.

(** * Reference backends

    Small in-memory models of the four backends, on which the drivers can be
    run: a file system, an S3-compatible server, a Drive service and a blob
    container.  They answer the way the real ones do on the calls the
    drivers make, and serve as the concrete backends of the examples. *)

Module Ref.

Definition mem (x : string) (l : list string) : bool :=
  existsb (String.eqb x) l.

Definition os_error (cls : exn_class) (msg : string) : exn :=
  {| exn_cls := cls; exn_str := msg; exn_code := "" |}.

Definition no_such_file (path : string) : exn :=
  os_error FileNotFoundError
    ("[Errno 2] No such file or directory: '" ++ path ++ "'").

(** *** A file system: the paths that exist *)

Definition FsState : Type := list string.

Definition fs_exists (p : string) (s : FsState) : bool :=
  PyStr.truthy p && mem p s.

Definition fs_makedirs (p : string) (s : FsState) : result unit * FsState :=
  if negb (PyStr.truthy p) then (Raise (no_such_file p), s)
  else if mem p s
  then (Raise (os_error OSError ("[Errno 17] File exists: '" ++ p ++ "'")), s)
  else (Ok tt, p :: s).

Definition fs_copyfile (src dst : string) (s : FsState)
  : result unit * FsState :=
  if negb (fs_exists src s) then (Raise (no_such_file src), s)
  else if String.eqb src dst
  then (Raise (os_error SameFileError
                 ("'" ++ src ++ "' and '" ++ dst ++ "' are the same file")), s)
  else if negb (PyStr.truthy dst) then (Raise (no_such_file dst), s)
  else (Ok tt, dst :: s).

Definition os : Local.Os FsState :=
  {| Local.os_path_exists := fs_exists;
     Local.os_makedirs := fs_makedirs;
     Local.shutil_copyfile := fs_copyfile |}.

(** *** An S3-compatible server *)

Record S3State := {
  s3_local : list string;
  s3_buckets : list string;
  s3_objects : list (string * string) }.

Definition s3_error (code msg : string) : exn :=
  {| exn_cls := S3Error; exn_str := "S3 operation failed; code: " ++ code
                                      ++ ", message: " ++ msg;
     exn_code := code |}.

Definition s3_has (b k : string) (s : S3State) : bool :=
  existsb (fun o => String.eqb (fst o) b && String.eqb (snd o) k) (s3_objects s).

Definition s3_fput (b k src : string) (s : S3State)
  : result Minio.ObjectWriteResult * S3State :=
  if negb (mem src (s3_local s)) then (Raise (no_such_file src), s)
  else if negb (mem b (s3_buckets s))
  then (Raise (s3_error "NoSuchBucket" "The specified bucket does not exist"), s)
  else (Ok {| Minio.res_object_name := k |},
        {| s3_local := s3_local s; s3_buckets := s3_buckets s;
           s3_objects := (s3_objects s ++ [(b, k)])%list |}).

(** The objects of bucket [b], in the order they were stored; a key that
    ends in a separator is reported as a directory marker. *)
Definition s3_bucket_objects (b : string) (s : S3State) : list Minio.Object :=
  map (fun o => {| Minio.object_name := snd o;
                   Minio.is_dir := PyStr.endswith (snd o) "/" |})
    (List.filter (fun o => String.eqb (fst o) b) (s3_objects s)).

Definition s3_list (b : string) (prefix : option string) (recursive : bool)
  (s : S3State) : Produced Minio.Object * S3State :=
  if mem b (s3_buckets s) then
    (mkProduced
       (List.filter
          (fun o => PyStr.startswith (Minio.object_name o) (PyStr.or_empty prefix))
          (s3_bucket_objects b s))
       None, s)
  else
    (mkProduced []
       (Some (s3_error "NoSuchBucket" "The specified bucket does not exist")), s).

Definition s3_stat (b k : string) (s : S3State) : result unit * S3State :=
  if s3_has b k s then (Ok tt, s)
  else (Raise (s3_error "NoSuchKey" "Object does not exist"), s).

Definition client : Minio.Client S3State :=
  {| Minio.minio_new := fun _ _ _ _ _ s => (Ok tt, s);
     Minio.bucket_exists := fun b s => (Ok (mem b (s3_buckets s)), s);
     Minio.make_bucket := fun b s =>
       (Ok tt, {| s3_local := s3_local s; s3_buckets := b :: s3_buckets s;
                  s3_objects := s3_objects s |});
     Minio.fput_object := s3_fput;
     Minio.list_objects := s3_list;
     Minio.stat_object := s3_stat |}.

(** *** A blob container *)

Record BlobState := {
  az_local : list (string * string);
  az_container : bool;
  az_blobs : list string }.

Definition azure_error (msg : string) : exn :=
  {| exn_cls := AzureError; exn_str := msg; exn_code := "" |}.

Definition az_handle (blob : string) : Azure.BlobClient :=
  {| Azure.blob_name := blob;
     Azure.url := "https://account.blob.core.windows.net/container/" ++ blob |}.

Definition value_error (msg : string) : exn :=
  {| exn_cls := ValueError; exn_str := msg; exn_code := "" |}.

(** [get_blob_client]: the handle of a name; the empty name is refused. *)
Definition az_get_handle (blob : string) : result Azure.BlobClient :=
  if PyStr.truthy blob then Ok (az_handle blob)
  else Raise (value_error "Please specify a blob name.").

Definition az_open (file mode : string) (s : BlobState)
  : result string * BlobState :=
  match List.find (fun f => String.eqb (fst f) file) (az_local s) with
  | Some f => (Ok (snd f), s)
  | None => (Raise (no_such_file file), s)
  end.

Definition az_upload (h : Azure.BlobClient) (data : string) (overwrite : bool)
  (s : BlobState) : result unit * BlobState :=
  if negb (az_container s)
  then (Raise (azure_error "The specified container does not exist."), s)
  else if negb overwrite && mem (Azure.blob_name h) (az_blobs s)
  then (Raise (azure_error "The specified blob already exists."), s)
  else (Ok tt, {| az_local := az_local s; az_container := true;
                  az_blobs := Azure.blob_name h :: az_blobs s |}).

Definition sdk : Azure.Sdk BlobState :=
  {| Azure.from_connection_string := fun _ s => (Ok tt, s);
     Azure.get_container_client := fun _ s => (Ok tt, s);
     Azure.container_exists := fun s => (Ok (az_container s), s);
     Azure.create_container := fun s =>
       (Ok tt, {| az_local := az_local s; az_container := true;
                  az_blobs := az_blobs s |});
     Azure.get_blob_client := fun blob s => (az_get_handle blob, s);
     Azure.open_file := az_open;
     Azure.upload_blob := az_upload;
     Azure.blob_exists := fun h s =>
       (Ok (az_container s && mem (Azure.blob_name h) (az_blobs s)), s);
     Azure.list_blobs := fun prefix s =>
       (mkProduced
          (map (fun b => {| Azure.name := b |})
             (List.filter
                (fun b => PyStr.startswith b (PyStr.or_empty prefix))
                (az_blobs s)))
          None, s) |}.

(** The same SDK with handles that carry an empty [url]. *)
Definition az_get_handle_blank (blob : string) : result Azure.BlobClient :=
  if PyStr.truthy blob
  then Ok {| Azure.blob_name := blob; Azure.url := "" |}
  else Raise (value_error "Please specify a blob name.").

Definition sdk_blank : Azure.Sdk BlobState :=
  {| Azure.from_connection_string := Azure.from_connection_string sdk;
     Azure.get_container_client := Azure.get_container_client sdk;
     Azure.container_exists := Azure.container_exists sdk;
     Azure.create_container := Azure.create_container sdk;
     Azure.get_blob_client := fun blob s => (az_get_handle_blank blob, s);
     Azure.open_file := Azure.open_file sdk;
     Azure.upload_blob := Azure.upload_blob sdk;
     Azure.blob_exists := Azure.blob_exists sdk;
     Azure.list_blobs := Azure.list_blobs sdk |}.

(** *** A Drive service *)

Record Stored := {
  s_id : string;
  s_name : string;
  s_parent : option string;
  s_is_folder : bool;
  s_link : option string }.

(** [dr_page_cap] bounds the number of entries the service puts on a page. *)
Record DriveState := {
  dr_local : list string;
  dr_files : list Stored;
  dr_perms : list (option string * GoogleDrive.Permission);
  dr_counter : nat;
  dr_page_cap : nat }.

Definition http_error (msg : string) : exn :=
  {| exn_cls := HttpError; exn_str := msg; exn_code := "" |}.

(** [n] written in unary; page tokens and fresh identifiers are such. *)
Fixpoint unary (n : nat) : string :=
  match n with
  | O => EmptyString
  | Datatypes.S n' => String "i" (unary n')
  end.

Definition in_folder (parent : option string) : GoogleDrive.GoogleDriveDriver :=
  {| GoogleDrive._folder := ""; GoogleDrive._folder_id := parent;
     GoogleDrive._url_cache := None |}.

(** Does the stored file [f] answer the query [q]?  The service understands
    the three queries the driver writes. *)
Definition answers (q : string) (f : Stored) : bool :=
  (s_is_folder f && String.eqb q (GoogleDrive.folder_query (s_name f)))
  || (negb (s_is_folder f)
      && String.eqb q (GoogleDrive.list_query (in_folder (s_parent f))))
  || String.eqb q (GoogleDrive.name_query (in_folder (s_parent f)) (s_name f)).

Definition resource (f : Stored) : GoogleDrive.File :=
  {| GoogleDrive.id := Some (s_id f); GoogleDrive.name := Some (s_name f);
     GoogleDrive.webViewLink := s_link f |}.

Definition dr_files_list (q fields : string) (pageToken : option string)
  (pageSize : option nat) (s : DriveState)
  : result GoogleDrive.FileList * DriveState :=
  let matching := List.filter (answers q) (dr_files s) in
  let offset := match pageToken with Some t => String.length t | None => 0%nat end in
  let size :=
    Nat.max 1 (Nat.min (match pageSize with Some n => n | None => 100%nat end)
                 (dr_page_cap s)) in
  (Ok {| GoogleDrive.files :=
           Some (map resource (firstn size (skipn offset matching)));
         GoogleDrive.nextPageToken :=
           if (offset + size <? List.length matching)%nat
           then Some (unary (offset + size)) else None |}, s).

Definition dr_files_create (body : GoogleDrive.FileMetadata)
  (media_body : option string) (fields : string) (s : DriveState)
  : result GoogleDrive.File * DriveState :=
  let new_id := "f" ++ unary (dr_counter s) in
  let stored :=
    {| s_id := new_id;
       s_name := GoogleDrive.md_name body;
       s_parent := match GoogleDrive.md_parents body with
                   | Some (parent :: _) => parent
                   | _ => None
                   end;
       s_is_folder := match GoogleDrive.md_mimeType body with
                      | Some m => String.eqb m GoogleDrive.folder_mime
                      | None => false
                      end;
       s_link := Some ("https://drive.google.com/file/d/" ++ new_id ++ "/view")
    |} in
  (Ok {| GoogleDrive.id := Some new_id; GoogleDrive.name := None;
         GoogleDrive.webViewLink := None |},
   {| dr_local := dr_local s; dr_files := (dr_files s ++ [stored])%list;
      dr_perms := dr_perms s; dr_counter := Datatypes.S (dr_counter s);
      dr_page_cap := dr_page_cap s |}).

Definition dr_files_get (fileId : option string) (fields : string)
  (s : DriveState) : result GoogleDrive.File * DriveState :=
  match List.find (fun f => String.eqb (s_id f) (GoogleDrive.fmt fileId))
          (dr_files s) with
  | Some f => (Ok {| GoogleDrive.id := None; GoogleDrive.name := None;
                     GoogleDrive.webViewLink := s_link f |}, s)
  | None => (Raise (http_error "<HttpError 404: File not found>"), s)
  end.

Definition same_id (a b : option string) : bool :=
  match a, b with
  | Some x, Some y => String.eqb x y
  | None, None => true
  | _, _ => false
  end.

Definition dr_perms_of (fileId : option string) (s : DriveState)
  : list GoogleDrive.Permission :=
  map snd (List.filter (fun p => same_id (fst p) fileId) (dr_perms s)).

Definition service : GoogleDrive.Service DriveState :=
  {| GoogleDrive.from_service_account_file := fun _ s => (Ok tt, s);
     GoogleDrive.build := fun s => (Ok tt, s);
     GoogleDrive.media_file_upload := fun src s =>
       if mem src (dr_local s) then (Ok tt, s) else (Raise (no_such_file src), s);
     GoogleDrive.files_list := dr_files_list;
     GoogleDrive.files_create := dr_files_create;
     GoogleDrive.files_get := dr_files_get;
     GoogleDrive.permissions_list := fun fileId _ s =>
       (Ok {| GoogleDrive.permissions := Some (dr_perms_of fileId s) |}, s);
     GoogleDrive.permissions_create := fun fileId body s =>
       (Ok tt, {| dr_local := dr_local s; dr_files := dr_files s;
                  dr_perms := (dr_perms s ++ [(fileId, body)])%list;
                  dr_counter := dr_counter s; dr_page_cap := dr_page_cap s |}) |}.

(** *** Sample configuration and initial states *)

Definition sample_config (driver : pyval) : Config :=
  {| config_driver := driver;
     config_local := {| local_dest := "/srv/media" |};
     config_minio :=
       {| minio_endpoint := "localhost:9000"; minio_access_key := "key";
          minio_secret_key := "secret"; minio_secure := false;
          minio_region := None; minio_bucket := "media";
          minio_bucket_subpath := Some "/data/" |};
     config_google_drive :=
       {| gd_service_account_file := "account.json"; gd_folder := "media";
          gd_share_with := SWList ["ann@example.com"; "bob@example.com"] |};
     config_azure :=
       {| azure_connection_string := "AccountName=test";
          azure_container := "media" |} |}.

Definition fs0 : FsState := ["/tmp/photo.jpg"].

Definition s3_0 : S3State :=
  {| s3_local := ["/tmp/photo.jpg"]; s3_buckets := ["media"];
     s3_objects := [("media", "database.csv"); ("media", "data/");
                    ("media", "data/x")] |}.

Definition blob0 : BlobState :=
  {| az_local := [("/tmp/photo.jpg", "JPEG")]; az_container := true;
     az_blobs := [] |}.

Definition drive0 : DriveState :=
  {| dr_local := ["/tmp/photo.jpg"]; dr_files := []; dr_perms := [];
     dr_counter := 0; dr_page_cap := 2 |}.

(** The drivers the constructors build from [sample_config]. *)
Definition sample_local : Local.LocalDriver := {| Local.dest := "/srv/media" |}.

Definition sample_minio : Minio.MinioDriver :=
  {| Minio.bucket := "media"; Minio.bucket_subpath := Some "data";
     Minio.base_url := "http://localhost:9000/media" |}.

Definition sample_azure : Azure.AzureDriver :=
  {| Azure._connection_string := "AccountName=test";
     Azure._container_name := "media" |}.

Definition sample_drive : GoogleDrive.GoogleDriveDriver :=
  {| GoogleDrive._folder := "media"; GoogleDrive._folder_id := Some "fld";
     GoogleDrive._url_cache := None |}.

(** A Drive whose folder ["fld"] holds one file, ["photo.jpg"], for which the
    service reports no link. *)
(** A Drive whose folder ["fld"] holds three files; the service puts two
    entries on a page. *)
Definition drive3 : DriveState :=
  {| dr_local := ["/tmp/photo.jpg"];
     dr_files :=
       [{| s_id := "1"; s_name := "a.jpg"; s_parent := Some "fld";
           s_is_folder := false; s_link := Some "https://drive/1" |};
        {| s_id := "2"; s_name := "b.jpg"; s_parent := Some "fld";
           s_is_folder := false; s_link := Some "https://drive/2" |};
        {| s_id := "3"; s_name := "c.jpg"; s_parent := Some "fld";
           s_is_folder := false; s_link := Some "https://drive/3" |}];
     dr_perms := []; dr_counter := 0; dr_page_cap := 2 |}.

Definition drive1 : DriveState :=
  {| dr_local := ["/tmp/photo.jpg"];
     dr_files := [{| s_id := "old"; s_name := "photo.jpg";
                     s_parent := Some "fld"; s_is_folder := false;
                     s_link := None |}];
     dr_perms := []; dr_counter := 0; dr_page_cap := 2 |}.

(** The driver object and world after a consumer took the first name of
    [list_files()] on [drive1]. *)
Definition listed1
  : Produced (option string) * GoogleDrive.Gen
    * (GoogleDrive.GoogleDriveDriver * World DriveState GoogleDrive.Call) :=
  match GoogleDrive.consume service 1 2 (GoogleDrive.list_files None)
          (sample_drive, mkWorld drive1 []) with
  | Some out => out
  | None => (mkProduced [] None, GoogleDrive.GFinished,
             (sample_drive, mkWorld drive1 []))
  end.

(** The same after a consumer took two names of [list_files()] on
    [drive3]. *)
Definition listed3
  : Produced (option string) * GoogleDrive.Gen
    * (GoogleDrive.GoogleDriveDriver * World DriveState GoogleDrive.Call) :=
  match GoogleDrive.consume service 2 5 (GoogleDrive.list_files None)
          (sample_drive, mkWorld drive3 []) with
  | Some out => out
  | None => (mkProduced [] None, GoogleDrive.GFinished,
             (sample_drive, mkWorld drive3 []))
  end.

(** A Drive with the folder ["media"], on which bob holds a permission. *)
Definition drive_shared : DriveState :=
  {| dr_local := [];
     dr_files := [{| s_id := "fld"; s_name := "media"; s_parent := None;
                     s_is_folder := true; s_link := None |}];
     dr_perms := [(Some "fld",
                   {| GoogleDrive.perm_type := Some "user";
                      GoogleDrive.perm_role := Some "reader";
                      GoogleDrive.emailAddress := Some "Bob@Example.com" |})];
     dr_counter := 0; dr_page_cap := 2 |}.

Definition worlds0 : Factory.Worlds FsState S3State DriveState BlobState :=
  Factory.mkWorlds (mkWorld fs0 []) (mkWorld s3_0 []) (mkWorld drive0 [])
    (mkWorld blob0 []).

End Ref.

(** * Backend laws

    What the drivers rely on from a backend: an object that was written is
    seen by the existence probe that follows. *)

Module Laws.

(** A copied file exists afterwards, and the empty path names nothing. *)
Record Os {S : Type} (os : Local.Os S) : Prop := {
  copyfile_creates : forall src dst s s',
    Local.shutil_copyfile os src dst s = (Ok tt, s') ->
    Local.os_path_exists os dst s' = true;
  empty_path_absent : forall s, Local.os_path_exists os "" s = false }.


(** Making a blob handle is a local operation: it reaches no service, so
    its outcome ([handle] of the name: a handle, or the exception the SDK
    raises for a name it refuses) depends on the name alone and the state is
    as before.  A blob uploaded through a handle answers the existence probe
    of that handle.  Nothing is assumed of the [url] a handle carries. *)
Record Blob {S : Type} (sdk : Azure.Sdk S)
  (handle : string -> result Azure.BlobClient) : Prop := {
  handle_local : forall blob s,
    Azure.get_blob_client sdk blob s = (handle blob, s);
  upload_blob_visible : forall h data overwrite s s',
    Azure.upload_blob sdk h data overwrite s = (Ok tt, s') ->
    fst (Azure.blob_exists sdk h s') = Ok true }.



(** Listing the permissions of a folder succeeds and changes nothing, and a
    grant takes no permission away. *)
Record Permissions {S : Type} (service : GoogleDrive.Service S) : Prop := {
  perms_list_pure : forall fileId fields s,
    exists perms,
      GoogleDrive.permissions_list service fileId fields s = (Ok perms, s);
  perms_create_keeps : forall self fileId body s r s' email,
    GoogleDrive.permissions_create service fileId body s = (r, s') ->
    GoogleDrive.holds service self email s = true ->
    GoogleDrive.holds service self email s' = true }.

End Laws.

(** * The rest of the drivers

    [LocalDriver.list_files], and the notions the further properties are
    stated with. *)

(** ** [LocalDriver.list_files] *)

Module LocalListing.

Inductive Call := CWalk (top : string).

(** [os.walk], which produces [(root, dirs, files)] triples, and
    [os.path.relpath]. *)
Record Walker (S : Type) := {
  os_walk : string -> S -> Produced (string * list string * list string) * S;
  os_path_relpath : string -> string -> string }.
Arguments os_walk {S} _ _ _.
Arguments os_path_relpath {S} _ _ _.

Section Driver.
Context {S : Type} (os : Walker S).

(** [rel_path] of one file: relative to [self.dest], with [os.sep] replaced
    by ["/"] (the same character here). *)
Definition rel_path_of (self : Local.LocalDriver) (root file : string) : string :=
  PyStr.replace "/" "/"
    (os_path_relpath os (OsPath.join root file) (Local.dest self)).

(** [for file in files] *)
Fixpoint for_files (self : Local.LocalDriver) (prefix : option string)
  (root : string) (files : list string) : list string :=
  match files with
  | [] => []
  | file :: rest =>
      let rel_path := rel_path_of self root file in
      if match prefix with
         | None => true
         | Some p => PyStr.startswith rel_path p
         end
      then rel_path :: for_files self prefix root rest
      else for_files self prefix root rest
  end.

(** [for root, dirs, files in os.walk(self.dest)] *)
Fixpoint for_walk (self : Local.LocalDriver) (prefix : option string)
  (walked : list (string * list string * list string)) : list string :=
  match walked with
  | [] => []
  | (root, _, files) :: rest =>
      (for_files self prefix root files ++ for_walk self prefix rest)%list
  end.

(** [list_files], consumed to its end. *)
Definition list_files (self : Local.LocalDriver) (prefix : option string)
  : World S Call -> Produced string * World S Call :=
  fun w =>
    let '(walked, s') := os_walk os (Local.dest self) (backend w) in
    (mkProduced
       (for_walk self prefix (items walked))
       (match failure walked with
        | Some e => Some (reraised is_OSError "Local driver list error: " e)
        | None => None
        end),
     mkWorld s' (calls w ++ [CWalk (Local.dest self)])%list).

End Driver.
End LocalListing.

(** ** The address syntax, read as a language *)

Module EmailSyntax.

(** Every character of [s] is of the class [cls]. *)
Fixpoint all_of (cls : ascii -> bool) (s : string) : bool :=
  match s with
  | EmptyString => true
  | String a s' => cls a && all_of cls s'
  end.

(** [c] occurs in [s]. *)
Fixpoint occurs (c : ascii) (s : string) : bool :=
  match s with
  | EmptyString => false
  | String a s' => Ascii.eqb a c || occurs c s'
  end.

(** The line feed, as a string. *)
Definition newline : string := String "010" EmptyString.

(** A non-empty word over [cls]. *)
Definition word (cls : ascii -> bool) (s : string) : Prop :=
  s <> "" /\ all_of cls s = true.

(** The words the pattern describes: a local part, ["@"], a domain label,
    ["."], a tail, and possibly one final line feed. *)
Definition address (s : string) : Prop :=
  exists loc dom tl nl,
    s = loc ++ "@" ++ dom ++ "." ++ tl ++ nl /\
    word GoogleDrive.local_char loc /\
    word GoogleDrive.domain_char dom /\
    word GoogleDrive.tail_char tl /\
    (nl = "" \/ nl = newline).

End EmailSyntax.

(** ** Pages of a Drive listing *)

Module Paging.
Import GoogleDrive.

(** Does [list_files(prefix)] keep the entry?  (An entry without a name makes
    it fail when a prefix is given.) *)
Definition matches (prefix : option string) (file : File) : bool :=
  match prefix, name file with
  | None, _ => true
  | Some p, Some n => PyStr.startswith n p
  | Some _, None => false
  end.

(** Is the name one that [list_files(prefix)] may yield? *)
Definition name_matches (prefix : option string) (name : option string) : bool :=
  match prefix, name with
  | None, _ => true
  | Some p, Some n => PyStr.startswith n p
  | Some _, None => false
  end.

(** The generator was made by [list_files(prefix)]. *)
Definition of_prefix (prefix : option string) (gen : Gen) : Prop :=
  match gen with
  | GNew p => p = prefix
  | GSuspended p _ _ _ => p = prefix
  | GFinished => True
  end.

(** The entries of all pages from the one at [page_token] on, following the
    tokens; [None] when [fuel] pages do not reach the last one. *)
Fixpoint all_pages (fuel : nat) (page : option string -> FileList)
  (page_token : option string) : option (list File) :=
  match fuel with
  | O => None
  | Datatypes.S fuel' =>
      let results := page page_token in
      let here := match files results with Some l => l | None => [] end in
      if PyStr.otruthy (nextPageToken results) then
        match all_pages fuel' page (nextPageToken results) with
        | Some more => Some (here ++ more)%list
        | None => None
        end
      else Some here
  end.

(** The grant call for an address. *)
Definition grant_call (self : GoogleDriveDriver) (email : string) : Call :=
  CPermissionsCreate (_folder_id self) (grant_body email).

(** Every entry has a name, when a prefix is given. *)
Definition names_ok (prefix : option string) (fs : list File) : Prop :=
  forall f, In f fs -> prefix <> None -> name f <> None.

(** What a suspended generator has still to go through: the rest of its
    page, and the pages after it when the page carried a token. *)
Definition remaining (fuel : nat) (page : option string -> FileList)
  (rest : list File) (page_token : option string) : option (list File) :=
  if PyStr.otruthy page_token then
    match all_pages fuel page page_token with
    | Some more => Some (rest ++ more)%list
    | None => None
    end
  else Some rest.

(** The shape of a step of a generator made by [list_files(prefix)]: a
    yielded name passes the prefix test and leaves the generator suspended;
    the end and a failure leave it finished, and a failure of class
    [Exception] is a [DriverError]. *)
Definition step_shape {S : Type} (prefix : option string)
  (out : result Step * Gen * @GS S) : Prop :=
  match out with
  | (Ok (Yield name), gen', _) =>
      name_matches prefix name = true /\
      exists query rest page_token,
        gen' = GSuspended prefix query rest page_token
  | (Ok StopIteration, gen', _) => gen' = GFinished
  | (Raise e, gen', _) =>
      gen' = GFinished /\ (is_Exception e = true -> is_DriverError e = true)
  end.

(** The step of a listing that has [fs] still to go through, over a service
    in state [s0]: the end when no entry of [fs] passes the prefix test, and
    otherwise the name of the first that does, cached with its link, leaving
    the entries after it to go through. *)
Definition listing_step {S : Type} (fuel : nat)
  (page : option string -> FileList) (s0 : S) (prefix : option string)
  (query : string) (fs : list File) (c : gmap (option string) string)
  (self : GoogleDriveDriver) (out : option (result Step * Gen * @GS S)) : Prop :=
  match List.filter (matches prefix) fs with
  | [] =>
      exists w', out = Some (Ok StopIteration, GFinished, (self, w'))
                 /\ backend w' = s0
  | f :: ms =>
      exists rest' tok' w' fs',
        out = Some (Ok (Yield (name f)), GSuspended prefix query rest' tok',
                    (set_cache self (<[name f := link_or_empty f]> c), w')) /\
        backend w' = s0 /\
        remaining fuel page rest' tok' = Some fs' /\
        List.filter (matches prefix) fs' = ms /\
        names_ok prefix fs'
  end.

End Paging.

(** ** Further backend laws *)

Module MoreLaws.

(** The client reports the key it stored, and lists an object that was put
    under every prefix of its key; a key that ends with the separator is
    listed as a directory marker. *)
Record S3Store {S : Type} (client : Minio.Client S) : Prop := {
  put_echoes_name : forall b k src s res s',
    Minio.fput_object client b k src s = (Ok res, s') ->
    Minio.res_object_name res = k;
  put_then_listed : forall b k src s res s' prefix,
    Minio.fput_object client b k src s = (Ok res, s') ->
    PyStr.startswith k (PyStr.or_empty prefix) = true ->
    exists o,
      In o (items (fst (Minio.list_objects client b prefix true s'))) /\
      Minio.object_name o = k /\
      Minio.is_dir o = PyStr.endswith k "/" }.

(** An address that was granted holds a permission afterwards. *)
Record Grants {S : Type} (service : GoogleDrive.Service S) : Prop := {
  grant_then_holds : forall self email s u s',
    GoogleDrive.permissions_create service (GoogleDrive._folder_id self)
      (GoogleDrive.grant_body email) s = (Ok u, s') ->
    GoogleDrive.holds service self email s' = true }.

End MoreLaws.

(** ** Further reference data *)

Module RefMore.

(** A walk of ["/srv/media"]: two directories, three files. *)
Definition walked : list (string * list string * list string) :=
  [("/srv/media", ["images"], ["notes.txt"]);
   ("/srv/media/images", [], ["a.jpg"; "b.jpg"])].

(** [relpath] for a path below [start]. *)
Definition rel (path start : string) : string :=
  if PyStr.startswith path (start ++ "/")
  then PyStr.drop (String.length (start ++ "/")) path
  else path.

Definition walker : LocalListing.Walker unit :=
  {| LocalListing.os_walk := fun _ s => (mkProduced walked None, s);
     LocalListing.os_path_relpath := rel |}.

(** The pages of the listing of [Ref.drive3], as the service cuts them. *)
Definition pages3 (page_token : option string) : GoogleDrive.FileList :=
  match fst (Ref.dr_files_list (GoogleDrive.list_query Ref.sample_drive)
               GoogleDrive.list_fields page_token (Some 1000%nat) Ref.drive3)
  with
  | Ok results => results
  | Raise _ => {| GoogleDrive.files := None; GoogleDrive.nextPageToken := None |}
  end.

(** [Ref.sample_drive] with an empty cache. *)
Definition sample_drive_cached : GoogleDrive.GoogleDriveDriver :=
  GoogleDrive.set_cache Ref.sample_drive ∅.

(** The entries of all pages of [pages3]. *)
Definition files3 : list GoogleDrive.File :=
  match Paging.all_pages 5 pages3 None with
  | Some l => l
  | None => []
  end.

(** What a consumer of [list_files("b")] gets on [Ref.drive3], and the
    generator and state it leaves. *)
Definition listed_b
  : Produced (option string) * GoogleDrive.Gen
    * (GoogleDrive.GoogleDriveDriver * World Ref.DriveState GoogleDrive.Call) :=
  match GoogleDrive.consume Ref.service 10 5 (GoogleDrive.list_files (Some "b"))
          (Ref.sample_drive, mkWorld Ref.drive3 []) with
  | Some out => out
  | None => (mkProduced [] None, GoogleDrive.GFinished,
             (Ref.sample_drive, mkWorld Ref.drive3 []))
  end.

(** The sample configuration with a [share_with] that is neither a string
    nor a list. *)
Definition bad_share_config : Config :=
  {| config_driver := VStr "google_drive";
     config_local := config_local (Ref.sample_config VNone);
     config_minio := config_minio (Ref.sample_config VNone);
     config_google_drive :=
       {| gd_service_account_file := "account.json"; gd_folder := "media";
          gd_share_with := SWOther |};
     config_azure := config_azure (Ref.sample_config VNone) |}.

(** Three configured addresses: ann twice, in two spellings, and bob. *)
Definition emails3 : list string :=
  ["ann@example.com"; "Ann@Example.com"; "bob@example.com"].

End RefMore.

(** * Properties *)

(** ** Facts on strings *)

Module PyStrFacts.
Import PyStr.

Lemma startswith_app s r : startswith (s ++ r) s = true.
Proof.
  induction s as [|a s IH]; simpl.
  - by destruct r.
  - by rewrite Ascii.eqb_refl, IH.
Qed.

Lemma startswith_inv s p :
  startswith s p = true -> exists r, s = p ++ r.
Proof.
  revert s; induction p as [|a p IH]; intros s H.
  - by exists s.
  - destruct s as [|b s]; simpl in H; [done|].
    apply andb_true_iff in H as [Hab Hs].
    apply Ascii.eqb_eq in Hab; subst b.
    destruct (IH _ Hs) as [r ->]. by exists r.
Qed.

Lemma startswith_iff s p :
  startswith s p = true <-> exists r, s = p ++ r.
Proof.
  split; [apply startswith_inv|].
  intros [r ->]. apply startswith_app.
Qed.

Lemma drop_app p r : drop (String.length p) (p ++ r) = r.
Proof. induction p as [|a p IH]; simpl; [by destruct r | done]. Qed.

Lemma startswith_app_app p s q :
  startswith (p ++ s) (p ++ q) = startswith s q.
Proof.
  induction p as [|a p IH]; simpl; [done|].
  by rewrite Ascii.eqb_refl, IH.
Qed.

Lemma startswith_empty s : startswith s "" = true.
Proof. by destruct s. Qed.

Lemma truthy_false s : truthy s = false <-> s = "".
Proof. destruct s; simpl; split; congruence. Qed.

Lemma truthy_true s : truthy s = true <-> s <> "".
Proof. destruct s; simpl; split; congruence. Qed.

Lemma app_cons a (s r : string) : String a s ++ r = String a (s ++ r).
Proof. reflexivity. Qed.

Lemma app_assoc (a b c : string) : (a ++ b) ++ c = a ++ (b ++ c).
Proof.
  induction a as [|x a IH]; [done|].
  by rewrite !app_cons, IH.
Qed.

Lemma app_empty_r (s : string) : s ++ "" = s.
Proof. induction s as [|a s IH]; [done|]. by rewrite app_cons, IH. Qed.

Lemma startswith_app_l s a b :
  startswith s (a ++ b) = true -> startswith s a = true.
Proof.
  intros [r ->]%startswith_inv. rewrite app_assoc. apply startswith_app.
Qed.

Lemma app_nonempty_r s r : r <> "" -> s ++ r <> "".
Proof. destruct s; simpl; [done | discriminate]. Qed.

Lemma app_nonempty_l s r : s <> "" -> s ++ r <> "".
Proof. destruct s; simpl; [done | discriminate]. Qed.

(** What [rstrip] leaves does not end with the stripped character. *)
Lemma rstrip_last c s :
  match rstrip c s with
  | EmptyString => True
  | r => endswith r (String c EmptyString) = false
  end.
Proof.
  induction s as [|a s IH]; simpl; [done|].
  destruct (rstrip c s) as [|b r] eqn:E.
  - destruct (Ascii.eqb a c) eqn:Hac; [done|].
    simpl. rewrite Hac. done.
  - simpl. simpl in IH. rewrite IH.
    by destruct (Ascii.eqb a c).
Qed.

Lemma strip_not_endswith c s :
  endswith (strip c s) (String c EmptyString) = true -> strip c s = "".
Proof.
  unfold strip. pose proof (rstrip_last c (lstrip c s)) as H.
  destruct (rstrip c (lstrip c s)); [done | congruence].
Qed.

End PyStrFacts.

(** ** [DriverType] and [create_driver] *)

(** [DriverType.LOCAL == "local"] is [True]. *)
Example LOCAL_eq_local : py_eq (VEnum LOCAL) (VStr "local") = EqBool true.
Proof. reflexivity. Qed.

Example local_eq_LOCAL : py_eq (VStr "local") (VEnum LOCAL) = EqBool true.
Proof. reflexivity. Qed.

Example LOCAL_eq_minio : py_eq (VEnum LOCAL) (VStr "minio") = EqBool false.
Proof. reflexivity. Qed.

Example LOCAL_eq_LOCAL : py_eq (VEnum LOCAL) (VEnum LOCAL) = EqNone.
Proof. reflexivity. Qed.

(** C8.  A [DriverType] member compared with a string, on either side of
    [==], gives [True] exactly when the string is the member's value, and
    [False] otherwise. *)
Theorem DriverType_eq_plain_string (d : DriverType) (s : string) :
  (py_eq (VEnum d) (VStr s) = EqBool true <-> s = DriverType.value d) /\
  (py_eq (VEnum d) (VStr s) = EqBool false <-> s <> DriverType.value d) /\
  (py_eq (VStr s) (VEnum d) = EqBool true <-> s = DriverType.value d).
Proof.
  assert (E : py_eq (VEnum d) (VStr s) = EqBool (String.eqb (DriverType.value d) s))
    by reflexivity.
  assert (E' : py_eq (VStr s) (VEnum d) = EqBool (String.eqb (DriverType.value d) s))
    by reflexivity.
  rewrite E, E'.
  destruct (String.eqb_spec (DriverType.value d) s) as [Heq|Hne].
  - repeat split; intros; try congruence; try done.
  - repeat split; intros; try congruence; try done.
    all: intros ?; congruence.
Qed.

Lemma DriverType__eq__not_str (d : DriverType) (v : pyval) :
  (forall s, v <> VStr s) -> DriverType__eq__ d v = EqNone.
Proof. intros H. destruct v as [s| | |]; try reflexivity. by destruct (H s). Qed.

Section FactoryFacts.
Context {So Sm Sg Sa : Type}.
Context (os : Local.Os So) (client : Minio.Client Sm)
  (service : GoogleDrive.Service Sg) (sdk : Azure.Sdk Sa).
Import Factory.

(** The dispatch of [create_driver], by the value of [config.driver]. *)
Lemma create_driver_dispatch (config : Config) :
  create_driver os client service sdk config =
  match config_driver config with
  | VStr s =>
      if String.eqb "local" s then
        (d <- on_os (Local.__init__ os config) ;; ret (Some (DLocal d)))
      else if String.eqb "minio" s then
        (d <- on_minio (Minio.__init__ client config) ;; ret (Some (DMinio d)))
      else if String.eqb "google_drive" s then
        (d <- on_drive (GoogleDrive.__init__ service config) ;;
         ret (Some (DGoogleDrive d)))
      else if String.eqb "azure" s then
        (d <- on_azure (Azure.__init__ sdk config) ;; ret (Some (DAzure d)))
      else ret None
  | _ => ret None
  end.
Proof.
  unfold create_driver.
  destruct (config_driver config) as [s| | |]; reflexivity.
Qed.

(** C7.  [create_driver] runs the constructor of the configured kind and no
    other: the result is that constructor's (its driver, or the exception it
    raises), the backend of that kind is left as the constructor leaves it,
    and the three other backends are untouched.  For every other value of
    [config.driver] the result is [None] and nothing is touched. *)
Theorem create_driver_selects (config : Config) (σ : Worlds So Sm Sg Sa) :
  let out := create_driver os client service sdk config σ in
  (config_driver config = VStr "local" ->
   fst out = made DLocal (fst (Local.__init__ os config (w_os σ))) /\
   snd out = mkWorlds (snd (Local.__init__ os config (w_os σ)))
               (w_minio σ) (w_drive σ) (w_azure σ)) /\
  (config_driver config = VStr "minio" ->
   fst out = made DMinio (fst (Minio.__init__ client config (w_minio σ))) /\
   snd out = mkWorlds (w_os σ)
               (snd (Minio.__init__ client config (w_minio σ)))
               (w_drive σ) (w_azure σ)) /\
  (config_driver config = VStr "google_drive" ->
   fst out = made DGoogleDrive
               (fst (GoogleDrive.__init__ service config (w_drive σ))) /\
   snd out = mkWorlds (w_os σ) (w_minio σ)
               (snd (GoogleDrive.__init__ service config (w_drive σ)))
               (w_azure σ)) /\
  (config_driver config = VStr "azure" ->
   fst out = made DAzure (fst (Azure.__init__ sdk config (w_azure σ))) /\
   snd out = mkWorlds (w_os σ) (w_minio σ) (w_drive σ)
               (snd (Azure.__init__ sdk config (w_azure σ)))) /\
  (known_kind (config_driver config) = false -> out = (Ok None, σ)).
Proof.
  intros out; subst out. rewrite create_driver_dispatch.
  repeat split.
  - rewrite H. simpl. unfold bind, on_os.
    by destruct (Local.__init__ os config (w_os σ)) as [[d|e] w].
  - rewrite H. simpl. unfold bind, on_os.
    by destruct (Local.__init__ os config (w_os σ)) as [[d|e] w].
  - rewrite H. simpl. unfold bind, on_minio.
    by destruct (Minio.__init__ client config (w_minio σ)) as [[d|e] w].
  - rewrite H. simpl. unfold bind, on_minio.
    by destruct (Minio.__init__ client config (w_minio σ)) as [[d|e] w].
  - rewrite H. simpl. unfold bind, on_drive.
    by destruct (GoogleDrive.__init__ service config (w_drive σ)) as [[d|e] w].
  - rewrite H. simpl. unfold bind, on_drive.
    by destruct (GoogleDrive.__init__ service config (w_drive σ)) as [[d|e] w].
  - rewrite H. simpl. unfold bind, on_azure.
    by destruct (Azure.__init__ sdk config (w_azure σ)) as [[d|e] w].
  - rewrite H. simpl. unfold bind, on_azure.
    by destruct (Azure.__init__ sdk config (w_azure σ)) as [[d|e] w].
  - intros H. destruct (config_driver config) as [s| | |]; try reflexivity.
    unfold known_kind in H. rewrite !orb_false_iff in H.
    destruct H as [[[-> ->] ->] ->]. reflexivity.
Qed.

End FactoryFacts.

(** [create_driver] on a configuration whose kind is the string ["azure"]:
    an [AzureDriver], after the two calls of its constructor that reach the
    container; the other backends saw no call. *)
Example create_driver_azure :
  let out := Factory.create_driver Ref.os Ref.client Ref.service Ref.sdk
               (Ref.sample_config (VStr "azure")) Ref.worlds0 in
  fst out = Ok (Some (Factory.DAzure Ref.sample_azure)) /\
  calls (Factory.w_azure (snd out))
  = [Azure.CFromConnectionString "AccountName=test";
     Azure.CGetContainerClient "media"; Azure.CContainerExists] /\
  calls (Factory.w_os (snd out)) = [] /\
  calls (Factory.w_minio (snd out)) = [] /\
  calls (Factory.w_drive (snd out)) = [].
Proof. vm_compute. repeat split. Qed.

Example create_driver_unknown :
  Factory.create_driver Ref.os Ref.client Ref.service Ref.sdk
    (Ref.sample_config (VStr "ftp")) Ref.worlds0 = (Ok None, Ref.worlds0).
Proof. reflexivity. Qed.

(** C9.  [DriverType.__eq__] returns [None] for every comparand that is not a
    string; in particular a member compared with itself gives [None], which
    is falsy, and [create_driver] returns [None], touching nothing, whenever
    [config.driver] is a [DriverType] member. *)
Theorem DriverType_eq_not_reflexive {So Sm Sg Sa : Type}
  (os : Local.Os So) (client : Minio.Client Sm)
  (service : GoogleDrive.Service Sg) (sdk : Azure.Sdk Sa) :
  (forall d v, (forall s, v <> VStr s) -> DriverType__eq__ d v = EqNone) /\
  (forall d, py_eq (VEnum d) (VEnum d) = EqNone /\
             eq_truthy (py_eq (VEnum d) (VEnum d)) = false) /\
  (forall config σ d,
     config_driver config = VEnum d ->
     Factory.create_driver os client service sdk config σ = (Ok None, σ)).
Proof.
  split; [exact DriverType__eq__not_str|].
  split; [by intros d|].
  intros config σ d H.
  unfold Factory.create_driver. by rewrite H.
Qed.

Lemma DriverType_eq_not_reflexive_witness :
  DriverType__eq__ LOCAL (VEnum LOCAL) = EqNone /\
  Factory.create_driver Ref.os Ref.client Ref.service Ref.sdk
    (Ref.sample_config (VEnum AZURE)) Ref.worlds0 = (Ok None, Ref.worlds0).
Proof.
  destruct (DriverType_eq_not_reflexive Ref.os Ref.client Ref.service Ref.sdk)
    as (H1 & _ & H3).
  split.
  - apply H1. intros s; discriminate.
  - apply (H3 _ _ AZURE). reflexivity.
Defined.

(** ** [MinioDriver] *)

Module MinioFacts.
Import Minio.

Section Facts.
Context {S : Type} (client : Client S).

(** [file_exists] unfolded on the answer of [stat_object]. *)
Lemma file_exists_run (self : MinioDriver) (obj_path : string) (w : World S Call) :
  file_exists client self obj_path w =
  let key := scoped self obj_path in
  let '(r, s') := stat_object client (bucket self) key (backend w) in
  (match r with
   | Ok _ => Ok true
   | Raise e =>
       if is_S3Error e then
         if String.eqb (exn_code e) "NoSuchKey" then Ok false
         else Raise (mkDriverError ("MinIO driver exists error: " ++ exn_str e))
       else Raise e
   end,
   mkWorld s' (calls w ++ [CStatObject (bucket self) key])%list).
Proof.
  unfold file_exists, try_except, bind, invoke, ret, raise. simpl.
  destruct (stat_object client (bucket self) (scoped self obj_path) (backend w))
    as [[[]|e] s']; simpl; [reflexivity|].
  destruct (is_S3Error e); [|reflexivity].
  destruct (String.eqb (exn_code e) "NoSuchKey"); reflexivity.
Qed.

(** C5.  [file_exists] makes one client call, [stat_object] on the scoped
    key, and no other; it returns [True] exactly when that call succeeds,
    [False] exactly when it raises an [S3Error] with code ["NoSuchKey"], and
    raises [DriverError] for an [S3Error] with any other code. *)
Theorem file_exists_point_query (self : MinioDriver) (obj_path : string)
  (w : World S Call) :
  let key := scoped self obj_path in
  let stat := stat_object client (bucket self) key (backend w) in
  let out := file_exists client self obj_path w in
  calls (snd out) = (calls w ++ [CStatObject (bucket self) key])%list /\
  backend (snd out) = snd stat /\
  (fst out = Ok true <-> fst stat = Ok tt) /\
  (fst out = Ok false <->
   exists e, fst stat = Raise e /\ is_S3Error e = true
             /\ exn_code e = "NoSuchKey") /\
  (forall e, fst stat = Raise e -> is_S3Error e = true ->
             exn_code e <> "NoSuchKey" ->
             fst out = Raise (mkDriverError
                                ("MinIO driver exists error: " ++ exn_str e))).
Proof.
  cbv zeta. rewrite file_exists_run. cbv zeta.
  destruct (stat_object client (bucket self) (scoped self obj_path) (backend w))
    as [r s']; simpl.
  split; [reflexivity|]. split; [reflexivity|].
  destruct r as [[]|e]; simpl.
  - repeat split; try done.
    intros (e & He & _); discriminate.
  - destruct (is_S3Error e) eqn:Hs3.
    + destruct (String.eqb_spec (exn_code e) "NoSuchKey") as [Hc|Hc].
      * repeat split; try done.
        -- intros _. by exists e.
        -- intros e' [= <-] _ Hne. done.
      * repeat split; try done.
        -- intros (e' & [= <-] & _ & Hc'). done.
        -- by intros e' [= <-] _ _.
    + repeat split; try done.
      * intros (e' & [= <-] & Hs & _). congruence.
      * intros e' [= <-] Hs. congruence.
Qed.

(** What the constructor leaves in [bucket_subpath]: the configured value
    with its leading and trailing separators stripped, when it is set and not
    empty. *)
Lemma init_bucket_subpath (config : Config) (w0 w1 : World S Call)
  (self : MinioDriver) :
  __init__ client config w0 = (Ok self, w1) ->
  bucket_subpath self =
  match minio_bucket_subpath (config_minio config) with
  | Some sp => if PyStr.truthy sp then Some (PyStr.strip "/" sp) else None
  | None => None
  end.
Proof.
  unfold __init__, try_except, bind, invoke, ret, raise.
  destruct (minio_new client _ _ _ _ _ (backend w0)) as [[[]|e] s1]; simpl.
  2: { destruct (is_S3Error e); intros [=]. }
  destruct (bucket_exists client _ s1) as [[found|e] s2]; simpl.
  2: { destruct (is_S3Error e); intros [=]. }
  destruct found; simpl.
  - by intros [= <- _].
  - destruct (make_bucket client _ s2) as [[[]|e] s3]; simpl.
    + by intros [= <- _].
    + destruct (is_S3Error e); intros [=].
Qed.

(** A scope set by the constructor does not end with a separator. *)
Lemma init_scope_no_trailing_sep (config : Config) (w0 w1 : World S Call)
  (self : MinioDriver) (s : string) :
  __init__ client config w0 = (Ok self, w1) ->
  bucket_subpath self = Some s -> s <> "" ->
  PyStr.endswith s "/" = false.
Proof.
  intros Hinit Hs Hne. rewrite (init_bucket_subpath _ _ _ _ Hinit) in Hs.
  destruct (minio_bucket_subpath (config_minio config)) as [sp|]; [|done].
  destruct (PyStr.truthy sp); [|done].
  injection Hs as <-.
  destruct (PyStr.endswith (PyStr.strip "/" sp) "/") eqn:E; [|done].
  by apply PyStrFacts.strip_not_endswith in E.
Qed.

(** The [for] loop over a listing filtered by a key prefix that extends
    [prefix_to_strip]. *)
Lemma for_objects_filter (self : MinioDriver) (pre : string)
  (stored : list Object) :
  PyStr.truthy (prefix_to_strip self) = true ->
  for_objects self
    (List.filter
       (fun o => PyStr.startswith (object_name o) (prefix_to_strip self ++ pre))
       stored) =
  map (fun o => PyStr.drop (String.length (prefix_to_strip self)) (object_name o))
    (List.filter
       (fun o => negb (is_dir o)
                 && PyStr.startswith (object_name o) (prefix_to_strip self ++ pre))
       stored).
Proof.
  intros Ht. induction stored as [|o stored IH]; [done|].
  simpl.
  destruct (PyStr.startswith (object_name o) (prefix_to_strip self ++ pre)) eqn:Hp.
  - simpl. destruct (is_dir o); simpl; [exact IH|].
    rewrite Ht, (PyStrFacts.startswith_app_l _ _ _ Hp). simpl. by rewrite IH.
  - by rewrite andb_false_r.
Qed.

(** C2.  For a driver whose constructor set the scope [s], on a bucket that
    holds [stored] and a client that lists by key prefix: [list_files] yields,
    in the order of the bucket, the keys that start with [s + "/"] (and then
    with [prefix]) and are not directory markers, each with [s + "/"] taken
    off.  So a name [n] is yielded exactly when the key [s + "/" + n] is
    stored as a non-directory entry. *)
Theorem list_files_scoped (config : Config) (w0 w1 w : World S Call)
  (self : MinioDriver) (s : string) (prefix : option string)
  (stored : list Object) :
  __init__ client config w0 = (Ok self, w1) ->
  bucket_subpath self = Some s -> s <> "" ->
  (forall p,
     fst (list_objects client (bucket self) p true (backend w)) =
     mkProduced
       (List.filter
          (fun o => PyStr.startswith (object_name o) (PyStr.or_empty p)) stored)
       None) ->
  let out := fst (list_files client self prefix w) in
  failure out = None /\
  items out =
    map (fun o => PyStr.drop (String.length (s ++ "/")) (object_name o))
      (List.filter
         (fun o => negb (is_dir o)
                   && PyStr.startswith (object_name o)
                        (s ++ "/" ++ PyStr.or_empty prefix))
         stored) /\
  (forall n, In n (items out) <->
             exists o, In o stored /\ is_dir o = false
                       /\ object_name o = s ++ "/" ++ n
                       /\ PyStr.startswith n (PyStr.or_empty prefix) = true).
Proof.
  intros Hinit Hs Hne Hlist out.
  pose proof (init_scope_no_trailing_sep _ _ _ _ _ Hinit Hs Hne) as Hend.
  assert (Ht : PyStr.truthy s = true) by by apply PyStrFacts.truthy_true.
  assert (Hpts : prefix_to_strip self = s ++ "/")
    by (unfold prefix_to_strip; by rewrite Hs, Ht).
  assert (Hep : effective_prefix self prefix
                = Some (prefix_to_strip self ++ PyStr.or_empty prefix)).
  { unfold effective_prefix. rewrite Hs, Ht, Hend, Hpts.
    destruct prefix as [p|]; simpl.
    - destruct p as [|a p]; simpl; [|done].
      by rewrite PyStrFacts.app_empty_r.
    - by rewrite PyStrFacts.app_empty_r. }
  assert (Hitems : items out =
    map (fun o => PyStr.drop (String.length (s ++ "/")) (object_name o))
      (List.filter
         (fun o => negb (is_dir o)
                   && PyStr.startswith (object_name o)
                        (s ++ "/" ++ PyStr.or_empty prefix))
         stored)).
  { subst out. unfold list_files.
    specialize (Hlist (effective_prefix self prefix)).
    destruct (list_objects client (bucket self) (effective_prefix self prefix)
                true (backend w)) as [objects s'].
    simpl in Hlist. subst objects. simpl.
    rewrite Hep. simpl PyStr.or_empty.
    rewrite for_objects_filter.
    - rewrite Hpts. by rewrite PyStrFacts.app_assoc.
    - rewrite Hpts. apply PyStrFacts.truthy_true.
      apply PyStrFacts.app_nonempty_r. discriminate. }
  split; [|split; [exact Hitems|]].
  - subst out. unfold list_files.
    specialize (Hlist (effective_prefix self prefix)).
    destruct (list_objects client (bucket self) (effective_prefix self prefix)
                true (backend w)) as [objects s'].
    simpl in Hlist. by subst objects.
  - intros n. rewrite Hitems, in_map_iff. split.
    + intros (o & <- & [Ho Hf]%filter_In).
      apply andb_true_iff in Hf as [Hd Hp].
      apply PyStrFacts.startswith_inv in Hp as [r Hr].
      exists o. split; [done|]. split; [by destruct (is_dir o)|].
      rewrite Hr. rewrite <- !PyStrFacts.app_assoc.
      rewrite (PyStrFacts.app_assoc (s ++ "/")), PyStrFacts.drop_app.
      split; [by rewrite !PyStrFacts.app_assoc|apply PyStrFacts.startswith_app].
    + intros (o & Ho & Hd & Hn & Hp).
      exists o. split.
      * rewrite Hn, <- PyStrFacts.app_assoc. apply PyStrFacts.drop_app.
      * apply filter_In. split; [done|]. rewrite Hd. simpl.
        rewrite Hn, <- !PyStrFacts.app_assoc.
        by rewrite PyStrFacts.startswith_app_app.
Qed.

(** A successful [upload_file] is a successful [fput_object] on the scoped
    key. *)
Lemma minio_upload_ok (self : MinioDriver) (src obj_path loc : string)
  (w w1 : World S Call) :
  upload_file client self src obj_path w = (Ok loc, w1) ->
  exists res,
    fput_object client (bucket self) (scoped self obj_path) src (backend w)
    = (Ok res, backend w1).
Proof.
  unfold upload_file, upload_file_try, try_except, bind, invoke, ret, raise.
  destruct (fput_object client _ _ _ (backend w)) as [[res|e] s1]; simpl.
  - intros [= _ <-]. by exists res.
  - destruct (is_S3Error e); intros [=].
Qed.


End Facts.

(** The scenario of the sibling key: the bucket holds ["database.csv"], the
    marker ["data/"] and ["data/x"]; with scope ["data"] the listing is
    [["x"]]. *)
Example list_files_sibling :
  fst (list_files Ref.client Ref.sample_minio None (mkWorld Ref.s3_0 []))
  = mkProduced ["x"] None.
Proof. reflexivity. Qed.

Lemma list_files_scoped_witness :
  items (fst (list_files Ref.client Ref.sample_minio None (mkWorld Ref.s3_0 [])))
  = map (fun o => PyStr.drop (String.length ("data" ++ "/")) (object_name o))
      (List.filter
         (fun o => negb (is_dir o)
                   && PyStr.startswith (object_name o) ("data" ++ "/" ++ ""))
         (Ref.s3_bucket_objects "media" Ref.s3_0)).
Proof.
  refine (proj1 (proj2
    (list_files_scoped Ref.client (Ref.sample_config (VStr "minio"))
       (mkWorld Ref.s3_0 []) _ (mkWorld Ref.s3_0 []) Ref.sample_minio "data" None
       (Ref.s3_bucket_objects "media" Ref.s3_0) _ _ _ _))).
  - reflexivity.
  - reflexivity.
  - discriminate.
  - intros p. reflexivity.
Defined.

End MinioFacts.

(** ** [LocalDriver] *)

Module LocalFacts.
Import Local.

Section Facts.
Context {S : Type} (os : Os S).

(** A successful [upload_file] ends with a successful [shutil.copyfile] to
    the joined path, which is what it returns. *)
Lemma local_upload_ok (self : LocalDriver) (src obj_path loc : string)
  (w w1 : World S Call) :
  upload_file os self src obj_path w = (Ok loc, w1) ->
  loc = OsPath.join (dest self) obj_path /\
  exists s, shutil_copyfile os src loc s = (Ok tt, backend w1).
Proof.
  unfold upload_file, upload_file_try, try_except, bind, path_exists, makedirs,
    copyfile, invoke, ret, raise. simpl.
  set (d := OsPath.join (dest self) obj_path).
  destruct (os_path_exists os (OsPath.dirname d) (backend w)); simpl.
  - destruct (shutil_copyfile os src d (backend w)) as [[[]|e] s1] eqn:E; simpl.
    + intros [= <- <-]. split; [done|]. by exists (backend w).
    + destruct (upload_file_except e); intros [=].
  - destruct (os_makedirs os (OsPath.dirname d) (backend w)) as [[[]|e] s1]; simpl.
    + destruct (shutil_copyfile os src d s1) as [[[]|e] s2] eqn:E; simpl.
      * intros [= <- <-]. split; [done|]. by exists s1.
      * destruct (upload_file_except e); intros [=].
    + destruct (upload_file_except e); intros [=].
Qed.


End Facts.
End LocalFacts.

(** ** [AzureDriver] *)

Module AzureFacts.
Import Azure.

Section Facts.
Context {S : Type} (sdk : Sdk S) (handle : string -> result BlobClient).



End Facts.
End AzureFacts.

(** ** [GoogleDriveDriver] *)

Module GoogleDriveFacts.
Import GoogleDrive.

Section Facts.
Context {S : Type} (service : Service S).

(** A cache hit of [get_file_url]: the cached value, with no call. *)
Lemma get_file_url_hit (self : GoogleDriveDriver) (obj_path link : string)
  (w : World S Call) :
  cached self obj_path = Some link ->
  get_file_url service self obj_path w = (Ok link, w).
Proof. unfold get_file_url. by intros ->. Qed.

(** A cache hit of [file_exists]: [True], with no call. *)
Lemma file_exists_hit (self : GoogleDriveDriver) (obj_path link : string)
  (w : World S Call) :
  cached self obj_path = Some link ->
  file_exists service self obj_path w = (Ok true, w).
Proof. unfold file_exists. by intros ->. Qed.





(** *** The generator of [list_files] *)











(** On a service that answers every listing and puts everything on one page,
    every step ends with one fetch at most. *)
Lemma next_total_one_page gen (σ : @GS S) :
  (forall q fields pageToken pageSize s,
     exists results s',
       files_list service q fields pageToken pageSize s = (Ok results, s')
       /\ PyStr.otruthy (nextPageToken results) = false) ->
  exists out, next service 2 gen σ = Some out.
Proof.
  intros Hone.
  assert (Hfetch : forall fuel prefix query t (σ0 : @GS S),
            exists out, fetch_page service (Datatypes.S fuel) prefix query t σ0
                        = Some out).
  { intros fuel prefix query t σ0. simpl. unfold invoke.
    destruct (Hone query list_fields t (Some 1000%nat) (backend (snd σ0)))
      as (results & s' & -> & Htok).
    unfold after_for. simpl.
    destruct (for_files prefix _ (_url_cache (fst σ0))); eauto.
    rewrite Htok. eauto. }
  destruct gen as [prefix|prefix query rest page_token|]; unfold next.
  - apply Hfetch.
  - unfold after_for.
    destruct (for_files prefix rest (_url_cache (fst σ))); eauto.
    destruct (PyStr.otruthy page_token); eauto.
  - eauto.
Qed.


(** C10.  A name found in the URL cache is answered from it: [get_file_url]
    returns the cached value, the empty string included, and [file_exists]
    returns [True] whatever that value is, both without a call.  A listing
    entry without ["webViewLink"] that [list_files] yields is cached under
    its name with the empty string; so, right after such a yield,
    [get_file_url] of that name returns the empty string while [file_exists]
    returns [True]. *)
Theorem cache_hit_may_be_empty :
  (forall self obj_path link (w : World S Call),
     cached self obj_path = Some link ->
     get_file_url service self obj_path w = (Ok link, w) /\
     file_exists service self obj_path w = (Ok true, w)) /\
  (forall fuel prefix query file rest page_token self (w : World S Call) c n,
     _url_cache self = Some c ->
     GoogleDrive.name file = Some n ->
     webViewLink file = None ->
     match prefix with Some pre => PyStr.startswith n pre | None => true end
     = true ->
     let self' := set_cache self (<[Some n := ""]> c) in
     next service fuel (GSuspended prefix query (file :: rest) page_token)
       (self, w)
     = Some (Ok (Yield (Some n)), GSuspended prefix query rest page_token,
             (self', w)) /\
     get_file_url service self' n w = (Ok "", w) /\
     file_exists service self' n w = (Ok true, w)).
Proof.
  split.
  - intros self obj_path link w H.
    by rewrite (get_file_url_hit _ _ _ _ H), (file_exists_hit _ _ _ _ H).
  - intros fuel prefix query file rest page_token self w c n Hc Hn Hl Hp self'.
    assert (Hcached : cached self' n = Some "").
    { unfold cached, self'. simpl. apply lookup_insert_eq. }
    split; [|by rewrite (get_file_url_hit _ _ _ _ Hcached),
                        (file_exists_hit _ _ _ _ Hcached)].
    simpl. unfold after_for. simpl. rewrite Hc, Hn.
    unfold link_or_empty. rewrite Hl.
    destruct prefix as [pre|]; [rewrite Hp|]; reflexivity.
Qed.

(** *** Sharing the folder at construction *)

(** An address that passes the syntax check is not empty. *)
Lemma email_nonempty (email : string) :
  email_regex_match email = true -> PyStr.truthy email = true.
Proof. by destruct email. Qed.

(** [_get_share_with] keeps the addresses that pass the syntax check, makes
    no call and raises nothing for the others. *)
Lemma get_share_with_list (c : GoogleDriveConfig) (l : list string)
  (w : World S Call) :
  gd_share_with c = SWList l ->
  _get_share_with (S:=S) c w = (Ok (List.filter email_regex_match l), w).
Proof. unfold _get_share_with. by intros ->. Qed.

Lemma get_share_with_str (c : GoogleDriveConfig) (a : string)
  (w : World S Call) :
  gd_share_with c = SWStr a ->
  _get_share_with (S:=S) c w = (Ok (List.filter email_regex_match [a]), w).
Proof.
  unfold _get_share_with. intros ->. simpl. by destruct (email_regex_match a).
Qed.

(** [_share_with] unfolded on the answers of the service. *)
Lemma share_with_run (self : GoogleDriveDriver) (email : string)
  (w : World S Call) :
  _share_with service self email w =
  let '(r, s1) :=
    permissions_list service (_folder_id self) perm_fields (backend w) in
  let log1 := (calls w ++ [CPermissionsList (_folder_id self) perm_fields])%list in
  match r with
  | Raise e =>
      (Raise (reraised is_Exception "Google Drive has permission error: " e),
       mkWorld s1 log1)
  | Ok perms =>
      if existsb (same_address email)
           (match permissions perms with Some l => l | None => [] end)
      then (Ok tt, mkWorld s1 log1)
      else
        let '(r2, s2) :=
          permissions_create service (_folder_id self) (grant_body email) s1 in
        (match r2 with
         | Ok _ => Ok tt
         | Raise e =>
             Raise (reraised is_Exception "Google Drive sharing folder error: " e)
         end,
         mkWorld s2
           (log1 ++ [CPermissionsCreate (_folder_id self) (grant_body email)])%list)
  end.
Proof.
  unfold _share_with, _has_already_permission, try_except, bind, invoke, ret,
    wrap, raise, reraised. simpl.
  destruct (permissions_list service (_folder_id self) perm_fields (backend w))
    as [[perms|e] s1]; simpl.
  - destruct (existsb _ _); simpl; [done|].
    destruct (permissions_create service (_folder_id self) (grant_body email) s1)
      as [[[]|e] s2]; simpl; [done|].
    by destruct (is_Exception e).
  - by destruct (is_Exception e).
Qed.

(** For one address: a grant is issued exactly when the permission listing
    succeeded and reported no permission of that address. *)
Lemma share_with_grants (self : GoogleDriveDriver) (email : string)
  (w : World S Call) :
  exists l,
    calls (snd (_share_with service self email w)) = (calls w ++ l)%list /\
    List.filter is_grant l =
    match fst (permissions_list service (_folder_id self) perm_fields
                 (backend w)) with
    | Ok _ =>
        if holds service self email (backend w) then []
        else [CPermissionsCreate (_folder_id self) (grant_body email)]
    | Raise _ => []
    end.
Proof.
  rewrite share_with_run. unfold holds.
  destruct (permissions_list service (_folder_id self) perm_fields (backend w))
    as [[perms|e] s1]; simpl.
  - destruct (existsb _ _); simpl.
    + by exists [CPermissionsList (_folder_id self) perm_fields].
    + destruct (permissions_create service _ _ s1) as [r2 s2]. simpl.
      exists [CPermissionsList (_folder_id self) perm_fields;
              CPermissionsCreate (_folder_id self) (grant_body email)].
      split; [by rewrite <- app_assoc | done].
  - by exists [CPermissionsList (_folder_id self) perm_fields].
Qed.

Section WithPermissionLaws.
Context (Hlaw : Laws.Permissions service).

(** An address that holds a permission: one listing, no grant, and the
    backend is as before. *)
Lemma share_with_held (self : GoogleDriveDriver) (email : string)
  (w : World S Call) :
  holds service self email (backend w) = true ->
  _share_with service self email w =
  (Ok tt, mkWorld (backend w)
            (calls w ++ [CPermissionsList (_folder_id self) perm_fields])%list).
Proof.
  intros H. rewrite share_with_run. unfold holds in H.
  destruct (Laws.perms_list_pure _ Hlaw (_folder_id self) perm_fields (backend w))
    as [perms E].
  rewrite E in *. simpl in H. by rewrite H.
Qed.

(** An address that holds none: one listing, then one grant. *)
Lemma share_with_lacking (self : GoogleDriveDriver) (email : string)
  (w : World S Call) :
  holds service self email (backend w) = false ->
  exists r s2,
    permissions_create service (_folder_id self) (grant_body email) (backend w)
    = (r, s2) /\
    snd (_share_with service self email w) =
    mkWorld s2
      (calls w ++ [CPermissionsList (_folder_id self) perm_fields;
                   CPermissionsCreate (_folder_id self) (grant_body email)])%list /\
    (fst (_share_with service self email w) = Ok tt <-> exists u, r = Ok u).
Proof.
  intros H. rewrite share_with_run. unfold holds in H.
  destruct (Laws.perms_list_pure _ Hlaw (_folder_id self) perm_fields (backend w))
    as [perms E].
  rewrite E in *. simpl in H. rewrite H.
  destruct (permissions_create service (_folder_id self) (grant_body email)
              (backend w)) as [r s2].
  exists r, s2. split; [done|]. simpl. split; [by rewrite <- app_assoc|].
  destruct r as [[]|e]; split; try done; eauto.
  intros [u [=]].
Qed.

(** Two addresses of which one holds a permission: one grant, for the
    other. *)
Lemma for_emails_two (self : GoogleDriveDriver) (e1 e2 : string)
  (w : World S Call) :
  email_regex_match e1 = true -> email_regex_match e2 = true ->
  holds service self e1 (backend w) <> holds service self e2 (backend w) ->
  exists l,
    calls (snd (for_emails service self [e1; e2] w)) = (calls w ++ l)%list /\
    List.filter is_grant l =
    [CPermissionsCreate (_folder_id self)
       (grant_body (if holds service self e1 (backend w) then e2 else e1))].
Proof.
  intros H1%email_nonempty H2%email_nonempty Hne.
  simpl. rewrite H1, H2. unfold bind at 1.
  destruct (holds service self e1 (backend w)) eqn:Hh1.
  - rewrite (share_with_held _ _ _ Hh1). unfold bind at 1.
    assert (Hh2 : holds service self e2 (backend w) = false)
      by (destruct (holds service self e2 (backend w)); congruence).
    set (w1 := mkWorld (backend w)
                 (calls w ++ [CPermissionsList (_folder_id self) perm_fields])%list).
    destruct (share_with_lacking self e2 w1 Hh2) as (r & s2 & _ & Hw & _).
    destruct (_share_with service self e2 w1) as [[[]|e] w2]; simpl in *; subst w2;
      simpl; rewrite <- app_assoc; eexists; (split; [reflexivity|done]).
  - destruct (share_with_lacking self e1 w Hh1) as (r & s2 & Hcreate & Hw & _).
    assert (Hh2 : holds service self e2 s2 = true).
    { eapply (Laws.perms_create_keeps _ Hlaw); [exact Hcreate|].
      destruct (holds service self e2 (backend w)); congruence. }
    destruct (_share_with service self e1 w) as [[[]|e] w1]; simpl in *; subst w1.
    + unfold bind at 1.
      rewrite share_with_held by exact Hh2. simpl.
      rewrite <- app_assoc. eexists; split; [reflexivity|done].
    + eexists; split; [reflexivity|done].
Qed.

(** C6.  [_get_share_with] drops the addresses that fail the syntax check
    without a call or an exception; for an address that passes, one grant is
    issued when the permission listing reports no permission of it, and none
    when it reports one; and a construction that finds, among the configured
    addresses, two that pass the check, one of them with a permission on the
    folder, issues exactly one grant, for the other address. *)
Theorem init_shares_once :
  (forall c l (w : World S Call),
     gd_share_with c = SWList l \/ (exists a, gd_share_with c = SWStr a /\ l = [a]) ->
     _get_share_with c w = (Ok (List.filter email_regex_match l), w)) /\
  (forall self email (w : World S Call),
     exists l,
       calls (snd (_share_with service self email w)) = (calls w ++ l)%list /\
       List.filter is_grant l =
       if holds service self email (backend w) then []
       else [CPermissionsCreate (_folder_id self) (grant_body email)]) /\
  (forall config l e1 e2 self (w w1 : World S Call),
     gd_share_with (config_google_drive config) = SWList l ->
     List.filter email_regex_match l = [e1; e2] ->
     resolve_folder service (config_google_drive config) w = (Ok self, w1) ->
     holds service self e1 (backend w1) <> holds service self e2 (backend w1) ->
     exists log,
       calls (snd (__init__ service config w)) = (calls w1 ++ log)%list /\
       List.filter is_grant log =
       [CPermissionsCreate (_folder_id self)
          (grant_body (if holds service self e1 (backend w1) then e2 else e1))]).
Proof.
  split; [|split].
  - intros c l w [H|(a & H & ->)];
      [by apply get_share_with_list | by apply get_share_with_str].
  - intros self email w.
    destruct (share_with_grants self email w) as (l & Hl & Hg).
    exists l. split; [done|]. rewrite Hg.
    destruct (Laws.perms_list_pure _ Hlaw (_folder_id self) perm_fields (backend w))
      as [perms ->]. done.
  - intros config l e1 e2 self w w1 Hsw Hf Hres Hne.
    assert (Hv : email_regex_match e1 = true /\ email_regex_match e2 = true).
    { assert (Hin : forall e, In e [e1; e2] -> email_regex_match e = true).
      { intros e. rewrite <- Hf. by intros [_ ?]%filter_In. }
      split; apply Hin; simpl; auto. }
    destruct Hv as [Hv1 Hv2].
    destruct (for_emails_two self e1 e2 w1 Hv1 Hv2 Hne) as (log & Hlog & Hg).
    exists log. split; [|done]. rewrite <- Hlog.
    unfold __init__, try_except, bind at 1. rewrite Hres.
    unfold bind at 1, share_configured, bind at 1.
    rewrite (get_share_with_list _ _ _ Hsw), Hf.
    destruct (for_emails service self [e1; e2] w1) as [[[]|e] w2]; simpl; [done|].
    unfold wrap, raise. by destruct (is_Exception e).
Qed.

End WithPermissionLaws.
End Facts.


(** After two names of three, the third is not in the cache. *)
Example list_files_two_of_three :
  items (fst (fst Ref.listed3)) = [Some "a.jpg"; Some "b.jpg"] /\
  cached (fst (snd Ref.listed3)) "a.jpg" = Some "https://drive/1" /\
  cached (fst (snd Ref.listed3)) "b.jpg" = Some "https://drive/2" /\
  cached (fst (snd Ref.listed3)) "c.jpg" = None.
Proof. vm_compute. repeat split. Qed.

(** With enough fuel the whole listing of [Ref.drive3] comes out, over two
    pages. *)
Example list_files_all_of_three :
  match consume Ref.service 10 5 (list_files None)
          (Ref.sample_drive, mkWorld Ref.drive3 []) with
  | Some (p, gen, σ) =>
      p = mkProduced [Some "a.jpg"; Some "b.jpg"; Some "c.jpg"] None /\
      gen = GFinished /\
      List.length (calls (snd σ)) = 2%nat
  | None => False
  end.
Proof. vm_compute. repeat split. Qed.

Lemma cache_hit_may_be_empty_witness :
  get_file_url Ref.service
    (set_cache Ref.sample_drive (<[Some "photo.jpg" := ""]> ∅)) "photo.jpg"
    (mkWorld Ref.drive1 [])
  = (Ok "", mkWorld Ref.drive1 []) /\
  file_exists Ref.service
    (set_cache Ref.sample_drive (<[Some "photo.jpg" := ""]> ∅)) "photo.jpg"
    (mkWorld Ref.drive1 [])
  = (Ok true, mkWorld Ref.drive1 []).
Proof.
  refine (proj2 (proj2 (cache_hit_may_be_empty Ref.service)
                   1%nat None "q"
                   {| id := None; name := Some "photo.jpg"; webViewLink := None |}
                   [] None (set_cache Ref.sample_drive ∅)
                   (mkWorld Ref.drive1 []) ∅ "photo.jpg" _ _ _ _)).
  all: reflexivity.
Defined.

End GoogleDriveFacts.

(** ** The reference backends obey the laws *)

Module RefFacts.
Import Ref.





Lemma blob_laws : Laws.Blob sdk az_get_handle.
Proof.
  split.
  - done.
  - intros h data overwrite s s'. simpl. unfold az_upload.
    destruct (az_container s); simpl; [|done].
    destruct (negb overwrite && mem (Azure.blob_name h) (az_blobs s)); [done|].
    intros [= <-]. unfold mem. simpl. by rewrite String.eqb_refl.
Qed.

Lemma blob_laws_blank : Laws.Blob sdk_blank az_get_handle_blank.
Proof.
  split; [done|]. intros h data overwrite s s'.
  apply (Laws.upload_blob_visible _ _ blob_laws).
Qed.




Lemma permission_laws : Laws.Permissions service.
Proof.
  split.
  - intros fileId fields s. simpl. eauto.
  - intros self fileId body s r s' email. simpl. intros [= _ <-].
    unfold GoogleDrive.holds. simpl. unfold dr_perms_of. simpl.
    rewrite List.filter_app, map_app, existsb_app. by intros ->.
Qed.

End RefFacts.

(** ** The driver contract: upload, then existence and locator *)

Section Contract.
Context {So Sm Sg Sa : Type}.
Context (os : Local.Os So) (client : Minio.Client Sm)
  (service : GoogleDrive.Service Sg) (sdk : Azure.Sdk Sa)
  (handle : string -> result Azure.BlobClient).


End Contract.



(** The locator of [AzureDriver] is the handle's [url], whatever it is: over
    [Ref.sdk_blank], which obeys the same laws, [upload_file] succeeds,
    [file_exists] returns [True], and both [upload_file] and [get_file_url]
    give the empty string. *)
Example azure_locator_is_handle_url :
  let up := Azure.upload_file Ref.sdk_blank Ref.sample_azure "/tmp/photo.jpg"
              "2024/photo.jpg" (mkWorld Ref.blob0 []) in
  fst up = Ok "" /\
  fst (Azure.file_exists Ref.sdk_blank Ref.sample_azure "2024/photo.jpg"
         (snd up)) = Ok true /\
  fst (Azure.get_file_url Ref.sdk_blank Ref.sample_azure "2024/photo.jpg"
         (snd up)) = Ok "".
Proof. vm_compute. repeat split. Qed.

(** ** The driver contract: failures of [upload_file] *)

Section UploadErrors.
Context {So Sm Sg Sa : Type}.
Context (os : Local.Os So) (client : Minio.Client Sm)
  (service : GoogleDrive.Service Sg) (sdk : Azure.Sdk Sa).

Lemma try_except_reraised {Σ A} (m : M Σ A) sel prefix (σ : Σ) :
  fst (try_except m sel
         (fun e => raise (mkDriverError (prefix ++ exn_str e))) σ) =
  match fst (m σ) with
  | Ok a => Ok a
  | Raise c => Raise (reraised sel prefix c)
  end.
Proof.
  unfold try_except, reraised, raise.
  destruct (m σ) as [[a|c] σ']; simpl; [done|].
  by destruct (sel c).
Qed.

(** C3, as the code has it.  An exception [c] raised under the [try:] of
    [upload_file] leaves the call as [DriverError(prefix + str(c))], the
    prefix naming the backend, when [c] is of a class the driver catches:
    [shutil.SameFileError] or [OSError] for [LocalDriver], [S3Error] for
    [MinioDriver], any [Exception] for [GoogleDriveDriver], [AzureError] for
    [AzureDriver].  An exception of any other class leaves the call as it
    is. *)
Theorem upload_file_wraps_caught :
  (forall self src p w,
     let dest := OsPath.join (Local.dest self) p in
     fst (Local.upload_file os self src p w) =
     match fst (Local.upload_file_try os src dest (OsPath.dirname dest) w) with
     | Ok _ => Ok dest
     | Raise c =>
         Raise (reraised Local.upload_file_except "Local driver error: " c)
     end) /\
  (forall self src p w,
     fst (Minio.upload_file client self src p w) =
     match fst (Minio.upload_file_try client self src (Minio.scoped self p) w)
     with
     | Ok dest => Ok dest
     | Raise c => Raise (reraised is_S3Error "MinIO driver error: " c)
     end) /\
  (forall self src p w,
     fst (Azure.upload_file sdk self src p w) =
     match fst (Azure.upload_file_try sdk src p w) with
     | Ok dest => Ok dest
     | Raise c => Raise (reraised is_AzureError "Azure driver error: " c)
     end) /\
  (forall self src p w,
     fst (GoogleDrive.upload_file service self src p w) =
     match GoogleDrive.upload_file_try service self src p w with
     | (Ok file_id, w') =>
         match fst (GoogleDrive.files_get service file_id "webViewLink"
                      (backend w')) with
         | Ok file => Ok (GoogleDrive.webViewLink file)
         | Raise c =>
             Raise (reraised is_Exception "Google Drive file link error: " c)
         end
     | (Raise c, _) =>
         Raise (reraised is_Exception "GoogleDrive driver error: " c)
     end).
Proof.
  repeat split.
  - intros self src p w dest. unfold Local.upload_file. fold dest.
    unfold bind at 1.
    pose proof (try_except_reraised
                  (Local.upload_file_try os src dest (OsPath.dirname dest))
                  Local.upload_file_except "Local driver error: " w) as H.
    destruct (try_except _ _ _ w) as [[[]|e] w'] eqn:E; simpl in *.
    + by destruct (fst (Local.upload_file_try os src dest (OsPath.dirname dest) w)).
    + destruct (fst (Local.upload_file_try os src dest (OsPath.dirname dest) w));
        [done | congruence].
  - intros self src p w. unfold Minio.upload_file.
    apply try_except_reraised.
  - intros self src p w. unfold Azure.upload_file, Azure.wrap.
    apply try_except_reraised.
  - intros self src p w. unfold GoogleDrive.upload_file, GoogleDrive.wrap.
    unfold bind at 1.
    pose proof (try_except_reraised
                  (GoogleDrive.upload_file_try service self src p)
                  is_Exception "GoogleDrive driver error: " w) as H.
    destruct (try_except _ _ _ w) as [[file_id|e] w'] eqn:E; simpl in *.
    + destruct (GoogleDrive.upload_file_try service self src p w)
        as [[fid|c] w''] eqn:Et; simpl in *; [|done].
      injection H as <-.
      assert (w' = w'') as ->.
      { unfold try_except in E. rewrite Et in E. by injection E. }
      unfold GoogleDrive._file_link, GoogleDrive.wrap.
      rewrite (try_except_reraised _ is_Exception
                 "Google Drive file link error: ").
      unfold bind, invoke, ret. simpl.
      by destruct (GoogleDrive.files_get service file_id "webViewLink"
                     (backend w'')) as [[f|c] s'].
    + destruct (GoogleDrive.upload_file_try service self src p w)
        as [[fid|c] w'']; simpl in *; [done | congruence].
Qed.

End UploadErrors.

(** The case that the claim of C3 does not cover.  [AzureDriver.upload_file]
    on a source file that does not exist: [open] raises [FileNotFoundError],
    which is no [AzureError], and the call raises it as it is. *)
Lemma azure_upload_missing_source :
  fst (Azure.upload_file Ref.sdk Ref.sample_azure "/tmp/missing.jpg"
         "2024/photo.jpg" (mkWorld Ref.blob0 []))
  = Raise (Ref.no_such_file "/tmp/missing.jpg") /\
  is_OSError (Ref.no_such_file "/tmp/missing.jpg") = true /\
  is_DriverError (Ref.no_such_file "/tmp/missing.jpg") = false.
Proof. vm_compute. repeat split. Qed.

(** ** Sharing the folder: the scenario of two collaborators

    [Ref.drive_shared] has the folder, on which bob holds a permission; the
    configuration names ann and bob.  The construction issues one grant, for
    ann. *)
Lemma init_shares_once_witness :
  exists log,
    calls (snd (GoogleDrive.__init__ Ref.service
                  (Ref.sample_config (VStr "google_drive"))
                  (mkWorld Ref.drive_shared [])))
    = (calls (snd (GoogleDrive.resolve_folder Ref.service
                     (config_google_drive (Ref.sample_config (VStr "google_drive")))
                     (mkWorld Ref.drive_shared [])))
       ++ log)%list /\
    List.filter GoogleDrive.is_grant log =
    [GoogleDrive.CPermissionsCreate (Some "fld")
       (GoogleDrive.grant_body "ann@example.com")].
Proof.
  destruct (GoogleDriveFacts.init_shares_once Ref.service
              RefFacts.permission_laws) as (_ & _ & H).
  refine (H (Ref.sample_config (VStr "google_drive"))
            ["ann@example.com"; "bob@example.com"]
            "ann@example.com" "bob@example.com"
            {| GoogleDrive._folder := "media";
               GoogleDrive._folder_id := Some "fld";
               GoogleDrive._url_cache := None |}
            (mkWorld Ref.drive_shared [])
            (snd (GoogleDrive.resolve_folder Ref.service
                    (config_google_drive (Ref.sample_config (VStr "google_drive")))
                    (mkWorld Ref.drive_shared [])))
            _ _ _ _).
  - reflexivity.
  - reflexivity.
  - reflexivity.
  - vm_compute. discriminate.
Defined.

(** The calls of that construction. *)
Example init_shares_once_calls :
  calls (snd (GoogleDrive.__init__ Ref.service
                (Ref.sample_config (VStr "google_drive"))
                (mkWorld Ref.drive_shared [])))
  = [GoogleDrive.CFromServiceAccountFile "account.json";
     GoogleDrive.CBuild;
     GoogleDrive.CFilesList (GoogleDrive.folder_query "media")
       "files(id, name)" None None;
     GoogleDrive.CPermissionsList (Some "fld") GoogleDrive.perm_fields;
     GoogleDrive.CPermissionsCreate (Some "fld")
       (GoogleDrive.grant_body "ann@example.com");
     GoogleDrive.CPermissionsList (Some "fld") GoogleDrive.perm_fields].
Proof. reflexivity. Qed.

(** A file that exists and was yielded by [list_files], of which
    [get_file_url] returns the empty string: ["photo.jpg"] on [Ref.drive1]. *)
Example listed_file_url_empty :
  items (fst (fst Ref.listed1)) = [Some "photo.jpg"] /\
  fst (GoogleDrive.file_exists Ref.service Ref.sample_drive "photo.jpg"
         (mkWorld Ref.drive1 [])) = Ok true /\
  GoogleDrive.get_file_url Ref.service (fst (snd Ref.listed1)) "photo.jpg"
    (snd (snd Ref.listed1)) = (Ok "", snd (snd Ref.listed1)) /\
  GoogleDrive.file_exists Ref.service (fst (snd Ref.listed1)) "photo.jpg"
    (snd (snd Ref.listed1)) = (Ok true, snd (snd Ref.listed1)).
Proof. vm_compute. repeat split. Qed.

(** * Further properties *)

(** ** What escapes a [try] that re-raises as [DriverError] *)

Lemma try_except_escape {Σ A} (m : M Σ A) (sel : exn -> bool) (prefix : string)
  (σ : Σ) (e : exn) :
  (forall msg, sel (mkDriverError msg) = false) ->
  fst (try_except m sel
         (fun c => raise (mkDriverError (prefix ++ exn_str c))) σ) = Raise e ->
  sel e = false.
Proof.
  intros Hsel. unfold try_except, raise.
  destruct (m σ) as [[a|c] σ']; simpl; [done|].
  destruct (sel c) eqn:E; simpl; intros [= <-]; [apply Hsel | exact E].
Qed.

(** ** [DriverType]: the string form names one member *)

(** A configuration string compares equal to at most one member of
    [DriverType]. *)
Theorem DriverType_string_names_one (s : string) (d d' : DriverType) :
  py_eq (VStr s) (VEnum d) = EqBool true ->
  py_eq (VStr s) (VEnum d') = EqBool true ->
  d = d'.
Proof.
  change (py_eq (VStr s) (VEnum d))
    with (EqBool (String.eqb (DriverType.value d) s)).
  change (py_eq (VStr s) (VEnum d'))
    with (EqBool (String.eqb (DriverType.value d') s)).
  intros [= H%String.eqb_eq] [= H'%String.eqb_eq].
  subst s. by destruct d, d'.
Qed.

Lemma DriverType_string_names_one_witness :
  py_eq (VStr "minio") (VEnum MINIO) = EqBool true /\ MINIO = MINIO.
Proof.
  split; [reflexivity|].
  apply (DriverType_string_names_one "minio" MINIO MINIO); reflexivity.
Defined.

(** ** [LocalDriver]: paths and failures *)

Module LocalMore.
Import Local.

Lemma endswith_app (a b : string) : PyStr.endswith (a ++ b) b = true.
Proof.
  induction a as [|x a IH].
  - destruct b; simpl; [done|]. by rewrite Ascii.eqb_refl, String.eqb_refl.
  - rewrite PyStrFacts.app_cons. simpl. rewrite IH. apply orb_true_r.
Qed.

Lemma join_absolute (a b : string) :
  PyStr.startswith b "/" = true -> OsPath.join a b = b.
Proof. unfold OsPath.join. by intros ->. Qed.

Lemma join_relative (a b : string) :
  PyStr.startswith b "/" = false ->
  PyStr.startswith (OsPath.join a b) a = true /\
  PyStr.endswith (OsPath.join a b) b = true.
Proof.
  unfold OsPath.join. intros ->.
  destruct (negb (PyStr.truthy a) || PyStr.endswith a "/").
  - split; [apply PyStrFacts.startswith_app | apply endswith_app].
  - split; [apply PyStrFacts.startswith_app|].
    rewrite <- PyStrFacts.app_assoc. apply endswith_app.
Qed.

Section Facts.
Context {S : Type} (os : Os S).

(** An Object Path with a leading separator is taken as it is, whatever the
    destination directory: it is the locator [get_file_url] returns, the path
    [file_exists] probes and the path a successful [upload_file] returns.
    Any other Object Path gives a locator that starts with the destination
    directory and ends with the Object Path. *)
Theorem local_path_of_object (self : LocalDriver) (src obj_path : string)
  (w : World S Call) :
  (PyStr.startswith obj_path "/" = true ->
   get_file_url self obj_path w = (Ok obj_path, w) /\
   calls (snd (file_exists os self obj_path w))
   = (calls w ++ [CExists obj_path])%list /\
   forall loc w1,
     upload_file os self src obj_path w = (Ok loc, w1) -> loc = obj_path) /\
  (PyStr.startswith obj_path "/" = false ->
   exists loc,
     get_file_url self obj_path w = (Ok loc, w) /\
     PyStr.startswith loc (dest self) = true /\
     PyStr.endswith loc obj_path = true).
Proof.
  split.
  - intros H. pose proof (join_absolute (dest self) obj_path H) as J.
    split; [|split].
    + unfold get_file_url, ret. by rewrite J.
    + unfold file_exists, path_exists, invoke. simpl. by rewrite J.
    + intros loc w1 [-> _]%LocalFacts.local_upload_ok. exact J.
  - intros H. exists (OsPath.join (dest self) obj_path).
    split; [done|]. by apply join_relative.
Qed.

(** No [OSError] leaves the constructor or [upload_file]: what they raise of
    that family is raised as [DriverError].  [file_exists] always returns a
    truth value. *)
Theorem local_no_oserror_escapes :
  (forall config (w : World S Call) e,
     fst (__init__ os config w) = Raise e -> is_OSError e = false) /\
  (forall self src obj_path (w : World S Call) e,
     fst (upload_file os self src obj_path w) = Raise e ->
     is_OSError e = false) /\
  (forall self obj_path (w : World S Call),
     exists b, fst (file_exists os self obj_path w) = Ok b).
Proof.
  split; [|split].
  - intros config w e. unfold __init__, bind at 1.
    pose proof (try_except_escape
                  (found <- path_exists os (local_dest (config_local config)) ;;
                   if negb found
                   then makedirs os (local_dest (config_local config))
                   else ret tt)
                  is_OSError "Local driver init error: " w) as H.
    destruct (try_except _ _ _ w) as [[[]|c] w'] eqn:E; simpl in *; [done|].
    intros [= <-]. by apply H.
  - intros self src obj_path w e. unfold upload_file, bind at 1.
    pose proof (try_except_escape
                  (upload_file_try os src (OsPath.join (dest self) obj_path)
                     (OsPath.dirname (OsPath.join (dest self) obj_path)))
                  upload_file_except "Local driver error: " w) as H.
    destruct (try_except _ _ _ w) as [[[]|c] w'] eqn:E; simpl in *; [done|].
    intros [= <-].
    assert (Hx : upload_file_except c = false) by by apply H.
    unfold upload_file_except in Hx. by apply orb_false_iff in Hx as [_ ?].
  - intros self obj_path w. unfold file_exists, path_exists, invoke. simpl. eauto.
Qed.

End Facts.
End LocalMore.

(** ** [LocalDriver.list_files] *)

Module LocalListingFacts.
Import LocalListing.

Lemma replace_same (c : ascii) (s : string) :
  PyStr.replace c (String c EmptyString) s = s.
Proof.
  induction s as [|a s IH]; [done|]. simpl. rewrite IH.
  destruct (Ascii.eqb_spec a c) as [->|]; reflexivity.
Qed.

Section Facts.
Context {S : Type} (os : Walker S).

Lemma for_files_all (self : Local.LocalDriver) (root : string)
  (files : list string) :
  for_files os self None root files =
  map (fun file => os_path_relpath os (OsPath.join root file) (Local.dest self))
    files.
Proof.
  induction files as [|file files IH]; [done|]. simpl.
  unfold rel_path_of. by rewrite replace_same, IH.
Qed.

Lemma for_files_prefix (self : Local.LocalDriver) (p root : string)
  (files : list string) :
  for_files os self (Some p) root files =
  List.filter (fun n => PyStr.startswith n p) (for_files os self None root files).
Proof.
  induction files as [|file files IH]; [done|]. simpl.
  destruct (PyStr.startswith (rel_path_of os self root file) p); by rewrite IH.
Qed.

Lemma for_walk_prefix (self : Local.LocalDriver) (p : string)
  (walked : list (string * list string * list string)) :
  for_walk os self (Some p) walked =
  List.filter (fun n => PyStr.startswith n p) (for_walk os self None walked).
Proof.
  induction walked as [|[[root dirs] files] walked IH]; [done|]. simpl.
  by rewrite List.filter_app, for_files_prefix, IH.
Qed.

(** [list_files()] yields the relative path of every file of every directory
    of the walk, in the order of the walk, and no directory;
    [list_files(prefix)] yields, of these, the ones that start with [prefix],
    in the same order.  Both end with the same failure, which is never an
    [OSError]. *)
Theorem local_list_files_prefix (self : Local.LocalDriver) (p : string)
  (w : World S Call) :
  let walked := fst (os_walk os (Local.dest self) (backend w)) in
  let all := fst (list_files os self None w) in
  let some := fst (list_files os self (Some p) w) in
  items all =
    flat_map
      (fun t => map (fun file =>
                       os_path_relpath os (OsPath.join (fst (fst t)) file)
                         (Local.dest self))
                  (snd t))
      (items walked) /\
  items some = List.filter (fun n => PyStr.startswith n p) (items all) /\
  failure some = failure all /\
  (forall e, failure all = Some e -> is_OSError e = false).
Proof.
  unfold list_files. cbv zeta.
  destruct (os_walk os (Local.dest self) (backend w)) as [walked s']. simpl.
  split; [|split; [apply for_walk_prefix|split; [done|]]].
  - induction (items walked) as [|[[root dirs] files] l IH]; [done|]. simpl.
    by rewrite for_files_all, IH.
  - intros e. destruct (failure walked) as [c|]; [|done].
    intros [= <-]. unfold reraised.
    by destruct (is_OSError c) eqn:E.
Qed.

End Facts.

(** The walk of [RefMore.walked]: all files, and those under ["images/"]. *)
Example local_list_files_images :
  fst (list_files RefMore.walker Ref.sample_local None (mkWorld tt []))
  = mkProduced ["notes.txt"; "images/a.jpg"; "images/b.jpg"] None /\
  fst (list_files RefMore.walker Ref.sample_local (Some "images/") (mkWorld tt []))
  = mkProduced ["images/a.jpg"; "images/b.jpg"] None.
Proof. vm_compute. split; reflexivity. Qed.

End LocalListingFacts.

(** ** [MinioDriver]: scope, round trip and failures *)

Module MinioMore.
Import Minio.

Lemma lstrip_no_lead (c : ascii) (s : string) :
  PyStr.startswith (PyStr.lstrip c s) (String c EmptyString) = false.
Proof.
  induction s as [|a s IH]; [done|]. simpl.
  destruct (Ascii.eqb a c) eqn:E; [exact IH|]. simpl.
  rewrite Ascii.eqb_sym, E. done.
Qed.

Lemma rstrip_keeps_lead (c : ascii) (s : string) :
  PyStr.startswith s (String c EmptyString) = false ->
  PyStr.startswith (PyStr.rstrip c s) (String c EmptyString) = false.
Proof.
  destruct s as [|a s]; [done|]. simpl.
  destruct (Ascii.eqb c a) eqn:E.
  - by rewrite PyStrFacts.startswith_empty.
  - intros _. rewrite Ascii.eqb_sym, E.
    destruct (PyStr.rstrip c s); simpl; by rewrite E.
Qed.

Lemma strip_no_lead (c : ascii) (s : string) :
  PyStr.startswith (PyStr.strip c s) (String c EmptyString) = false.
Proof. apply rstrip_keeps_lead, lstrip_no_lead. Qed.

Lemma strip_no_trail (c : ascii) (s : string) :
  PyStr.strip c s <> "" ->
  PyStr.endswith (PyStr.strip c s) (String c EmptyString) = false.
Proof.
  intros H. destruct (PyStr.endswith _ _) eqn:E; [|done].
  by apply PyStrFacts.strip_not_endswith in E.
Qed.

Section Facts.
Context {S : Type} (client : Client S).

(** The scope a successful constructor leaves. *)
Lemma scope_after_init (config : Config) (w0 w1 : World S Call)
  (self : MinioDriver) :
  __init__ client config w0 = (Ok self, w1) ->
  let s := PyStr.strip "/"
             (PyStr.or_empty (minio_bucket_subpath (config_minio config))) in
  if PyStr.truthy s then
    bucket_subpath self = Some s /\
    PyStr.startswith s "/" = false /\ PyStr.endswith s "/" = false /\
    prefix_to_strip self = s ++ "/" /\
    forall obj_path, scoped self obj_path = s ++ "/" ++ obj_path
  else
    prefix_to_strip self = "" /\
    forall obj_path, scoped self obj_path = obj_path.
Proof.
  intros Hinit s. pose proof (MinioFacts.init_bucket_subpath _ _ _ _ _ Hinit) as Hs.
  subst s. unfold scoped, prefix_to_strip. rewrite Hs.
  destruct (minio_bucket_subpath (config_minio config)) as [sp|]; simpl; [|done].
  destruct (PyStr.truthy sp) eqn:Ht.
  - destruct (PyStr.truthy (PyStr.strip "/" sp)) eqn:Ht'; [|done].
    repeat split; try done.
    + apply strip_no_lead.
    + apply strip_no_trail. by apply PyStrFacts.truthy_true.
  - apply PyStrFacts.truthy_false in Ht as ->. done.
Qed.

(** The scope after construction.  When the configured sub-path is unset,
    empty or made of separators only, the driver has no scope: keys are the
    Object Paths, and the client is asked for the caller's prefix as it is.
    Otherwise the scope is the configured value without its leading and
    trailing separators, it is not empty, it neither starts nor ends with a
    separator, the key of an Object Path is the scope, one separator, and the
    Object Path, and the client is asked for the scope, one separator, and
    the caller's prefix. *)
Theorem minio_scope_normalised (config : Config) (w0 w1 : World S Call)
  (self : MinioDriver) :
  __init__ client config w0 = (Ok self, w1) ->
  let s := PyStr.strip "/"
             (PyStr.or_empty (minio_bucket_subpath (config_minio config))) in
  if PyStr.truthy s then
    bucket_subpath self = Some s /\
    PyStr.startswith s "/" = false /\ PyStr.endswith s "/" = false /\
    prefix_to_strip self = s ++ "/" /\
    (forall obj_path, scoped self obj_path = s ++ "/" ++ obj_path) /\
    (forall prefix,
       effective_prefix self prefix = Some (s ++ "/" ++ PyStr.or_empty prefix))
  else
    prefix_to_strip self = "" /\
    (forall obj_path, scoped self obj_path = obj_path) /\
    (forall prefix, effective_prefix self prefix = prefix).
Proof.
  intros Hinit. pose proof (scope_after_init _ _ _ _ Hinit) as Hn.
  cbv zeta in *.
  destruct (PyStr.truthy (PyStr.strip "/" _)) eqn:Ht.
  - destruct Hn as (Hs & Hlead & Htrail & Hpts & Hsc).
    repeat split; try done.
    intros prefix. unfold effective_prefix. rewrite Hs, Ht, Htrail.
    destruct prefix as [p|]; simpl.
    + destruct (PyStr.truthy p) eqn:Hp.
      * by rewrite PyStrFacts.app_assoc.
      * apply PyStrFacts.truthy_false in Hp as ->. done.
    + done.
  - destruct Hn as (Hpts & Hsc). repeat split; try done.
    intros prefix. unfold effective_prefix.
    destruct (bucket_subpath self) as [sp|] eqn:Hsp; [|done].
    destruct (PyStr.truthy sp) eqn:Hts; [|done].
    unfold prefix_to_strip in Hpts. rewrite Hsp, Hts in Hpts.
    by destruct sp.
Qed.

(** An entry that is no directory marker gives a name of the listing: its
    key, without the scope prefix when it starts with it. *)
Lemma for_objects_in (self : MinioDriver) (objects : list Object) (o : Object) :
  In o objects -> is_dir o = false ->
  In (if PyStr.truthy (prefix_to_strip self)
         && PyStr.startswith (object_name o) (prefix_to_strip self)
      then PyStr.drop (String.length (prefix_to_strip self)) (object_name o)
      else object_name o)
    (for_objects self objects).
Proof.
  intros Hin Hd. induction objects as [|x objects IH]; [done|].
  simpl. destruct Hin as [->|Hin].
  - rewrite Hd. by left.
  - destruct (is_dir x); [by apply IH | right; by apply IH].
Qed.

(** Upload, then list and locate.  For a driver made by the constructor, on
    a client that reports and lists what it stored: after a successful
    [upload_file(src, p)], where the key of [p] does not end with a
    separator, [list_files(prefix)] yields [p] for every [prefix] that [p]
    starts with, and [get_file_url(p)] is the locator [upload_file]
    returned. *)
Theorem minio_upload_round_trip (Hlaw : MoreLaws.S3Store client)
  (config : Config) (w0 w1 w w' : World S Call) (self : MinioDriver)
  (src obj_path loc : string) (prefix : option string) :
  __init__ client config w0 = (Ok self, w1) ->
  upload_file client self src obj_path w = (Ok loc, w') ->
  PyStr.endswith (scoped self obj_path) "/" = false ->
  PyStr.startswith obj_path (PyStr.or_empty prefix) = true ->
  In obj_path (items (fst (list_files client self prefix w'))) /\
  get_file_url self obj_path w' = (Ok loc, w').
Proof.
  intros Hinit Hup Hend Hpre.
  pose proof (scope_after_init _ _ _ _ Hinit) as Hn. cbv zeta in Hn.
  pose proof (MinioFacts.minio_upload_ok _ _ _ _ _ _ _ Hup) as [res Hput].
  split.
  - assert (Hep : PyStr.startswith (scoped self obj_path)
                    (PyStr.or_empty (effective_prefix self prefix)) = true).
    { unfold effective_prefix.
      destruct (PyStr.truthy (PyStr.strip "/" _)) eqn:Ht.
      - destruct Hn as (Hs & _ & Hnt & _ & Hsc). rewrite Hs, Ht, Hnt, Hsc.
        destruct prefix as [p|]; simpl in *.
        + destruct (PyStr.truthy p) eqn:Hp; simpl.
          * rewrite PyStrFacts.app_assoc.
            by rewrite PyStrFacts.startswith_app_app,
              (PyStrFacts.startswith_app_app "/").
          * rewrite <- PyStrFacts.app_assoc. apply PyStrFacts.startswith_app.
        + rewrite <- PyStrFacts.app_assoc. apply PyStrFacts.startswith_app.
      - destruct Hn as (_ & Hsc). rewrite Hsc.
        destruct (bucket_subpath self) as [sp|] eqn:Hsp; [|done].
        destruct (PyStr.truthy sp) eqn:Hts; [|done].
        exfalso. specialize (Hsc ""). unfold scoped in Hsc.
        rewrite Hsp, Hts in Hsc.
        apply (f_equal String.length) in Hsc. revert Hsc.
        clear. induction sp; simpl; [done | lia]. }
    destruct (MoreLaws.put_then_listed _ Hlaw _ _ _ _ _ _
                (effective_prefix self prefix) Hput Hep) as (o & Hin & Hname & Hdir).
    rewrite Hend in Hdir.
    pose proof (for_objects_in self _ o Hin Hdir) as H.
    unfold list_files.
    destruct (list_objects client (bucket self) (effective_prefix self prefix)
                true (backend w')) as [objects s']. simpl in *.
    rewrite Hname in H.
    destruct (PyStr.truthy (PyStr.strip "/" _)) eqn:Ht.
    + destruct Hn as (_ & _ & _ & Hpts & Hsc). rewrite Hpts, Hsc in H.
      rewrite <- PyStrFacts.app_assoc in H.
      rewrite PyStrFacts.startswith_app, PyStrFacts.drop_app in H.
      assert (Hts : PyStr.truthy (PyStr.strip "/"
                 (PyStr.or_empty (minio_bucket_subpath (config_minio config)))
                 ++ "/") = true).
      { apply PyStrFacts.truthy_true, PyStrFacts.app_nonempty_r. discriminate. }
      by rewrite Hts in H.
    + destruct Hn as (Hpts & Hsc). by rewrite Hpts, Hsc in H.
  - unfold get_file_url, ret. f_equal. f_equal.
    revert Hup.
    unfold upload_file, upload_file_try, try_except, bind, invoke, ret, raise.
    rewrite Hput. simpl. intros [= <- _].
    by rewrite (MoreLaws.put_echoes_name _ Hlaw _ _ _ _ _ _ Hput).
Qed.

(** No [S3Error] leaves the driver: the constructor, [upload_file] and
    [file_exists] raise what they meet of that class as [DriverError] (or, for
    [file_exists], return [False]), and [list_files] ends with no [S3Error];
    [get_file_url] makes no call and always returns. *)
Theorem minio_no_s3error_escapes :
  (forall config (w : World S Call) e,
     fst (__init__ client config w) = Raise e -> is_S3Error e = false) /\
  (forall self src obj_path (w : World S Call) e,
     fst (upload_file client self src obj_path w) = Raise e ->
     is_S3Error e = false) /\
  (forall self obj_path (w : World S Call) e,
     fst (file_exists client self obj_path w) = Raise e ->
     is_S3Error e = false) /\
  (forall self prefix (w : World S Call) e,
     failure (fst (list_files client self prefix w)) = Some e ->
     is_S3Error e = false) /\
  (forall self obj_path (w : World S Call),
     snd (get_file_url self obj_path w) = w /\
     exists loc, fst (get_file_url self obj_path w) = Ok loc).
Proof.
  repeat split.
  - intros config w e. unfold __init__. by apply try_except_escape.
  - intros self src obj_path w e. unfold upload_file. by apply try_except_escape.
  - intros self obj_path w e. rewrite MinioFacts.file_exists_run. cbv zeta.
    destruct (stat_object client _ _ (backend w)) as [[[]|c] s']; simpl; [done|].
    destruct (is_S3Error c) eqn:E.
    + destruct (String.eqb (exn_code c) "NoSuchKey"); [done|]. by intros [= <-].
    + by intros [= <-].
  - intros self prefix w e. unfold list_files.
    destruct (list_objects client _ _ _ (backend w)) as [objects s']. simpl.
    destruct (failure objects) as [c|]; [|done].
    destruct (is_S3Error c) eqn:E; by intros [= <-].
  - unfold get_file_url, ret. simpl. eauto.
Qed.

End Facts.
End MinioMore.

(** ** [AzureDriver]: construction and failures *)

Module AzureMore.
Import Azure.

Section Facts.
Context {S : Type} (sdk : Sdk S).

(** The constructor unfolded on the answers of the SDK. *)
Lemma init_run (config : Config) (w : World S Call) :
  __init__ sdk config w =
  let conn := azure_connection_string (config_azure config) in
  let cont := azure_container (config_azure config) in
  let self := {| _connection_string := conn; _container_name := cont |} in
  let err := reraised is_AzureError "Azure driver init error: " in
  let '(r1, s1) := from_connection_string sdk conn (backend w) in
  let l1 := (calls w ++ [CFromConnectionString conn])%list in
  match r1 with
  | Raise c => (Raise (err c), mkWorld s1 l1)
  | Ok _ =>
      let '(r2, s2) := get_container_client sdk cont s1 in
      let l2 := (calls w ++ [CFromConnectionString conn;
                             CGetContainerClient cont])%list in
      match r2 with
      | Raise c => (Raise (err c), mkWorld s2 l2)
      | Ok _ =>
          let '(r3, s3) := container_exists sdk s2 in
          let l3 := (calls w ++ [CFromConnectionString conn;
                                 CGetContainerClient cont;
                                 CContainerExists])%list in
          match r3 with
          | Raise c => (Raise (err c), mkWorld s3 l3)
          | Ok true => (Ok self, mkWorld s3 l3)
          | Ok false =>
              let '(r4, s4) := create_container sdk s3 in
              (match r4 with
               | Ok _ => Ok self
               | Raise c => Raise (err c)
               end,
               mkWorld s4 (calls w ++ [CFromConnectionString conn;
                                       CGetContainerClient cont;
                                       CContainerExists;
                                       CCreateContainer])%list)
          end
      end
  end.
Proof.
  cbv zeta.
  unfold __init__, try_except, bind, invoke, ret, wrap, raise, reraised. simpl.
  destruct (from_connection_string sdk _ (backend w)) as [[[]|c1] s1]; simpl.
  2: { by destruct (is_AzureError c1). }
  destruct (get_container_client sdk _ s1) as [[[]|c2] s2]; simpl.
  2: { rewrite <- app_assoc. by destruct (is_AzureError c2). }
  destruct (container_exists sdk s2) as [[found|c3] s3]; simpl.
  2: { rewrite <- !app_assoc. by destruct (is_AzureError c3). }
  destruct found; simpl; [by rewrite <- !app_assoc|].
  destruct (create_container sdk s3) as [[[]|c4] s4]; simpl;
    rewrite <- !app_assoc; [done|]. by destruct (is_AzureError c4).
Qed.

(** The constructor asks for the container to be created exactly when the
    client was made, the container handle was got and the existence probe
    answered [False]; a driver it returns carries the configured connection
    string and container name; and an [AzureError] of the first call leaves
    it as [DriverError("Azure driver init error: ...")]. *)
Theorem azure_init_creates_when_missing (config : Config) (w : World S Call) :
  let conn := azure_connection_string (config_azure config) in
  let cont := azure_container (config_azure config) in
  let out := __init__ sdk config w in
  (exists l,
     calls (snd out) = (calls w ++ l)%list /\
     (In CCreateContainer l <->
      exists s1 s2 s3,
        from_connection_string sdk conn (backend w) = (Ok tt, s1) /\
        get_container_client sdk cont s1 = (Ok tt, s2) /\
        container_exists sdk s2 = (Ok false, s3))) /\
  (forall self, fst out = Ok self ->
                _connection_string self = conn /\ _container_name self = cont) /\
  (forall c s1, from_connection_string sdk conn (backend w) = (Raise c, s1) ->
                is_AzureError c = true ->
                fst out = Raise (mkDriverError
                                   ("Azure driver init error: " ++ exn_str c))).
Proof.
  cbv zeta. rewrite init_run. cbv zeta.
  set (conn := azure_connection_string (config_azure config)).
  set (cont := azure_container (config_azure config)).
  destruct (from_connection_string sdk conn (backend w)) as [[[]|c1] s1] eqn:E1.
  2: { split; [|split].
       - eexists. split; [reflexivity|].
         split; [intros [[=]|[]] | intros (? & ? & ? & [=] & _)].
       - intros self [=].
       - intros c s [= <- <-] Hc. simpl. unfold reraised. by rewrite Hc. }
  destruct (get_container_client sdk cont s1) as [[[]|c2] s2] eqn:E2.
  2: { split; [|split].
       - eexists. split; [reflexivity|].
         split; [intros [[=]|[[=]|[]]] |].
         intros (a & b & c & [= <-] & H2 & _). rewrite E2 in H2. discriminate.
       - intros self [=].
       - intros c s [=]. }
  destruct (container_exists sdk s2) as [[[|]|c3] s3] eqn:E3.
  - split; [|split].
    + eexists. split; [reflexivity|].
      split; [intros [[=]|[[=]|[[=]|[]]]] |].
      intros (a & b & c & [= <-] & H2 & H3). rewrite E2 in H2.
      injection H2 as <-. rewrite E3 in H3. discriminate.
    + by intros self [= <-].
    + intros c s [=].
  - destruct (create_container sdk s3) as [r4 s4].
    split; [|split].
    + eexists. split; [reflexivity|].
      split; [intros _; by exists s1, s2, s3 | intros _; simpl; auto].
    + intros self. simpl. destruct r4; [by intros [= <-] | done].
    + intros c s [=].
  - split; [|split].
    + eexists. split; [reflexivity|].
      split; [intros [[=]|[[=]|[[=]|[]]]] |].
      intros (a & b & c & [= <-] & H2 & H3). rewrite E2 in H2.
      injection H2 as <-. rewrite E3 in H3. discriminate.
    + intros self [=].
    + intros c s [=].
Qed.

(** No [AzureError] leaves the constructor, [upload_file], [file_exists] or
    [list_files].  [get_file_url] has no handler: whatever getting the blob
    handle raises, an [AzureError] included, leaves it as it is. *)
Theorem azure_no_azureerror_escapes :
  (forall config (w : World S Call) e,
     fst (__init__ sdk config w) = Raise e -> is_AzureError e = false) /\
  (forall self src obj_path (w : World S Call) e,
     fst (upload_file sdk self src obj_path w) = Raise e ->
     is_AzureError e = false) /\
  (forall self obj_path (w : World S Call) e,
     fst (file_exists sdk self obj_path w) = Raise e ->
     is_AzureError e = false) /\
  (forall self prefix (w : World S Call) e,
     failure (fst (list_files sdk self prefix w)) = Some e ->
     is_AzureError e = false) /\
  (forall self obj_path (w : World S Call) e,
     fst (get_blob_client sdk obj_path (backend w)) = Raise e ->
     fst (get_file_url sdk self obj_path w) = Raise e).
Proof.
  repeat split.
  - intros config w e. unfold __init__, wrap. by apply try_except_escape.
  - intros self src obj_path w e. unfold upload_file, wrap.
    by apply try_except_escape.
  - intros self obj_path w e. unfold file_exists, wrap.
    by apply try_except_escape.
  - intros self prefix w e. unfold list_files.
    destruct (list_blobs sdk prefix (backend w)) as [blobs s']. simpl.
    destruct (failure blobs) as [c|]; [|done].
    destruct (is_AzureError c) eqn:E; by intros [= <-].
  - intros self obj_path w e. unfold get_file_url, bind, invoke.
    destruct (get_blob_client sdk obj_path (backend w)) as [[h|c] s']; simpl;
      [done | by intros [= <-]].
Qed.

End Facts.
End AzureMore.

(** ** [GoogleDriveDriver]: the exact-name query *)

Module QueryFacts.
Import GoogleDrive.

Lemma app_inv_head (p a b : string) : p ++ a = p ++ b -> a = b.
Proof.
  induction p as [|x p IH]; [done|].
  rewrite !PyStrFacts.app_cons. intros [= H]. by apply IH.
Qed.

Lemma length_app (a b : string) :
  String.length (a ++ b) = (String.length a + String.length b)%nat.
Proof.
  induction a as [|x a IH]; [done|].
  rewrite PyStrFacts.app_cons. simpl. by rewrite IH.
Qed.

Lemma app_inv_tail (a b t : string) : a ++ t = b ++ t -> a = b.
Proof.
  revert b. induction a as [|x a IH]; intros [|y b] H.
  - done.
  - apply (f_equal String.length) in H.
    rewrite PyStrFacts.app_cons in H. simpl in H. rewrite !length_app in H.
    simpl in H. lia.
  - apply (f_equal String.length) in H.
    rewrite PyStrFacts.app_cons in H. simpl in H. rewrite !length_app in H.
    simpl in H. lia.
  - rewrite !PyStrFacts.app_cons in H. injection H as -> H.
    by rewrite (IH _ H).
Qed.

Lemma replace_app (c : ascii) (r x y : string) :
  PyStr.replace c r (x ++ y) = PyStr.replace c r x ++ PyStr.replace c r y.
Proof.
  induction x as [|a x IH]; [done|].
  rewrite PyStrFacts.app_cons. simpl.
  by rewrite IH, PyStrFacts.app_assoc.
Qed.

(** [escape], one character at a time. *)
Lemma escape_cons (a : ascii) (s : string) :
  escape (String a s) =
  (if Ascii.eqb a "\" then "\\"
   else if Ascii.eqb a "'" then "\'"
   else String a EmptyString) ++ escape s.
Proof.
  unfold escape. simpl PyStr.replace at 2.
  rewrite replace_app. f_equal.
  destruct (Ascii.eqb a "\") eqn:E1; [reflexivity|].
  simpl. destruct (Ascii.eqb a "'"); reflexivity.
Qed.

Lemma escape_inj (s t : string) : escape s = escape t -> s = t.
Proof.
  revert t. induction s as [|a s IH]; intros [|b t].
  - done.
  - rewrite escape_cons. change (escape "") with "".
    destruct (Ascii.eqb b "\"); [discriminate|].
    destruct (Ascii.eqb b "'"); discriminate.
  - rewrite escape_cons. change (escape "") with "".
    destruct (Ascii.eqb a "\"); [discriminate|].
    destruct (Ascii.eqb a "'"); discriminate.
  - rewrite !escape_cons.
    destruct (Ascii.eqb_spec a "\") as [->|Ha1];
      destruct (Ascii.eqb_spec b "\") as [->|Hb1].
    + intros H%app_inv_head. by rewrite (IH _ H).
    + destruct (Ascii.eqb_spec b "'") as [->|Hb2].
      * rewrite !PyStrFacts.app_cons. discriminate.
      * rewrite !PyStrFacts.app_cons. intros [= Hb]. by destruct Hb1.
    + destruct (Ascii.eqb_spec a "'") as [->|Ha2].
      * rewrite !PyStrFacts.app_cons. discriminate.
      * rewrite !PyStrFacts.app_cons. intros [= Ha]. by destruct Ha1.
    + destruct (Ascii.eqb_spec a "'") as [->|Ha2];
        destruct (Ascii.eqb_spec b "'") as [->|Hb2].
      * intros H%app_inv_head. by rewrite (IH _ H).
      * rewrite !PyStrFacts.app_cons. intros [= Hb]. by destruct Hb1.
      * rewrite !PyStrFacts.app_cons. intros [= Ha]. by destruct Ha1.
      * rewrite !PyStrFacts.app_cons. intros [= -> H]. by rewrite (IH _ H).
Qed.

(** Two names that give the same exact-name query in a folder are the same
    name: the escaping of backslashes and quotes loses nothing, so
    [get_file_url] and [file_exists] never ask for one name in place of
    another. *)
Theorem name_query_inj (self : GoogleDriveDriver) (p q : string) :
  name_query self p = name_query self q -> p = q.
Proof.
  unfold name_query. intros H.
  do 3 apply app_inv_head in H.
  by apply app_inv_tail, escape_inj in H.
Qed.

Lemma name_query_inj_witness :
  name_query Ref.sample_drive "it's" = name_query Ref.sample_drive "it's"
  /\ "it's" = "it's".
Proof.
  split; [reflexivity|].
  apply (name_query_inj Ref.sample_drive "it's" "it's"). reflexivity.
Defined.

(** A name with a quote and a backslash, escaped. *)
Example escape_quote_backslash :
  name_query Ref.sample_drive "a'b\c"
  = "'fld' in parents and name = 'a\'b\\c' and trashed = false".
Proof. reflexivity. Qed.

End QueryFacts.

(** ** [GoogleDriveDriver]: the address syntax *)

Module EmailFacts.
Import GoogleDrive EmailSyntax.

Lemma plus_of_word (cls : ascii -> bool) (s : string) :
  plus_of cls s = true <-> word cls s.
Proof.
  unfold word. induction s as [|a s IH].
  - simpl. split; [done | by intros [? _]].
  - destruct s as [|b s].
    + simpl. rewrite andb_true_r. split; [done | by intros [_ ?]].
    + change (plus_of cls (String a (String b s)))
        with (cls a && plus_of cls (String b s)).
      change (all_of cls (String a (String b s)))
        with (cls a && all_of cls (String b s)).
      rewrite !andb_true_iff, IH. split.
      * by intros [? [_ ?]].
      * intros [_ [? ?]]. done.
Qed.

Lemma plus_of_eol_words (cls : ascii -> bool) (s : string) :
  plus_of_eol cls s = true <->
  exists t nl, s = t ++ nl /\ word cls t /\ (nl = "" \/ nl = newline).
Proof.
  unfold word. induction s as [|a s IH].
  - simpl. split; [done|].
    intros (t & nl & H & [Ht _] & _). by destruct t.
  - destruct s as [|b s].
    + simpl. rewrite andb_true_r. split.
      * intros Ha. exists (String a ""), "". simpl. rewrite Ha. auto.
      * intros (t & nl & H & [Ht Hall] & _).
        destruct t as [|x t]; [done|].
        rewrite PyStrFacts.app_cons in H. injection H as -> _.
        simpl in Hall. by apply andb_true_iff in Hall as [? _].
    + destruct s as [|c s].
      * change (plus_of_eol cls (String a (String b "")))
          with (cls a && (Ascii.eqb b "010" || cls b)).
        rewrite andb_true_iff, orb_true_iff. split.
        -- intros [Ha [Hb|Hb]].
           ++ apply Ascii.eqb_eq in Hb as ->.
              exists (String a ""), newline. simpl. rewrite Ha. auto.
           ++ exists (String a (String b "")), "". simpl. rewrite Ha, Hb. auto.
        -- intros (t & nl & H & [Ht Hall] & Hnl).
           destruct t as [|x t]; [done|].
           rewrite PyStrFacts.app_cons in H. injection H as -> H.
           simpl in Hall. apply andb_true_iff in Hall as [Hx Hall].
           split; [done|].
           destruct t as [|y t].
           ++ destruct Hnl as [->| ->]; [done|].
              injection H as ->. by left.
           ++ rewrite PyStrFacts.app_cons in H. injection H as -> _.
              simpl in Hall. apply andb_true_iff in Hall as [? _]. by right.
      * change (plus_of_eol cls (String a (String b (String c s))))
          with (cls a && plus_of_eol cls (String b (String c s))).
        rewrite andb_true_iff, IH. split.
        -- intros [Ha (t & nl & -> & [Ht Hall] & Hnl)].
           exists (String a t), nl. rewrite PyStrFacts.app_cons.
           simpl. rewrite Ha, Hall. auto.
        -- intros (t & nl & H & [Ht Hall] & Hnl).
           destruct t as [|x t]; [done|].
           rewrite PyStrFacts.app_cons in H. injection H as -> H.
           simpl in Hall. apply andb_true_iff in Hall as [Hx Hall].
           split; [done|]. exists t, nl. repeat split; try done.
           intros ->. destruct Hnl as [->| ->]; discriminate.
Qed.

Lemma split_first_parts (c : ascii) (s l r : string) :
  split_first c s = Some (l, r) <->
  s = l ++ String c r /\ occurs c l = false.
Proof.
  revert l r. induction s as [|a s IH]; intros l r.
  - simpl. split; [done|]. intros [H _]. by destruct l.
  - simpl. destruct (Ascii.eqb_spec a c) as [->|Hne].
    + split.
      * by intros [= <- <-].
      * intros [H Ho]. destruct l as [|x l].
        -- by injection H as ->.
        -- rewrite PyStrFacts.app_cons in H. injection H as <- _.
           simpl in Ho. by rewrite Ascii.eqb_refl in Ho.
    + destruct (split_first c s) as [[l' r']|].
      * split.
        -- intros [= <- <-].
           destruct (proj1 (IH l' r') eq_refl) as [-> Ho].
           split; [done|]. simpl. rewrite Ho.
           by destruct (Ascii.eqb_spec a c).
        -- intros [H Ho]. destruct l as [|x l].
           ++ injection H as -> _. done.
           ++ rewrite PyStrFacts.app_cons in H. injection H as <- H.
              simpl in Ho. apply orb_false_iff in Ho as [_ Ho].
              assert (E' : Some (l', r') = Some (l, r)) by by apply IH.
              by injection E' as -> ->.
      * split; [done|]. intros [H Ho]. destruct l as [|x l].
        -- injection H as -> _. done.
        -- rewrite PyStrFacts.app_cons in H. injection H as <- H.
           simpl in Ho. apply orb_false_iff in Ho as [_ Ho].
           assert (E' : None = Some (l, r)) by by apply IH.
           discriminate.
Qed.

Lemma all_of_excludes (cls : ascii -> bool) (c : ascii) (s : string) :
  cls c = false -> all_of cls s = true -> occurs c s = false.
Proof.
  intros Hc. induction s as [|a s IH]; [done|]. simpl.
  intros [Ha Hs]%andb_true_iff. rewrite (IH Hs), orb_false_r.
  destruct (Ascii.eqb_spec a c) as [->|]; [congruence | done].
Qed.

(** The check accepts exactly the addresses of the pattern: a non-empty local
    part of letters, digits and [_.+-], an ["@"], a non-empty domain label of
    letters, digits and [-], a ["."], a non-empty tail of letters, digits,
    [-] and ["."], and possibly one line feed at the very end. *)
Theorem email_regex_match_language (s : string) :
  email_regex_match s = true <-> address s.
Proof.
  unfold email_regex_match, address. split.
  - destruct (split_first "@" s) as [[loc rest]|] eqn:E1; [|done].
    intros [Hloc H]%andb_true_iff.
    destruct (split_first "." rest) as [[dom tl']|] eqn:E2; [|done].
    apply andb_true_iff in H as [Hdom Htl].
    apply split_first_parts in E1 as [-> _].
    apply split_first_parts in E2 as [-> _].
    apply plus_of_eol_words in Htl as (tl & nl & -> & Htl & Hnl).
    exists loc, dom, tl, nl.
    split; [done|]. split; [by apply plus_of_word|].
    split; [by apply plus_of_word | done].
  - intros (loc & dom & tl & nl & -> & Hloc & Hdom & Htl & Hnl).
    assert (E1 : split_first "@" (loc ++ "@" ++ dom ++ "." ++ tl ++ nl)
                 = Some (loc, dom ++ "." ++ tl ++ nl)).
    { apply split_first_parts. split; [done|].
      apply (all_of_excludes local_char); [done | apply Hloc]. }
    assert (E2 : split_first "." (dom ++ "." ++ tl ++ nl) = Some (dom, tl ++ nl)).
    { apply split_first_parts. split; [done|].
      apply (all_of_excludes domain_char); [done | apply Hdom]. }
    rewrite E1, E2.
    apply andb_true_iff. split; [by apply plus_of_word|].
    apply andb_true_iff. split; [by apply plus_of_word|].
    apply plus_of_eol_words. by exists tl, nl.
Qed.

End EmailFacts.

(** ** [GoogleDriveDriver]: point lookups, the generator, failures *)

Module DriveMore.
Import GoogleDrive Paging.

Section Facts.
Context {S : Type} (service : Service S).

(** A miss of the URL cache, for [get_file_url] and for [file_exists]: one
    [files().list] call with the exact-name query and page size 1; an answer
    without a file gives the empty string, respectively [False], and raises
    nothing; an [Exception] of the call is raised as [DriverError]. *)
Theorem drive_point_lookup (self : GoogleDriveDriver) (obj_path : string)
  (w : World S Call) :
  cached self obj_path = None ->
  let q := name_query self obj_path in
  let url := get_file_url service self obj_path w in
  let ex := file_exists service self obj_path w in
  calls (snd url)
  = (calls w ++ [CFilesList q "files(id, webViewLink)" None (Some 1%nat)])%list /\
  calls (snd ex) = (calls w ++ [CFilesList q "files(id)" None (Some 1%nat)])%list /\
  (forall results s',
     files_list service q "files(id, webViewLink)" None (Some 1%nat) (backend w)
     = (Ok results, s') ->
     files results = None \/ files results = Some [] ->
     fst url = Ok "") /\
  (forall results s',
     files_list service q "files(id)" None (Some 1%nat) (backend w)
     = (Ok results, s') ->
     files results = None \/ files results = Some [] ->
     fst ex = Ok false) /\
  (forall c s',
     files_list service q "files(id, webViewLink)" None (Some 1%nat) (backend w)
     = (Raise c, s') ->
     is_Exception c = true ->
     fst url = Raise (mkDriverError
                        ("Google Drive get file URL error: " ++ exn_str c))) /\
  (forall c s',
     files_list service q "files(id)" None (Some 1%nat) (backend w)
     = (Raise c, s') ->
     is_Exception c = true ->
     fst ex = Raise (mkDriverError
                       ("Google Drive file exists error: " ++ exn_str c))).
Proof.
  intros Hmiss. cbv zeta.
  unfold get_file_url, file_exists. rewrite Hmiss.
  unfold try_except, bind, invoke, ret, wrap, raise. simpl.
  split; [|split; [|split; [|split; [|split]]]].
  - destruct (files_list service _ "files(id, webViewLink)" _ _ (backend w))
      as [[results|c] s']; simpl.
    + by destruct (files results) as [[|f l]|].
    + by destruct (is_Exception c).
  - destruct (files_list service _ "files(id)" _ _ (backend w))
      as [[results|c] s']; simpl; [done|]. by destruct (is_Exception c).
  - intros results s' -> [H|H]; simpl; by rewrite H.
  - intros results s' -> [H|H]; simpl; by rewrite H.
  - intros c s' -> Hc. simpl. by rewrite Hc.
  - intros c s' -> Hc. simpl. by rewrite Hc.
Qed.

(** *** The shape of the steps of [list_files] *)

Lemma list_error_shape (e : exn) :
  is_Exception (list_error e) = true -> is_DriverError (list_error e) = true.
Proof. unfold list_error. destruct (is_Exception e) eqn:E; [done | congruence]. Qed.

Lemma for_files_shape (prefix : option string) (files : list File)
  (cache : option (gmap (option string) string)) :
  match for_files prefix files cache with
  | FYield name _ _ => name_matches prefix name = true
  | FExhausted => True
  | FRaise e => is_Exception e = true
  end.
Proof.
  induction files as [|file files IH]; [done|]. simpl.
  destruct prefix as [p|].
  - destruct (name file) as [n|] eqn:Hn; [|done].
    destruct (PyStr.startswith n p) eqn:Hp; [|exact IH].
    destruct cache; [simpl; by rewrite Hp | done].
  - by destruct cache.
Qed.

Lemma after_for_shape fetch prefix query rest page_token (σ : @GS S) out :
  (forall t σ0 out0, fetch prefix query t σ0 = Some out0 -> step_shape prefix out0) ->
  after_for fetch prefix query rest page_token σ = Some out ->
  step_shape prefix out.
Proof.
  intros Hfetch. unfold after_for.
  pose proof (for_files_shape prefix rest (_url_cache (fst σ))) as Hf.
  destruct (for_files prefix rest (_url_cache (fst σ))) as [name rest' c'| |e].
  - intros [= <-]. simpl. split; [done|]. eauto.
  - destruct (PyStr.otruthy page_token); [apply Hfetch | by intros [= <-]].
  - intros [= <-]. simpl. split; [done|]. apply list_error_shape.
Qed.

Lemma fetch_page_shape fuel prefix query page_token (σ : @GS S) out :
  fetch_page service fuel prefix query page_token σ = Some out ->
  step_shape prefix out.
Proof.
  revert page_token σ out.
  induction fuel as [|fuel IH]; intros page_token σ out; [done|].
  simpl. destruct (invoke _ _ (snd σ)) as [[results|e] w'].
  - apply after_for_shape. intros t σ0 out0. apply IH.
  - intros [= <-]. simpl. split; [done|]. apply list_error_shape.
Qed.

Lemma next_shape fuel prefix gen (σ : @GS S) out :
  of_prefix prefix gen ->
  next service fuel gen σ = Some out ->
  step_shape prefix out.
Proof.
  destruct gen as [p|p query rest page_token|]; simpl.
  - intros ->. apply fetch_page_shape.
  - intros ->. apply after_for_shape. intros t σ0 out0. apply fetch_page_shape.
  - by intros _ [= <-].
Qed.

(** Whatever a consumer receives from [list_files(prefix)] starts with
    [prefix]; and the generator is left finished whenever the consumer
    received fewer names than it asked for or met a failure. *)
Theorem drive_list_files_prefix_sound (n fuel : nat) (prefix : option string)
  (gen : Gen) (σ : @GS S) p gen' σ' :
  of_prefix prefix gen ->
  consume service n fuel gen σ = Some (p, gen', σ') ->
  Forall (fun name => name_matches prefix name = true) (items p) /\
  (List.length (items p) < n \/ failure p <> None -> gen' = GFinished).
Proof.
  revert gen σ p gen' σ'.
  induction n as [|n IH]; intros gen σ p gen' σ' Hgen; simpl.
  { intros [= <- <- <-]. simpl. split; [constructor|]. intros [?|?]; [lia|done]. }
  destruct (next service fuel gen σ) as [[[r g1] σ1]|] eqn:E; [|done].
  apply (next_shape _ prefix) in E; [|done]. simpl in E.
  destruct r as [[name|]|e].
  - destruct E as (Hname & query & rest & tok & ->).
    destruct (consume service n fuel _ σ1) as [[[p1 g2] σ2]|] eqn:E2; [|done].
    intros [= <- <- <-]. apply IH in E2 as [Hall Hfin]; [|done]. simpl.
    split; [by constructor|].
    intros [?|?]; apply Hfin; [left; lia | by right].
  - subst g1. intros [= <- <- <-]. simpl. split; [constructor | done].
  - destruct E as [-> _]. intros [= <- <- <-]. simpl. split; [constructor | done].
Qed.

(** A finished generator gives nothing more and makes no call, whatever the
    bound on page fetches: the listing cannot be restarted. *)
Lemma consume_finished (n fuel : nat) (σ : @GS S) :
  consume service n fuel GFinished σ = Some (mkProduced [] None, GFinished, σ).
Proof. by destruct n. Qed.

(** Of the exceptions of class [Exception], only [DriverError] leaves the
    constructor, [upload_file], [get_file_url], [file_exists] and the steps
    of [list_files]. *)
Theorem drive_only_drivererror_escapes :
  (forall config (w : World S Call) e,
     fst (__init__ service config w) = Raise e ->
     is_Exception e = true -> is_DriverError e = true) /\
  (forall self src obj_path (w : World S Call) e,
     fst (upload_file service self src obj_path w) = Raise e ->
     is_Exception e = true -> is_DriverError e = true) /\
  (forall self obj_path (w : World S Call) e,
     fst (get_file_url service self obj_path w) = Raise e ->
     is_Exception e = true -> is_DriverError e = true) /\
  (forall self obj_path (w : World S Call) e,
     fst (file_exists service self obj_path w) = Raise e ->
     is_Exception e = true -> is_DriverError e = true) /\
  (forall fuel gen (σ : @GS S) e gen' σ',
     next service fuel gen σ = Some (Raise e, gen', σ') ->
     is_Exception e = true -> is_DriverError e = true).
Proof.
  assert (Hwrap : forall A (m : M (World S Call) A) prefix w e,
            fst (try_except m is_Exception (fun c => wrap prefix c) w) = Raise e ->
            is_Exception e = true -> is_DriverError e = true).
  { intros A m prefix w e. unfold try_except, wrap, raise.
    destruct (m w) as [[a|c] w']; simpl; [done|].
    destruct (is_Exception c) eqn:E; simpl; intros [= <-]; [done | congruence]. }
  split; [|split; [|split; [|split]]].
  - intros config w e. unfold __init__. apply Hwrap.
  - intros self src obj_path w e. unfold upload_file, bind at 1.
    pose proof (Hwrap _ (upload_file_try service self src obj_path)
                  "GoogleDrive driver error: " w) as H.
    destruct (try_except _ _ _ w) as [[file_id|c] w'] eqn:E; simpl in *.
    + unfold _file_link. apply Hwrap.
    + intros [= <-]. by apply H.
  - intros self obj_path w e. unfold get_file_url.
    destruct (cached self obj_path); [done | apply Hwrap].
  - intros self obj_path w e. unfold file_exists.
    destruct (cached self obj_path); [done | apply Hwrap].
  - intros fuel gen σ e gen' σ' H.
    assert (Hp : of_prefix (match gen with
                            | GNew p => p
                            | GSuspended p _ _ _ => p
                            | GFinished => None
                            end) gen) by by destruct gen.
    apply (next_shape _ _ _ _ _ Hp) in H. simpl in H. apply H.
Qed.

End Facts.
End DriveMore.

(** ** [GoogleDriveDriver.list_files]: all pages, in order *)

Module DrivePaging.
Import GoogleDrive Paging.

Lemma names_ok_app (prefix : option string) (l r : list File) :
  names_ok prefix (l ++ r)%list <-> names_ok prefix l /\ names_ok prefix r.
Proof.
  unfold names_ok. split.
  - intros H. split; intros f Hf; apply H; apply in_or_app; eauto.
  - intros [Hl Hr] f [Hf|Hf]%in_app_or; eauto.
Qed.

Lemma names_ok_tail (prefix : option string) (f : File) (l : list File) :
  names_ok prefix (f :: l) -> names_ok prefix l.
Proof. intros H g Hg. apply H. by right. Qed.

Lemma all_pages_succ (k : nat) (page : option string -> FileList)
  (tok : option string) (fs : list File) :
  all_pages k page tok = Some fs -> all_pages (Datatypes.S k) page tok = Some fs.
Proof.
  revert tok fs. induction k as [|k IH]; intros tok fs; [done|].
  intros H. simpl in H. change (all_pages (Datatypes.S (Datatypes.S k)) page tok)
    with (let results := page tok in
          let here := match files results with Some l => l | None => [] end in
          if PyStr.otruthy (nextPageToken results) then
            match all_pages (Datatypes.S k) page (nextPageToken results) with
            | Some more => Some (here ++ more)%list
            | None => None
            end
          else Some here).
  cbv zeta. destruct (PyStr.otruthy (nextPageToken (page tok))); [|done].
  destruct (all_pages k page (nextPageToken (page tok))) as [more|] eqn:E; [|done].
  by rewrite (IH _ _ E).
Qed.

Lemma remaining_succ (k : nat) (page : option string -> FileList)
  (rest : list File) (tok : option string) (fs : list File) :
  remaining k page rest tok = Some fs ->
  remaining (Datatypes.S k) page rest tok = Some fs.
Proof.
  unfold remaining. destruct (PyStr.otruthy tok); [|done].
  destruct (all_pages k page tok) as [more|] eqn:E; [|done].
  by rewrite (all_pages_succ _ _ _ _ E).
Qed.

Lemma listing_step_succ {S : Type} (k : nat) page (s0 : S) prefix query fs c
  self out :
  listing_step k page s0 prefix query fs c self out ->
  listing_step (Datatypes.S k) page s0 prefix query fs c self out.
Proof.
  unfold listing_step. destruct (List.filter (matches prefix) fs) as [|f ms];
    [done|].
  intros (rest' & tok' & w' & fs' & ? & ? & ?%remaining_succ & ? & ?).
  by exists rest', tok', w', fs'.
Qed.

(** The [for] loop stops at the first entry that passes the prefix test. *)
Lemma for_files_first (prefix : option string) (fs : list File)
  (c : gmap (option string) string) :
  names_ok prefix fs ->
  match List.filter (matches prefix) fs with
  | [] => for_files prefix fs (Some c) = FExhausted
  | f :: ms =>
      exists rest',
        for_files prefix fs (Some c)
        = FYield (name f) rest' (<[name f := link_or_empty f]> c) /\
        List.filter (matches prefix) rest' = ms /\
        exists pre, fs = (pre ++ f :: rest')%list
  end.
Proof.
  induction fs as [|file fs IH]; [done|]. intros Hok.
  specialize (IH (names_ok_tail _ _ _ Hok)).
  simpl. unfold matches at 1.
  destruct prefix as [p|].
  - destruct (name file) as [n|] eqn:Hn.
    + destruct (PyStr.startswith n p).
      * exists fs. rewrite Hn. repeat split. by exists [].
      * destruct (List.filter (matches (Some p)) fs) as [|f ms]; [done|].
        destruct IH as (rest' & ? & ? & pre & ->).
        exists rest'. repeat split; [done..|]. by exists (file :: pre).
    + exfalso. by apply (Hok file); [left| |].
  - exists fs. repeat split. by exists [].
Qed.

Section Pages.
Context {S : Type} (service : Service S).
Variables (page : option string -> FileList) (s0 : S)
  (prefix : option string) (q : string).
Hypothesis Hpage : forall tok,
  files_list service q list_fields tok (Some 1000%nat) s0 = (Ok (page tok), s0).

Lemma after_for_listing (k : nat) fetch rest tok fs c self (w : World S Call) :
  (forall fs1,
     all_pages k page tok = Some fs1 -> names_ok prefix fs1 ->
     listing_step k page s0 prefix q fs1 c self (fetch prefix q tok (self, w))) ->
  _url_cache self = Some c -> backend w = s0 ->
  remaining k page rest tok = Some fs -> names_ok prefix fs ->
  listing_step k page s0 prefix q fs c self
    (after_for fetch prefix q rest tok (self, w)).
Proof.
  intros Hfetch Hc Hw Hrem Hok. unfold after_for. simpl fst. rewrite Hc.
  unfold remaining in Hrem.
  destruct (PyStr.otruthy tok) eqn:Htok.
  - destruct (all_pages k page tok) as [more|] eqn:Hmore; [|done].
    injection Hrem as <-. apply names_ok_app in Hok as [Hrest Hmo].
    pose proof (for_files_first prefix rest c Hrest) as Hfor.
    unfold listing_step at 1. rewrite List.filter_app.
    destruct (List.filter (matches prefix) rest) as [|f ms].
    + rewrite Hfor. simpl. by apply Hfetch.
    + destruct Hfor as (rest' & -> & Hf & pre & ->). simpl.
      exists rest', tok, w, (rest' ++ more)%list.
      repeat split; [done| | |].
      * unfold remaining. by rewrite Htok, Hmore.
      * by rewrite List.filter_app, Hf.
      * apply names_ok_app. split; [|done].
        intros g Hg. apply Hrest. apply in_or_app. right. by right.
  - injection Hrem as <-.
    pose proof (for_files_first prefix rest c Hok) as Hfor.
    unfold listing_step.
    destruct (List.filter (matches prefix) rest) as [|f ms].
    + rewrite Hfor. by exists w.
    + destruct Hfor as (rest' & -> & Hf & pre & ->).
      exists rest', tok, w, rest'. repeat split; [done| |done|].
      * unfold remaining. by rewrite Htok.
      * intros g Hg. apply Hok. apply in_or_app. right. by right.
Qed.

Lemma fetch_page_listing (k : nat) tok fs c self (w : World S Call) :
  _url_cache self = Some c -> backend w = s0 ->
  all_pages k page tok = Some fs -> names_ok prefix fs ->
  listing_step k page s0 prefix q fs c self
    (fetch_page service k prefix q tok (self, w)).
Proof.
  revert tok fs w. induction k as [|k IH]; intros tok fs w Hc Hw Hall Hok;
    [done|].
  simpl fetch_page. unfold invoke. simpl snd. simpl fst. rewrite Hw, Hpage.
  apply listing_step_succ. apply after_for_listing; try done.
  intros fs1 H1 Hok1. by apply IH.
Qed.

Lemma next_suspended_listing (k : nat) rest tok fs c self (w : World S Call) :
  _url_cache self = Some c -> backend w = s0 ->
  remaining k page rest tok = Some fs -> names_ok prefix fs ->
  listing_step k page s0 prefix q fs c self
    (next service k (GSuspended prefix q rest tok) (self, w)).
Proof.
  intros Hc Hw Hrem Hok. simpl. apply after_for_listing; try done.
  intros fs1 H1 Hok1. by apply fetch_page_listing.
Qed.

Lemma consume_listing (k : nat) (ms : list File) :
  forall n gen (σ : @GS S) fs c self,
    List.filter (matches prefix) fs = ms ->
    listing_step k page s0 prefix q fs c self (next service k gen σ) ->
    (List.length ms < n)%nat ->
    exists σ',
      consume service n k gen σ
      = Some (mkProduced (map name ms) None, GFinished, σ') /\
      backend (snd σ') = s0.
Proof.
  induction ms as [|f ms IH]; intros n gen σ fs c self Hms Hstep Hn;
    (destruct n as [|n]; [simpl in Hn; lia|]);
    unfold listing_step in Hstep; rewrite Hms in Hstep; simpl.
  - destruct Hstep as (w' & -> & Hw). by exists (self, w').
  - destruct Hstep as (rest' & tok' & w' & fs' & -> & Hw & Hrem & Hf & Hok).
    destruct (IH n (GSuspended prefix q rest' tok')
                (set_cache self (<[name f := link_or_empty f]> c), w')
                fs' (<[name f := link_or_empty f]> c)
                (set_cache self (<[name f := link_or_empty f]> c)) Hf)
      as (σ' & -> & Hσ').
    + by apply next_suspended_listing.
    + simpl in Hn. lia.
    + by exists σ'.
Qed.

End Pages.

(** Over a service that answers the listing query with the pages [page],
    without failing, a consumer of [list_files(prefix)] receives the names
    of exactly the entries of all pages that pass the prefix test, in the
    order of the pages, and then the end of the generator.  ([fuel] pages
    reach the last page; with a prefix, every entry has a name.) *)
Theorem drive_list_files_all_pages {S : Type} (service : Service S)
  (page : option string -> FileList) (self : GoogleDriveDriver)
  (w : World S Call) (prefix : option string) (fuel n : nat)
  (fs : list File) :
  (forall tok,
     files_list service (list_query self) list_fields tok (Some 1000%nat)
       (backend w) = (Ok (page tok), backend w)) ->
  all_pages fuel page None = Some fs ->
  names_ok prefix fs ->
  (List.length (List.filter (matches prefix) fs) < n)%nat ->
  exists σ',
    consume service n fuel (list_files prefix) (self, w)
    = Some (mkProduced (map name (List.filter (matches prefix) fs)) None,
            GFinished, σ') /\
    backend (snd σ') = backend w.
Proof.
  intros Hpage Hall Hok Hn.
  set (self' := match _url_cache self with
                | Some _ => self
                | None => set_cache self ∅
                end).
  assert (Hq : list_query self' = list_query self)
    by (unfold self'; by destruct (_url_cache self)).
  assert (Hc : _url_cache self' = Some (cache_of self)).
  { unfold self', cache_of. by destruct (_url_cache self) eqn:E; simpl; rewrite ?E. }
  apply (consume_listing service page (backend w) prefix (list_query self)
           Hpage fuel _ n _ _ fs (cache_of self) self' eq_refl); [|done].
  unfold list_files, next. simpl fst. simpl snd. fold self'. rewrite Hq.
  by apply fetch_page_listing.
Qed.

End DrivePaging.

(** ** [GoogleDriveDriver]: the folder and the collaborators *)

Module DriveInit.
Import GoogleDrive Paging.

Section Facts.
Context {S : Type} (service : Service S).

Lemma folder_exists_run (folder_name : string) (w : World S Call) :
  _folder_exists service folder_name w =
  let '(r, s') :=
    files_list service (folder_query folder_name) "files(id, name)" None None
      (backend w) in
  let w' := mkWorld s'
              (calls w ++ [CFilesList (folder_query folder_name)
                             "files(id, name)" None None])%list in
  match r with
  | Raise e =>
      (Raise (reraised is_Exception "Google Drive folder exists error: " e), w')
  | Ok results =>
      match files results with
      | Some (item :: _) =>
          match id item with
          | Some i => (Ok (Some i), w')
          | None => (Raise {| exn_cls := KeyError; exn_str := "'id'";
                              exn_code := "" |}, w')
          end
      | _ => (Ok None, w')
      end
  end.
Proof.
  unfold _folder_exists, try_except, bind, invoke, ret, wrap, raise, reraised.
  simpl.
  destruct (files_list service (folder_query folder_name) "files(id, name)"
              None None (backend w)) as [[results|e] s']; simpl.
  - destruct (files results) as [[|item rest]|]; try done.
    by destruct (id item).
  - by destruct (is_Exception e).
Qed.

Lemma create_folder_run (folder_name : string) (w : World S Call) :
  _create_folder service folder_name w =
  let body := {| md_name := folder_name; md_mimeType := Some folder_mime;
                 md_parents := None |} in
  let '(r, s') := files_create service body None "id" (backend w) in
  (match r with
   | Ok folder => Ok (id folder)
   | Raise e =>
       Raise (reraised is_Exception "Google Drive create folder error: " e)
   end,
   mkWorld s' (calls w ++ [CFilesCreate body None "id"])%list).
Proof.
  unfold _create_folder, try_except, bind, invoke, ret, wrap, raise, reraised.
  simpl.
  destruct (files_create service _ None "id" (backend w)) as [[folder|e] s'];
    simpl; [done|].
  by destruct (is_Exception e).
Qed.

Lemma resolve_folder_tail (c : GoogleDriveConfig) (found : option string)
  (w : World S Call) :
  (folder_id <- (if negb (PyStr.otruthy found)
                 then _create_folder service (gd_folder c) else ret found) ;;
   ret {| _folder := gd_folder c; _folder_id := folder_id;
          _url_cache := None |}) w =
  if PyStr.otruthy found
  then (Ok {| _folder := gd_folder c; _folder_id := found; _url_cache := None |},
        w)
  else
    let body := {| md_name := gd_folder c; md_mimeType := Some folder_mime;
                   md_parents := None |} in
    let '(r, s') := files_create service body None "id" (backend w) in
    (match r with
     | Ok folder => Ok {| _folder := gd_folder c; _folder_id := id folder;
                          _url_cache := None |}
     | Raise e =>
         Raise (reraised is_Exception "Google Drive create folder error: " e)
     end,
     mkWorld s' (calls w ++ [CFilesCreate body None "id"])%list).
Proof.
  unfold bind. destruct (PyStr.otruthy found); simpl; [done|].
  rewrite create_folder_run. cbv zeta.
  by destruct (files_create service _ None "id" (backend w)) as [[folder|e] s'].
Qed.

(** A construction that gets past the folder has made the two set-up calls
    and one lookup by name.  When the lookup answered with an entry whose id
    is not empty, the driver uses the id of the first entry and creates
    nothing; otherwise it creates one folder, of the configured name, and
    uses the id of the answer. *)
Theorem drive_folder_found_or_created (c : GoogleDriveConfig)
  (w w' : World S Call) (self : GoogleDriveDriver) :
  resolve_folder service c w = (Ok self, w') ->
  let lookup := [CFromServiceAccountFile (gd_service_account_file c); CBuild;
                 CFilesList (folder_query (gd_folder c)) "files(id, name)"
                   None None] in
  let body := {| md_name := gd_folder c; md_mimeType := Some folder_mime;
                 md_parents := None |} in
  let created s' :=
    exists folder,
      files_create service body None "id" s' = (Ok folder, backend w') /\
      _folder_id self = id folder /\
      calls w' = (calls w ++ lookup ++ [CFilesCreate body None "id"])%list in
  _folder self = gd_folder c /\ _url_cache self = None /\
  exists s results s',
    files_list service (folder_query (gd_folder c)) "files(id, name)" None None s
    = (Ok results, s') /\
    match files results with
    | Some (item :: _) =>
        if PyStr.otruthy (id item)
        then _folder_id self = id item /\
             w' = mkWorld s' (calls w ++ lookup)%list
        else created s'
    | _ => created s'
    end.
Proof.
  cbv zeta.
  unfold resolve_folder, bind at 1, invoke at 1.
  destruct (from_service_account_file service _ (backend w)) as [[[]|e1] s1];
    [|done].
  unfold bind at 1, invoke at 1. simpl backend.
  destruct (build service s1) as [[[]|e2] s2]; [|done].
  unfold bind at 1. rewrite folder_exists_run. simpl backend. simpl calls.
  destruct (files_list service (folder_query (gd_folder c)) "files(id, name)"
              None None s2) as [[results|e3] s3] eqn:E3; [|done].
  set (w3 := mkWorld s3 _).
  assert (Hcreate :
    forall found, PyStr.otruthy found = false ->
      (folder_id <- (if negb (PyStr.otruthy found)
                     then _create_folder service (gd_folder c) else ret found) ;;
       ret {| _folder := gd_folder c; _folder_id := folder_id;
              _url_cache := None |}) w3 = (Ok self, w') ->
      _folder self = gd_folder c /\ _url_cache self = None /\
      exists folder,
        files_create service
          {| md_name := gd_folder c; md_mimeType := Some folder_mime;
             md_parents := None |} None "id" s3 = (Ok folder, backend w') /\
        _folder_id self = id folder /\
        calls w' =
        (calls w ++
         [CFromServiceAccountFile (gd_service_account_file c); CBuild;
          CFilesList (folder_query (gd_folder c)) "files(id, name)" None None] ++
         [CFilesCreate {| md_name := gd_folder c;
                          md_mimeType := Some folder_mime;
                          md_parents := None |} None "id"])%list).
  { intros found Hfound. rewrite resolve_folder_tail, Hfound. cbv zeta.
    simpl backend.
    destruct (files_create service _ None "id" s3) as [[folder|e] s4]; [|done].
    intros [= <- <-]. simpl. repeat split. exists folder.
    repeat split. by rewrite <- !app_assoc. }
  destruct (files results) as [[|item rest]|] eqn:Hfiles.
  - intros (? & ? & H)%Hcreate; [|done].
    repeat split; [done..|]. exists s2, results, s3. by rewrite Hfiles.
  - destruct (id item) as [i|] eqn:Hid; [|done].
    destruct (PyStr.otruthy (Some i)) eqn:Hi.
    + cbv beta iota zeta. rewrite resolve_folder_tail, Hi. intros [= <- <-]. simpl.
      repeat split. exists s2, results, s3. rewrite Hfiles, Hid, Hi.
      split; [done|]. split; [done|]. unfold w3. by rewrite <- !app_assoc.
    + intros (? & ? & H)%Hcreate; [|done].
      repeat split; [done..|]. exists s2, results, s3.
      by rewrite Hfiles, Hid, Hi.
  - intros (? & ? & H)%Hcreate; [|done].
    repeat split; [done..|]. exists s2, results, s3. by rewrite Hfiles.
Qed.

End Facts.
End DriveInit.

(** ** [GoogleDriveDriver]: the collaborators *)

Module DriveSharing.
Import GoogleDrive Paging.

Section Facts.
Context {S : Type} (service : Service S).

(** A [share_with] setting that is neither a string nor a list: the
    construction never succeeds; when the folder was found or created, it
    ends there, with the [DriverError] of the setting and no call for a
    permission. *)
Theorem drive_init_rejects_share_with (config : Config) (w : World S Call) :
  gd_share_with (config_google_drive config) = SWOther ->
  (forall self, fst (__init__ service config w) <> Ok self) /\
  (forall self w1,
     resolve_folder service (config_google_drive config) w = (Ok self, w1) ->
     __init__ service config w =
     (Raise (mkDriverError
               ("GoogleDrive driver init error: Google Drive sharing: "
                ++ "Incorrect GoogleDrive shared_with settings")), w1)).
Proof.
  intros Hsw.
  assert (Hrun : forall self w1,
            resolve_folder service (config_google_drive config) w = (Ok self, w1) ->
            __init__ service config w =
            (Raise (mkDriverError
                      ("GoogleDrive driver init error: Google Drive sharing: "
                       ++ "Incorrect GoogleDrive shared_with settings")), w1)).
  { intros self w1 Hres.
    unfold __init__, try_except, bind at 1. rewrite Hres.
    unfold bind at 1, share_configured, bind at 1, _get_share_with.
    by rewrite Hsw. }
  split; [|exact Hrun].
  intros self.
  destruct (resolve_folder service (config_google_drive config) w)
    as [[self1|e] w1] eqn:Hres.
  - by rewrite (Hrun _ _ eq_refl).
  - unfold __init__, try_except, bind at 1. rewrite Hres.
    unfold wrap, raise. by destruct (is_Exception e).
Qed.

Lemma holds_lower (self : GoogleDriveDriver) (e e' : string) (s : S) :
  PyStr.lower e = PyStr.lower e' ->
  holds service self e s = holds service self e' s.
Proof. intros H. unfold holds, same_address. by rewrite H. Qed.

Section WithLaws.
Context (Hperm : Laws.Permissions service) (Hgrant : MoreLaws.Grants service).

(** Whatever the list of addresses, the loop of the construction grants an
    address at most once, letter case apart, and only an address of the list
    that is not empty and held no permission when the loop began. *)
Theorem drive_grants_each_once (self : GoogleDriveDriver)
  (emails : list string) (w : World S Call) :
  exists l es,
    calls (snd (for_emails service self emails w)) = (calls w ++ l)%list /\
    List.filter is_grant l = map (grant_call self) es /\
    List.NoDup (map PyStr.lower es) /\
    List.Forall (fun e => In e emails /\ e <> "" /\
                          holds service self e (backend w) = false) es.
Proof.
  revert w. induction emails as [|email rest IH]; intros w.
  { exists [], []. simpl. rewrite app_nil_r. repeat split; constructor. }
  simpl for_emails. unfold bind at 1.
  assert (Hweak : forall es (s1 : S),
            (forall e, holds service self e (backend w) = true ->
                       holds service self e s1 = true) ->
            List.Forall (fun e => In e rest /\ e <> "" /\
                                  holds service self e s1 = false) es ->
            List.Forall (fun e => In e (email :: rest) /\ e <> "" /\
                                  holds service self e (backend w) = false) es).
  { intros es s1 Hmono. apply List.Forall_impl. intros e (? & ? & Hh).
    repeat split; [by right | done |].
    destruct (holds service self e (backend w)) eqn:E; [|done].
    apply Hmono in E. congruence. }
  destruct (PyStr.truthy email) eqn:Hne.
  - destruct (holds service self email (backend w)) eqn:Hh.
    + rewrite (GoogleDriveFacts.share_with_held service Hperm self email w Hh).
      destruct (IH (mkWorld (backend w)
                      (calls w ++ [CPermissionsList (_folder_id self) perm_fields])%list))
        as (l & es & Hl & Hg & Hnd & Hall).
      exists (CPermissionsList (_folder_id self) perm_fields :: l), es.
      rewrite Hl. simpl. rewrite <- app_assoc.
      repeat split; [done..|]. by apply (Hweak es (backend w)).
    + destruct (GoogleDriveFacts.share_with_lacking service Hperm self email w Hh)
        as (r & s2 & Hcreate & Hw & Hok).
      assert (Hemail : In email (email :: rest) /\ email <> "" /\
                       holds service self email (backend w) = false).
      { repeat split; [by left | by destruct email | done]. }
      destruct (_share_with service self email w) as [[[]|e] w1]; simpl in Hw;
        subst w1.
      * destruct (proj1 Hok eq_refl) as [u ->].
        destruct (IH (mkWorld s2
                        (calls w ++ [CPermissionsList (_folder_id self) perm_fields;
                                     CPermissionsCreate (_folder_id self)
                                       (grant_body email)])%list))
          as (l & es & Hl & Hg & Hnd & Hall).
        exists (CPermissionsList (_folder_id self) perm_fields
                :: CPermissionsCreate (_folder_id self) (grant_body email) :: l),
          (email :: es).
        rewrite Hl. simpl. rewrite <- app_assoc. simpl in Hall.
        repeat split; [by rewrite Hg | | ].
        -- constructor; [|done].
           intros (e' & Hlow & Hin)%in_map_iff.
           rewrite List.Forall_forall in Hall.
           destruct (Hall e' Hin) as (_ & _ & Hfalse).
           rewrite (holds_lower self e' email s2 Hlow) in Hfalse.
           destruct u.
           rewrite (MoreLaws.grant_then_holds _ Hgrant self email _ _ _ Hcreate)
             in Hfalse.
           done.
        -- constructor; [done|]. apply (Hweak es s2); [|done].
           intros e'. by apply (Laws.perms_create_keeps _ Hperm _ _ _ _ _ _ _ Hcreate).
      * exists [CPermissionsList (_folder_id self) perm_fields;
                CPermissionsCreate (_folder_id self) (grant_body email)],
          [email].
        simpl. repeat split; [|by constructor].
        constructor; [by intros [] | constructor].
  - unfold ret at 1.
    destruct (IH w) as (l & es & Hl & Hg & Hnd & Hall).
    exists l, es. repeat split; [done..|]. by apply (Hweak es (backend w)).
Qed.

End WithLaws.
End Facts.
End DriveSharing.

(** ** The reference backends obey the further laws; scenarios *)

Module RefMoreFacts.
Import Ref RefMore.

Lemma s3_store_laws : MoreLaws.S3Store client.
Proof.
  split.
  - intros b k src s res s'. simpl. unfold s3_fput.
    destruct (mem src (s3_local s)); simpl; [|done].
    destruct (mem b (s3_buckets s)); simpl; [|done].
    by intros [= <- _].
  - intros b k src s res s' prefix. simpl. unfold s3_fput.
    destruct (mem src (s3_local s)); simpl; [|done].
    destruct (mem b (s3_buckets s)) eqn:Hb; simpl; [|done].
    intros [= _ <-] Hpre. unfold s3_list. simpl. rewrite Hb. simpl.
    exists {| Minio.object_name := k; Minio.is_dir := PyStr.endswith k "/" |}.
    split; [|done].
    apply filter_In. split; [|done].
    unfold s3_bucket_objects. simpl.
    apply (in_map (fun o => {| Minio.object_name := snd o;
                               Minio.is_dir := PyStr.endswith (snd o) "/" |})
             _ (b, k)).
    apply filter_In. split; [|by simpl; rewrite String.eqb_refl].
    apply in_or_app. right. by left.
Qed.

Lemma same_id_refl (a : option string) : same_id a a = true.
Proof. destruct a; [apply String.eqb_refl | done]. Qed.

Lemma grant_laws : MoreLaws.Grants service.
Proof.
  split. intros self email s u s'. simpl. intros [= _ <-].
  unfold GoogleDrive.holds. simpl. unfold dr_perms_of. simpl.
  rewrite List.filter_app, map_app, existsb_app. simpl.
  rewrite same_id_refl. simpl.
  unfold GoogleDrive.same_address at 2. simpl.
  rewrite String.eqb_refl. simpl. apply orb_true_r.
Qed.

(** The scope of the sample driver: ["/data/"] is configured, ["data"] is
    the scope. *)
Lemma minio_scope_normalised_witness :
  Minio.bucket_subpath sample_minio = Some "data" /\
  Minio.prefix_to_strip sample_minio = "data/".
Proof.
  pose proof (MinioMore.minio_scope_normalised client
                (sample_config (VStr "minio")) (mkWorld s3_0 [])
                (snd (Minio.__init__ client (sample_config (VStr "minio"))
                        (mkWorld s3_0 [])))
                sample_minio eq_refl) as H.
  simpl in H. destruct H as (H1 & _ & _ & H2 & _). by split.
Defined.

(** A photo uploaded under the scope is listed and located. *)
Lemma minio_upload_round_trip_witness :
  In "img/p.jpg"
    (items (fst (Minio.list_files client sample_minio (Some "img/")
                   (snd (Minio.upload_file client sample_minio "/tmp/photo.jpg"
                           "img/p.jpg" (mkWorld s3_0 [])))))) /\
  Minio.get_file_url sample_minio "img/p.jpg"
    (snd (Minio.upload_file client sample_minio "/tmp/photo.jpg" "img/p.jpg"
            (mkWorld s3_0 [])))
  = (Ok "http://localhost:9000/media/data/img/p.jpg",
     snd (Minio.upload_file client sample_minio "/tmp/photo.jpg" "img/p.jpg"
            (mkWorld s3_0 []))).
Proof.
  apply (MinioMore.minio_upload_round_trip client s3_store_laws
           (sample_config (VStr "minio")) (mkWorld s3_0 [])
           (snd (Minio.__init__ client (sample_config (VStr "minio"))
                   (mkWorld s3_0 [])))
           (mkWorld s3_0 [])
           (snd (Minio.upload_file client sample_minio "/tmp/photo.jpg"
                   "img/p.jpg" (mkWorld s3_0 [])))
           sample_minio "/tmp/photo.jpg" "img/p.jpg"
           "http://localhost:9000/media/data/img/p.jpg" (Some "img/")).
  - reflexivity.
  - reflexivity.
  - reflexivity.
  - reflexivity.
Defined.

(** A name that is not in the cache and not in the folder: one query each,
    the empty string and [False]. *)
Lemma drive_point_lookup_witness :
  GoogleDrive.cached sample_drive "photo.jpg" = None /\
  fst (GoogleDrive.get_file_url service sample_drive "photo.jpg"
         (mkWorld drive0 [])) = Ok "" /\
  fst (GoogleDrive.file_exists service sample_drive "photo.jpg"
         (mkWorld drive0 [])) = Ok false.
Proof.
  destruct (DriveMore.drive_point_lookup service sample_drive "photo.jpg"
              (mkWorld drive0 []) eq_refl) as (_ & _ & Hurl & Hex & _).
  split; [reflexivity|]. split.
  - eapply Hurl; [reflexivity | by right].
  - eapply Hex; [reflexivity | by right].
Defined.

(** The listing of [Ref.drive3] under the prefix ["b"]. *)
Lemma drive_list_files_prefix_sound_witness :
  List.Forall (fun name => Paging.name_matches (Some "b") name = true)
    (items (fst (fst listed_b))) /\
  snd (fst listed_b) = GoogleDrive.GFinished.
Proof.
  destruct (DriveMore.drive_list_files_prefix_sound service 10 5 (Some "b")
              (GoogleDrive.list_files (Some "b"))
              (sample_drive, mkWorld drive3 [])
              (fst (fst listed_b)) (snd (fst listed_b)) (snd listed_b))
    as [Hall Hfin].
  - reflexivity.
  - vm_compute. reflexivity.
  - split; [exact Hall|]. apply Hfin. left. vm_compute. lia.
Defined.

Example listed_b_items : items (fst (fst listed_b)) = [Some "b.jpg"].
Proof. vm_compute. reflexivity. Qed.

(** The three files of [Ref.drive3] come on two pages; the listing under
    the prefix ["b"] goes through both. *)
Lemma drive_list_files_all_pages_witness :
  exists σ',
    GoogleDrive.consume service 10 5 (GoogleDrive.list_files (Some "b"))
      (sample_drive, mkWorld drive3 [])
    = Some (mkProduced
              (map GoogleDrive.name
                 (List.filter (Paging.matches (Some "b")) files3)) None,
            GoogleDrive.GFinished, σ') /\
    backend (snd σ') = drive3.
Proof.
  apply (DrivePaging.drive_list_files_all_pages service pages3 sample_drive
           (mkWorld drive3 []) (Some "b") 5 10 files3).
  - intros tok. reflexivity.
  - reflexivity.
  - intros f Hin _. vm_compute in Hin.
    destruct Hin as [<-|[<-|[<-|[]]]]; discriminate.
  - vm_compute. lia.
Defined.

Example files3_pages :
  map GoogleDrive.name files3 = [Some "a.jpg"; Some "b.jpg"; Some "c.jpg"] /\
  GoogleDrive.nextPageToken (pages3 None) = Some "ii" /\
  GoogleDrive.nextPageToken (pages3 (Some "ii")) = None.
Proof. vm_compute. repeat split. Qed.

(** On [Ref.drive_shared] the folder ["media"] exists: it is used, and none
    is created. *)
Lemma drive_folder_found_or_created_witness :
  GoogleDrive.resolve_folder service
    (config_google_drive (sample_config (VStr "google_drive")))
    (mkWorld drive_shared [])
  = (Ok sample_drive,
     snd (GoogleDrive.resolve_folder service
            (config_google_drive (sample_config (VStr "google_drive")))
            (mkWorld drive_shared []))) /\
  GoogleDrive._folder sample_drive = "media" /\
  GoogleDrive._url_cache sample_drive = None.
Proof.
  split; [reflexivity|].
  destruct (DriveInit.drive_folder_found_or_created service
              (config_google_drive (sample_config (VStr "google_drive")))
              (mkWorld drive_shared [])
              (snd (GoogleDrive.resolve_folder service
                      (config_google_drive (sample_config (VStr "google_drive")))
                      (mkWorld drive_shared [])))
              sample_drive eq_refl) as (H1 & H2 & _).
  by split.
Defined.

(** The calls of the construction up to the folder, on [Ref.drive_shared]
    and on the empty [Ref.drive0]. *)
Example resolve_folder_calls :
  calls (snd (GoogleDrive.resolve_folder service
                (config_google_drive (sample_config (VStr "google_drive")))
                (mkWorld drive_shared [])))
  = [GoogleDrive.CFromServiceAccountFile "account.json"; GoogleDrive.CBuild;
     GoogleDrive.CFilesList (GoogleDrive.folder_query "media")
       "files(id, name)" None None] /\
  calls (snd (GoogleDrive.resolve_folder service
                (config_google_drive (sample_config (VStr "google_drive")))
                (mkWorld drive0 [])))
  = [GoogleDrive.CFromServiceAccountFile "account.json"; GoogleDrive.CBuild;
     GoogleDrive.CFilesList (GoogleDrive.folder_query "media")
       "files(id, name)" None None;
     GoogleDrive.CFilesCreate
       {| GoogleDrive.md_name := "media";
          GoogleDrive.md_mimeType := Some GoogleDrive.folder_mime;
          GoogleDrive.md_parents := None |} None "id"].
Proof. split; reflexivity. Qed.

(** With the incorrect setting, on the empty [Ref.drive0]: the folder is
    created, then the construction fails. *)
Lemma drive_init_rejects_share_with_witness :
  GoogleDrive.__init__ service bad_share_config (mkWorld drive0 [])
  = (Raise (mkDriverError
              ("GoogleDrive driver init error: Google Drive sharing: "
               ++ "Incorrect GoogleDrive shared_with settings")),
     snd (GoogleDrive.resolve_folder service
            (config_google_drive bad_share_config) (mkWorld drive0 []))).
Proof.
  apply (proj2 (DriveSharing.drive_init_rejects_share_with service
                  bad_share_config (mkWorld drive0 []) eq_refl)
           {| GoogleDrive._folder := "media";
              GoogleDrive._folder_id := Some "f";
              GoogleDrive._url_cache := None |}).
  reflexivity.
Defined.

(** ann is configured twice and bob holds a permission: the loop grants
    once, to ann. *)
Lemma drive_grants_each_once_witness :
  exists l es,
    calls (snd (GoogleDrive.for_emails service sample_drive emails3
                  (mkWorld drive_shared [])))
    = ([] ++ l)%list /\
    List.filter GoogleDrive.is_grant l
    = map (Paging.grant_call sample_drive) es /\
    List.NoDup (map PyStr.lower es) /\
    List.Forall
      (fun e => In e emails3 /\ e <> "" /\
                GoogleDrive.holds service sample_drive e drive_shared = false)
      es.
Proof.
  apply (DriveSharing.drive_grants_each_once service RefFacts.permission_laws
           grant_laws sample_drive emails3 (mkWorld drive_shared [])).
Defined.

Example for_emails_grants_ann_once :
  List.filter GoogleDrive.is_grant
    (calls (snd (GoogleDrive.for_emails service sample_drive emails3
                   (mkWorld drive_shared []))))
  = [Paging.grant_call sample_drive "ann@example.com"].
Proof. reflexivity. Qed.

End RefMoreFacts.
